(** * Wardrobe AI Stylist: occasion matching, wardrobe filtering, outfit repair

    A shallow embedding of the rule engine of [backend/main.py]:
    - [match_occasion]              (Occasion Matcher),
    - [is_item_forbidden], [get_matching_items] and the dress / saree loop of
      [get_styling_advice]          (Wardrobe Filter),
    - [fix_complete_outfit_bottom]  (Outfit Repair),
    together with the pieces of the Python runtime they rest on: [str.lower],
    [str.strip], the [in] test on strings, [re.search] / [re.sub] for the two
    patterns the program uses, and [random.shuffle].

    Python strings are modelled as lists of characters over the code points
    U+0000..U+00FF (the type [ascii] read as Latin-1); exceptions are values
    of an error monad. *)

From Stdlib Require Import String.
From Stdlib Require Import List Ascii Bool Arith Lia Permutation.
Import Init.Datatypes ListNotations.

Set Implicit Arguments.

(** ** Python strings *)

Definition str := list ascii.

Module Text.

Definition LF : ascii := "010"%char.
Definition backslash : ascii := "\"%char.

(** [py] reads a literal the way Python source does for the escapes used in
    this development: backslash-n, backslash-t, backslash-r and a doubled
    backslash. *)
Fixpoint py (s : String.string) : str :=
  match s with
  | String.EmptyString => []
  | String.String c s1 =>
    if Ascii.eqb c backslash then
      match s1 with
      | String.String "n"%char s2 => LF :: py s2
      | String.String "t"%char s2 => "009"%char :: py s2
      | String.String "r"%char s2 => "013"%char :: py s2
      | String.String "\"%char s2 => backslash :: py s2
      | _ => c :: py s1
      end
    else c :: py s1
  end.

Arguments py s%_string.

Fixpoint str_eqb (a b : str) : bool :=
  match a, b with
  | [], [] => true
  | x :: a', y :: b' => Ascii.eqb x y && str_eqb a' b'
  | _, _ => false
  end.

(** [str.lower] on U+0000..U+00FF: A-Z, and the Latin-1 capitals
    U+00C0..U+00DE except the multiplication sign U+00D7. *)
Definition lower_char (c : ascii) : ascii :=
  let n := nat_of_ascii c in
  if ((65 <=? n) && (n <=? 90))
     || ((192 <=? n) && (n <=? 222) && negb (n =? 215))
  then ascii_of_nat (n + 32) else c.

Definition lower (s : str) : str := map lower_char s.

(** [str.isspace] for one character, which is also what the regular
    expression class for white space accepts on [str] patterns. *)
Definition isspace (c : ascii) : bool :=
  let n := nat_of_ascii c in
  ((9 <=? n) && (n <=? 13)) || ((28 <=? n) && (n <=? 32))
  || (n =? 133) || (n =? 160).

Fixpoint lstrip (s : str) : str :=
  match s with
  | c :: s' => if isspace c then lstrip s' else s
  | [] => []
  end.

Fixpoint rstrip (s : str) : str :=
  match s with
  | [] => []
  | c :: s' =>
    match rstrip s' with
    | [] => if isspace c then [] else [c]
    | r => c :: r
    end
  end.

(** [s.strip()] *)
Definition strip (s : str) : str := rstrip (lstrip s).

(** [s.startswith(p)] *)
Fixpoint startswith (p s : str) : bool :=
  match p with
  | [] => true
  | a :: p' =>
    match s with
    | c :: s' => Ascii.eqb a c && startswith p' s'
    | [] => false
    end
  end.

(** [needle in hay] *)
Fixpoint contains (needle hay : str) : bool :=
  startswith needle hay ||
  match hay with
  | [] => false
  | _ :: hay' => contains needle hay'
  end.

(** The lines joined by line breaks, as [str.join] does. *)
Fixpoint join_lines (lines : list str) : str :=
  match lines with
  | [] => []
  | [l] => l
  | l :: ls => l ++ LF :: join_lines ls
  end.

End Text.

Import Text.

(** ** Exceptions *)

(** [KeyError] of a dictionary, and the error raised while [re.sub] compiles
    its replacement template: [re.error], or [IndexError] when the template
    names a group that does not exist. *)
Inductive exn : Type :=
| KeyError (key : str)
| TemplateError (msg : String.string).

Arguments TemplateError msg%_string.

Inductive result (A : Type) : Type :=
| Ok (a : A)
| Raise (e : exn).

Arguments Ok {A} a.
Arguments Raise {A} e.

Definition bind {A B : Type} (r : result A) (k : A -> result B) : result B :=
  match r with
  | Ok a => k a
  | Raise e => Raise e
  end.

Notation "x <- c ;; k" := (bind c (fun x => k))
  (at level 61, c at next level, right associativity).

(** ** The two regular expressions of Outfit Repair

    [fix_complete_outfit_bottom] uses [Top:\s*(.+)] and [Bottom:\s*(.+)] with
    [re.IGNORECASE] (and the same without the group in [re.sub]).  A pattern
    of this family is given by its literal in lower case, [lit]. *)

Module Re.

(** The literal, compared ignoring case; the result is the text after it. *)
Fixpoint lit_ci (lit s : str) : option str :=
  match lit with
  | [] => Some s
  | a :: lit' =>
    match s with
    | c :: s' => if Ascii.eqb (lower_char c) a then lit_ci lit' s' else None
    | [] => None
    end
  end.

(** [.] matches every character but LF, so a greedy [.+] takes the rest of
    the line, and fails on an empty one. *)
Fixpoint line_of (s : str) : str :=
  match s with
  | [] => []
  | c :: s' => if Ascii.eqb c LF then [] else c :: line_of s'
  end.

Definition dot_plus (s : str) : option (nat * str) :=
  match line_of s with
  | [] => None
  | g => Some (0, g)
  end.

(** [\s*(.+)]: the white space is taken greedily and given back one
    character at a time until [.+] matches.  The result is the number of
    white-space characters kept by [\s*] and the group. *)
Fixpoint ws_dot_plus (s : str) : option (nat * str) :=
  match s with
  | c :: s' =>
    if isspace c then
      match ws_dot_plus s' with
      | Some (n, g) => Some (S n, g)
      | None => dot_plus s
      end
    else dot_plus s
  | [] => None
  end.

(** A match starting at the first character of [s]: its length and group 1. *)
Definition match_at (lit s : str) : option (nat * str) :=
  match lit_ci lit s with
  | Some r =>
    match ws_dot_plus r with
    | Some (n, g) => Some (length lit + n + length g, g)
    | None => None
    end
  | None => None
  end.

(** [re.search(pattern, s, re.IGNORECASE)]: group 1 of the leftmost match. *)
Fixpoint search (lit s : str) : option str :=
  match match_at lit s with
  | Some (_, g) => Some g
  | None =>
    match s with
    | [] => None
    | _ :: s' => search lit s'
    end
  end.

(** [re.sub] without [count]: every non-overlapping match, left to right, is
    replaced; [repl] receives the matched text.  [skip] counts the characters
    of the current match that are still to be passed over. *)
Fixpoint sub_from (lit : str) (repl : str -> str) (skip : nat) (s : str) : str :=
  match s with
  | [] => []
  | c :: s' =>
    match skip with
    | S k => sub_from lit repl k s'
    | O =>
      match match_at lit s with
      | Some (n, _) => repl (firstn n s) ++ sub_from lit repl (n - 1) s'
      | None => c :: sub_from lit repl 0 s'
      end
    end
  end.

Definition sub_all (lit : str) (repl : str -> str) (s : str) : str :=
  sub_from lit repl 0 s.

(** *** Replacement templates

    [re.sub] reads a string replacement as a template: a backslash starts an
    escape.  The patterns here have no capturing group, so the only group a
    template may name is group 0, the whole match.  The grammar is the one
    of CPython 3.12: a group is named by decimal digits only (earlier
    versions also take a sign, blanks or underscores in the number). *)

Inductive tpl_item : Type :=
| TLit (c : ascii)
| TGroup0.

Definition oct_val (c : ascii) : option nat :=
  let n := nat_of_ascii c in
  if (48 <=? n) && (n <=? 55) then Some (n - 48) else None.

Definition is_digit (c : ascii) : bool :=
  let n := nat_of_ascii c in (48 <=? n) && (n <=? 57).

Definition is_ascii_letter (c : ascii) : bool :=
  let n := nat_of_ascii c in
  ((65 <=? n) && (n <=? 90)) || ((97 <=? n) && (n <=? 122)).

Definition simple_escape (c : ascii) : option ascii :=
  if Ascii.eqb c "a" then Some "007"%char
  else if Ascii.eqb c "b" then Some "008"%char
  else if Ascii.eqb c "f" then Some "012"%char
  else if Ascii.eqb c "n" then Some "010"%char
  else if Ascii.eqb c "r" then Some "013"%char
  else if Ascii.eqb c "t" then Some "009"%char
  else if Ascii.eqb c "v" then Some "011"%char
  else if Ascii.eqb c backslash then Some backslash
  else None.

Inductive tmode : Type :=
| Normal
| GroupName (seen : bool).

Definition emit (i : list tpl_item) (r : result (list tpl_item)) :
  result (list tpl_item) :=
  t <- r ;; Ok (i ++ t).

Fixpoint parse_in (m : tmode) (t : str) {struct t} : result (list tpl_item) :=
  match m with
  | GroupName seen =>
    (* inside [\g<...>]: only a name that is a decimal 0 names a group *)
    match t with
    | [] => Raise (TemplateError "missing >, unterminated name")
    | c :: t' =>
      if Ascii.eqb c ">" then
        if seen then emit [TGroup0] (parse_in Normal t')
        else Raise (TemplateError "missing group name")
      else if Ascii.eqb c "0" then parse_in (GroupName true) t'
      else Raise (TemplateError "invalid group reference")
    end
  | Normal =>
    match t with
    | [] => Ok []
    | c :: t1 =>
      if negb (Ascii.eqb c backslash) then emit [TLit c] (parse_in Normal t1)
      else
        match t1 with
        | [] => Raise (TemplateError "bad escape (end of pattern)")
        | e :: t2 =>
          if Ascii.eqb e "g" then
            match t2 with
            | "<"%char :: t3 => parse_in (GroupName false) t3
            | _ => Raise (TemplateError "missing <")
            end
          else if Ascii.eqb e "0" then
            (* octal escape of up to three digits *)
            match t2 with
            | d1 :: t3 =>
              match oct_val d1 with
              | Some v1 =>
                match t3 with
                | d2 :: t4 =>
                  match oct_val d2 with
                  | Some v2 =>
                    emit [TLit (ascii_of_nat (8 * v1 + v2))] (parse_in Normal t4)
                  | None => emit [TLit (ascii_of_nat v1)] (parse_in Normal t3)
                  end
                | [] => emit [TLit (ascii_of_nat v1)] (parse_in Normal t3)
                end
              | None => emit [TLit zero] (parse_in Normal t2)
              end
            | [] => emit [TLit zero] (parse_in Normal t2)
            end
          else if is_digit e then
            (* three octal digits are a character, anything else a group
               reference, and there is no group 1 or above *)
            match t2 with
            | d1 :: t3 =>
              match oct_val e, oct_val d1, t3 with
              | Some v0, Some v1, d2 :: t4 =>
                match oct_val d2 with
                | Some v2 =>
                  if 64 * v0 + 8 * v1 + v2 <=? 255 then
                    emit [TLit (ascii_of_nat (64 * v0 + 8 * v1 + v2))]
                         (parse_in Normal t4)
                  else Raise (TemplateError "octal escape value outside of range 0-0o377")
                | None => Raise (TemplateError "invalid group reference")
                end
              | _, _, _ => Raise (TemplateError "invalid group reference")
              end
            | [] => Raise (TemplateError "invalid group reference")
            end
          else
            match simple_escape e with
            | Some ch => emit [TLit ch] (parse_in Normal t2)
            | None =>
              if is_ascii_letter e then Raise (TemplateError "bad escape")
              else emit [TLit backslash; TLit e] (parse_in Normal t2)
            end
        end
    end
  end.

Definition parse_template (t : str) : result (list tpl_item) :=
  parse_in Normal t.

Definition expand (t : list tpl_item) (matched : str) : str :=
  flat_map (fun i => match i with TLit c => [c] | TGroup0 => matched end) t.

(** [re.sub(pattern, template, s, flags=re.IGNORECASE)].  The template is
    compiled before the text is searched, so a bad escape raises even when
    nothing matches. *)
Definition sub (lit template s : str) : result str :=
  t <- parse_template template ;;
  Ok (sub_all lit (expand t) s).

End Re.

(** ** Outfit Repair *)

Module Repair.

Definition top_lit : str := py "top:".
Definition bottom_lit : str := py "bottom:".

Definition complete_outfit_keywords : list str :=
  [py "saree"; py "sari"; py "set"; py "lehenga"; py "anarkali"; py "sharara";
   py "suit"; py "chudi"; py "salwar"; py "dress"; py "gown"; py "frock";
   py "maxi"].

(** [any(keyword in text for keyword in complete_outfit_keywords)] *)
Definition is_complete_outfit (text : str) : bool :=
  existsb (fun keyword => contains keyword text) complete_outfit_keywords.

(** [m.group(1).strip()] when there is a match [m], the empty string
    otherwise *)
Definition extract (lit suggestion : str) : str :=
  match Re.search lit suggestion with
  | Some g => strip g
  | None => []
  end.

Definition top_item_of (suggestion : str) : str := extract top_lit suggestion.
Definition bottom_item_of (suggestion : str) : str := extract bottom_lit suggestion.

Definition is_none (top_lower : str) : bool :=
  str_eqb top_lower (py "none needed") || str_eqb top_lower (py "none").

Definition is_empty (s : str) : bool :=
  match s with [] => true | _ => false end.

Definition bottom_none_needed : str := py "Bottom: None needed".
Definition top_placeholder : str := py "Top: (Please select a top item)".

Definition fix_complete_outfit_bottom (suggestion : str) : result str :=
  let top_item := top_item_of suggestion in
  let bottom_item := bottom_item_of suggestion in
  let top_lower := lower top_item in
  let bottom_lower := lower bottom_item in
  (* FIX 1 *)
  let bottom_is_complete_outfit := is_complete_outfit bottom_lower in
  if bottom_is_complete_outfit
     && (str_eqb top_lower (py "none needed") || str_eqb top_lower (py "none")
         || is_empty top_item)
  then
    suggestion <- Re.sub top_lit (py "Top: " ++ bottom_item) suggestion ;;
    suggestion <- Re.sub bottom_lit bottom_none_needed suggestion ;;
    Ok suggestion
  else
    (* FIX 2 *)
    suggestion <- (if bottom_is_complete_outfit
                   then Re.sub bottom_lit bottom_none_needed suggestion
                   else Ok suggestion) ;;
    (* FIX 3 *)
    let top_is_complete_outfit := is_complete_outfit top_lower in
    suggestion <- (if top_is_complete_outfit
                   then Re.sub bottom_lit bottom_none_needed suggestion
                   else Ok suggestion) ;;
    (* FIX 4 *)
    suggestion <- (if str_eqb top_lower (py "none needed")
                      || str_eqb top_lower (py "none")
                   then Re.sub top_lit top_placeholder suggestion
                   else Ok suggestion) ;;
    Ok suggestion.

End Repair.

(** ** Occasion Matcher *)

(** A Python [dict] with string keys, in insertion order. *)
Definition dict (V : Type) : Type := list (str * V).

(** [d[k]] when it exists *)
Fixpoint dict_get {V : Type} (d : dict V) (k : str) : option V :=
  match d with
  | [] => None
  | (k', v) :: d' => if str_eqb k' k then Some v else dict_get d' k
  end.

Module Occasion.

(** One entry of [occasion_rules.json].  The program reads
    [forbidden_categories] with [.get], so that key may be missing; it
    indexes the other keys directly, and they are taken to be present. *)
Record rules : Type := {
  keywords : list str;
  allowed_categories : dict (list str);
  forbidden_categories : option (list str);
  style_notes : str
}.

(** The loaded [OCCASION_RULES]; [default_occasion] is read with [.get]. *)
Record config : Type := {
  occasions : dict rules;
  default_occasion : option str
}.

(** The two nested [for] loops of [match_occasion]: the first occasion, in
    dictionary order, one of whose keywords is [in user_lower]. *)
Fixpoint first_keyword_match (user_lower : str) (occs : dict rules) :
  option (str * rules) :=
  match occs with
  | [] => None
  | (occasion_name, r) :: rest =>
    if existsb (fun keyword => contains keyword user_lower) (keywords r)
    then Some (occasion_name, r)
    else first_keyword_match user_lower rest
  end.

(** The default occasion name, read with [.get]: [casual] when the key is
    missing. *)
Definition default_name (OCCASION_RULES : config) : str :=
  match default_occasion OCCASION_RULES with
  | Some d => d
  | None => py "casual"
  end.

Definition match_occasion (OCCASION_RULES : config) (user_input : str) :
  result (str * rules) :=
  let user_lower := lower user_input in
  match first_keyword_match user_lower (occasions OCCASION_RULES) with
  | Some m => Ok m
  | None =>
    let default := default_name OCCASION_RULES in
    match dict_get (occasions OCCASION_RULES) default with
    | Some r => Ok (default, r)
    | None => Raise (KeyError default)
    end
  end.

End Occasion.

(** ** [random.shuffle] *)

Module Random.

(** The generator is the sequence of values its next calls produce. *)
Definition rng : Type := list nat.

Definition randbelow (n : nat) (g : rng) : nat * rng :=
  match g with
  | [] => (0, [])
  | r :: g' => (r mod n, g')
  end.

Fixpoint set_nth {A : Type} (i : nat) (a : A) (x : list A) : list A :=
  match x, i with
  | [], _ => []
  | _ :: x', O => a :: x'
  | b :: x', S i' => b :: set_nth i' a x'
  end.

(** [x[i], x[j] = x[j], x[i]] *)
Definition swap {A : Type} (i j : nat) (x : list A) : list A :=
  match nth_error x i, nth_error x j with
  | Some a, Some b => set_nth i b (set_nth j a x)
  | _, _ => x
  end.

(** [for i in reversed(range(1, len(x))): j = randbelow(i + 1); swap] *)
Fixpoint shuffle_loop {A : Type} (i : nat) (x : list A) (g : rng) :
  list A * rng :=
  match i with
  | O => (x, g)
  | S i' =>
    let (j, g') := randbelow (S i) g in
    shuffle_loop i' (swap i j x) g'
  end.

Definition shuffle {A : Type} (x : list A) (g : rng) : list A * rng :=
  shuffle_loop (length x - 1) x g.

End Random.

(** ** Wardrobe Filter *)

Module Wardrobe.

Import Occasion Random.

Record item : Type := {
  name : str;
  category : str
}.

(** [if cat not in d: d[cat] = []] then [d[cat].append(nm)] *)
Fixpoint dict_append (cat nm : str) (d : dict (list str)) : dict (list str) :=
  match d with
  | [] => [(cat, [nm])]
  | (k, v) :: d' =>
    if str_eqb k cat then (k, v ++ [nm]) :: d'
    else (k, v) :: dict_append cat nm d'
  end.

Definition items_by_category (closet : list item) : dict (list str) :=
  fold_left (fun d it => dict_append (strip (category it)) (name it) d)
            closet [].

(** [occasion_rules.get("forbidden_categories", [])] *)
Definition forbidden_of (occasion_rules : rules) : list str :=
  match forbidden_categories occasion_rules with
  | Some f => f
  | None => []
  end.

Definition is_item_forbidden (occasion_rules : rules)
  (item_name category : str) : bool :=
  let forbidden := forbidden_of occasion_rules in
  let item_lower := lower item_name in
  let cat_lower := lower category in
  existsb (fun f =>
             let f_lower := lower f in
             contains f_lower item_lower || contains f_lower cat_lower)
          forbidden.

(** [occasion_rules["allowed_categories"].get(category_type, [])] *)
Definition allowed_for (occasion_rules : rules) (category_type : str) :
  list str :=
  match dict_get (allowed_categories occasion_rules) category_type with
  | Some a => a
  | None => []
  end.

(** The list built by the two loops of [get_matching_items], before the
    shuffle. *)
Definition matching_items (occasion_rules : rules)
  (by_category : dict (list str)) (category_type : str) : list str :=
  let allowed := allowed_for occasion_rules category_type in
  flat_map (fun '(cat, items) =>
    flat_map (fun item =>
      if is_item_forbidden occasion_rules item cat then []
      else
        let cat_lower := lower cat in
        let item_lower := lower item in
        let is_allowed :=
          existsb (fun a => contains (lower a) item_lower
                            || contains (lower a) cat_lower) allowed in
        if is_allowed then [item]
        else if length allowed =? 0 then [item]
        else []) items) by_category.

Definition get_matching_items (occasion_rules : rules)
  (by_category : dict (list str)) (category_type : str) (g : rng) :
  list str * rng :=
  shuffle (matching_items occasion_rules by_category category_type) g.

Definition dress_keywords : list str :=
  [py "dress"; py "gown"; py "frock"; py "set"; py "suit"].

(** The loop that fills [all_dresses] and [all_sarees]. *)
Definition complete_outfits (occasion_rules : rules)
  (by_category : dict (list str)) : list str * list str :=
  fold_left (fun acc '(cat, items) =>
    let cat_lower := lower cat in
    fold_left (fun '(all_dresses, all_sarees) item =>
      if is_item_forbidden occasion_rules item cat
      then (all_dresses, all_sarees)
      else if existsb (fun d => contains d cat_lower) dress_keywords
      then (all_dresses ++ [item], all_sarees)
      else if contains (py "saree") cat_lower || contains (py "sari") cat_lower
      then (all_dresses, all_sarees ++ [item])
      else (all_dresses, all_sarees)) items acc) by_category ([], []).

Record FilteredSelection : Type := {
  filtered_tops : list str;
  filtered_bottoms : list str;
  filtered_shoes : list str;
  filtered_accessories : list str;
  all_dresses : list str;
  all_sarees : list str
}.

(** The filtering stage of [get_styling_advice], from the grouping of the
    closet to the six lists it hands to [format_list]. *)
Definition filter_wardrobe (occasion_rules : rules) (closet : list item)
  (g : rng) : FilteredSelection * rng :=
  let by_category := items_by_category closet in
  let (tops, g1) := get_matching_items occasion_rules by_category (py "tops") g in
  let (bottoms, g2) := get_matching_items occasion_rules by_category (py "bottoms") g1 in
  let (shoes, g3) := get_matching_items occasion_rules by_category (py "shoes") g2 in
  let (accessories, g4) :=
    get_matching_items occasion_rules by_category (py "accessories") g3 in
  let (dresses, sarees) := complete_outfits occasion_rules by_category in
  ({| filtered_tops := tops; filtered_bottoms := bottoms;
      filtered_shoes := shoes; filtered_accessories := accessories;
      all_dresses := dresses; all_sarees := sarees |}, g4).

(** What the selection stage of a request comes to: the early return for an
    empty closet, or the matched occasion with the filtered lists. *)
Inductive selection : Type :=
| WardrobeEmpty
| Selected (occasion_name : str) (lists : FilteredSelection).

(** Occasion matching followed by filtering, as [get_styling_advice] runs
    them for a request: [if not closet: return ...], then [match_occasion],
    then the filter. *)
Definition select_for_request (OCCASION_RULES : config) (occasion : str)
  (closet : list item) (g : rng) : result selection :=
  match closet with
  | [] => Ok WardrobeEmpty
  | _ :: _ =>
    matched <- match_occasion OCCASION_RULES occasion ;;
    let occasion_name := fst matched in
    let occasion_rules := snd matched in
    Ok (Selected occasion_name (fst (filter_wardrobe occasion_rules closet g)))
  end.

End Wardrobe.

(** ** A reply read line by line

    The prompt of [get_styling_advice] asks the generator for a rationale
    followed by a [Top:] line, a [Bottom:] line and the [Shoes:] and
    [Accessory:] lines.  A reply is read here as a list of lines: plain
    lines, which mention neither label, and labelled lines, which start with
    one of the two labels and carry its value. *)

Module Layout.

Import Repair.

Inductive label : Type :=
| TopLabel
| BottomLabel.

Definition lit_of (k : label) : str :=
  match k with
  | TopLabel => top_lit
  | BottomLabel => bottom_lit
  end.

Definition other (k : label) : label :=
  match k with
  | TopLabel => BottomLabel
  | BottomLabel => TopLabel
  end.

Definition same_label (k k' : label) : bool :=
  match k, k' with
  | TopLabel, TopLabel | BottomLabel, BottomLabel => true
  | _, _ => false
  end.

(** A labelled line is the label as written, the white space after it and
    the value. *)
Inductive line : Type :=
| Plain (l : str)
| Labelled (k : label) (h sp v : str).

Definition render (ln : line) : str :=
  match ln with
  | Plain l => l
  | Labelled _ h sp v => h ++ sp ++ v
  end.

Definition text_of (ls : list line) : str := join_lines (map render ls).

Definition is_label (k : label) (ln : line) : bool :=
  match ln with
  | Plain _ => false
  | Labelled k' _ _ _ => same_label k k'
  end.

(** The value on the first line with the label, when there is one. *)
Fixpoint value_of (k : label) (ls : list line) : option str :=
  match ls with
  | [] => None
  | Plain _ :: ls' => value_of k ls'
  | Labelled k' _ _ v :: ls' =>
    if same_label k k' then Some v else value_of k ls'
  end.

(** The lines with the label are replaced by one and the same line. *)
Definition replace (k : label) (h sp v : str) (ls : list line) : list line :=
  map (fun ln => if is_label k ln then Labelled k h sp v else ln) ls.

(** [lit in l.lower()] *)
Definition mentions (lit l : str) : bool := contains lit (lower l).

(** A value is not blank: it starts with a visible character and stays on
    its line. *)
Definition value_ok (v : str) : bool :=
  negb (is_empty v) && negb (isspace (hd LF v))
  && negb (existsb (Ascii.eqb LF) v).

(** A plain line mentions neither label.  A labelled line starts with its
    label, has a value, and does not mention the other label; the value of a
    Bottom line does not mention the Bottom label again and holds no
    backslash. *)
Definition line_ok (ln : line) : bool :=
  match ln with
  | Plain l => negb (mentions top_lit l) && negb (mentions bottom_lit l)
  | Labelled k h sp v =>
    str_eqb (lower h) (lit_of k) && forallb isspace sp && value_ok v
    && negb (mentions (lit_of (other k)) (h ++ sp ++ v))
    && match k with
       | TopLabel => true
       | BottomLabel =>
         negb (mentions bottom_lit v)
         && negb (existsb (Ascii.eqb backslash) v)
       end
  end.

(** Every line is in order and each label starts at most one line. *)
Definition well_formed (ls : list line) : bool :=
  forallb line_ok ls
  && (length (filter (is_label TopLabel) ls) <=? 1)
  && (length (filter (is_label BottomLabel) ls) <=? 1).

Definition item_of (k : label) (ls : list line) : str :=
  match value_of k ls with
  | Some v => strip v
  | None => []
  end.

Definition set_top (v : str) (ls : list line) : list line :=
  replace TopLabel (py "Top:") (py " ") v ls.

Definition set_bottom_none (ls : list line) : list line :=
  replace BottomLabel (py "Bottom:") (py " ") (py "None needed") ls.

(** The four rules of Outfit Repair, read on the lines of the reply. *)
Definition repaired (ls : list line) : list line :=
  let top_item := item_of TopLabel ls in
  let bottom_item := item_of BottomLabel ls in
  let top := lower top_item in
  let bottom := lower bottom_item in
  if is_complete_outfit bottom && (is_none top || is_empty top_item) then
    set_bottom_none (set_top bottom_item ls)
  else
    let ls1 := if is_complete_outfit bottom then set_bottom_none ls else ls in
    let ls2 := if is_complete_outfit top then set_bottom_none ls1 else ls1 in
    if is_none top then set_top (py "(Please select a top item)") ls2 else ls2.

End Layout.

(** ** Vocabulary of the statements *)

Module Props.

Import Occasion Random Wardrobe Repair Layout.

(** *** Strings and lines *)

(** The key word holds no white space. *)
Definition ws_free (k : str) : bool := forallb (fun c => negb (isspace c)) k.

(** The text after a match is empty or starts a new line. *)
Definition at_line_end (r : str) : Prop :=
  match r with
  | [] => True
  | c :: _ => c = LF
  end.

(** The label does not occur in the line, ignoring case. *)
Definition free (lit l : str) : Prop := contains lit (lower l) = false.

(** No occurrence of the label starts inside [x] when [y] follows. *)
Definition no_start (lit x y : str) : Prop :=
  forall x1 x2, x = x1 ++ x2 -> x2 <> [] -> Re.lit_ci lit (x2 ++ y) = None.

(** A line made of the label, white space and a value that starts with a
    visible character. *)
Definition label_line (lit h sp v : str) : Prop :=
  lower h = lit /\ forallb isspace sp = true /\ v <> []
  /\ isspace (hd LF v) = false /\ ~ In LF v.

Definition all_LF (r : str) : bool := forallb (Ascii.eqb LF) r.

(** *** Occasion Matcher *)

(** The key word occurs in the input, ignoring case. *)
Definition keyword_matches (keyword user_input : str) : bool :=
  contains (lower keyword) (lower user_input).

(** The matcher as the specification words it: the first occasion, in
    table order, with a key word that occurs in the input ignoring case. *)
Fixpoint first_matching_occasion (user_input : str) (occs : dict rules) :
  option (str * rules) :=
  match occs with
  | [] => None
  | (occasion_name, r) :: rest =>
    if existsb (fun keyword => keyword_matches keyword user_input) (keywords r)
    then Some (occasion_name, r)
    else first_matching_occasion user_input rest
  end.

(** Every key word of the table is written in lower case. *)
Definition lower_case_keywords (occs : dict rules) : Prop :=
  forall occasion_name r keyword,
    In (occasion_name, r) occs -> In keyword (keywords r) ->
    lower keyword = keyword.

(** *** Wardrobe Filter *)

(** A forbidden descriptor occurs, ignoring case, in the name or in the
    category text [cat]. *)
Definition has_forbidden_descriptor (occasion_rules : rules)
  (nm cat : str) : Prop :=
  exists f, In f (forbidden_of occasion_rules)
            /\ (contains (lower f) (lower nm) = true
                \/ contains (lower f) (lower cat) = true).

(** The forbidden test on the item as stored: its category is not trimmed. *)
Definition forbidden_as_stored (occasion_rules : rules) (it : item) : bool :=
  existsb (fun f => contains (lower f) (lower (name it))
                    || contains (lower f) (lower (category it)))
          (forbidden_of occasion_rules).

(** The forbidden test as the program applies it to a wardrobe item: on its
    name and its trimmed category. *)
Definition forbidden_item (occasion_rules : rules) (it : item) : bool :=
  is_item_forbidden occasion_rules (name it) (strip (category it)).

(** The same test written out on the record of the rule, without the
    functions of the filter: a descriptor of the forbidden list, when the
    rule has one, occurs ignoring case in the name of the item or in its
    trimmed category. *)
Definition forbidden_on_trimmed (occasion_rules : rules) (it : item) : bool :=
  match forbidden_categories occasion_rules with
  | Some descriptors =>
    existsb (fun d => contains (lower d) (lower (name it))
                      || contains (lower d) (lower (strip (category it))))
            descriptors
  | None => false
  end.

(** The test the loop body of [get_matching_items] applies to one item, on
    its name and the key it is grouped under. *)
Definition passes (occasion_rules : rules) (category_type : str)
  (nm cat : str) : bool :=
  let allowed := allowed_for occasion_rules category_type in
  negb (is_item_forbidden occasion_rules nm cat)
  && (existsb (fun a => contains (lower a) (lower nm)
                        || contains (lower a) (lower cat)) allowed
      || (length allowed =? 0)).

(** The same test on a wardrobe item: its category is trimmed first. *)
Definition selected (occasion_rules : rules) (category_type : str)
  (it : item) : bool :=
  passes occasion_rules category_type (name it) (strip (category it)).

(** The grouped closet read back as (key, name) pairs. *)
Definition entries (d : dict (list str)) : list (str * str) :=
  flat_map (fun '(cat, items) => map (fun nm => (cat, nm)) items) d.

Definition entry_of (it : item) : str * str := (strip (category it), name it).

Definition saree_keywords : list str := [py "saree"; py "sari"].

(** [any(k in text for k in kws)] *)
Definition has_keyword (kws : list str) (text : str) : bool :=
  existsb (fun k => contains k text) kws.

(** The category of the item, as stored, contains one of the key words,
    ignoring case. *)
Definition category_has (kws : list str) (it : item) : bool :=
  has_keyword kws (lower (category it)).

Definition dress_entry (r : rules) (cat nm : str) : bool :=
  negb (is_item_forbidden r nm cat) && has_keyword dress_keywords (lower cat).

Definition saree_entry (r : rules) (cat nm : str) : bool :=
  negb (is_item_forbidden r nm cat)
  && negb (has_keyword dress_keywords (lower cat))
  && has_keyword saree_keywords (lower cat).

End Props.

(** ** Example data *)

Module Examples.

Import Occasion Random Wardrobe Repair Layout.

Definition mk_item (nm cat : str) : item := {| name := nm; category := cat |}.

(** An occasion that allows everything and forbids nothing. *)
Definition rules_open : rules :=
  {| keywords := [py "casual"];
     allowed_categories := [];
     forbidden_categories := None;
     style_notes := py "Keep it relaxed." |}.

Definition rules_wedding : rules :=
  {| keywords := [py "wedding"; py "marriage"];
     allowed_categories :=
       [(py "tops", [py "saree"; py "kurta"; py "blouse"]);
        (py "bottoms", [py "trouser"; py "skirt"]);
        (py "shoes", [py "sandal"; py "heel"]);
        (py "accessories", [])];
     forbidden_categories := Some [py "gym"; py "shorts"];
     style_notes := py "Prefer rich fabrics." |}.

(** A forbidden descriptor that ends in a space. *)
Definition rules_gym : rules :=
  {| keywords := [py "office"];
     allowed_categories := [];
     forbidden_categories := Some [py "gym "];
     style_notes := [] |}.

Definition white_shirt : item := mk_item (py "white shirt") (py "Top").
Definition grey_tee : item := mk_item (py "grey tee") (py "gym ").
Definition gym_shorts : item := mk_item (py "gym shorts") (py "Bottom").
Definition silk_set : item := mk_item (py "silk drape") (py "Saree Set").
Definition red_saree : item := mk_item (py "red saree") (py "Saree").
Definition gold_sandals : item := mk_item (py "gold sandals") (py "Shoes").

Definition closet : list item :=
  [white_shirt; gym_shorts; red_saree; gold_sandals; silk_set].

Definition config_wedding : config :=
  {| occasions := [(py "wedding", rules_wedding); (py "casual", rules_open)];
     default_occasion := Some (py "casual") |}.

(** The same table with the key word capitalised. *)
Definition rules_capital : rules :=
  {| keywords := [py "Wedding"];
     allowed_categories := allowed_categories rules_wedding;
     forbidden_categories := forbidden_categories rules_wedding;
     style_notes := style_notes rules_wedding |}.

Definition config_capital : config :=
  {| occasions := [(py "wedding", rules_capital); (py "casual", rules_open)];
     default_occasion := Some (py "casual") |}.

(** A table whose default occasion is not one of its occasions. *)
Definition config_no_default : config :=
  {| occasions := [(py "wedding", rules_wedding)];
     default_occasion := Some (py "casual") |}.

(** A reply in the layout of the prompt, with the saree in the wrong slot. *)
Definition reply_saree : list line :=
  [Plain (py "Overall Outfit Suggestion:");
   Plain (py "The red saree is elegant. It suits a wedding.");
   Plain [];
   Labelled TopLabel (py "Top:") (py " ") (py "None needed");
   Labelled BottomLabel (py "Bottom:") (py " ") (py "red saree");
   Plain (py "Shoes: gold sandals");
   Plain (py "Accessory: Not available in wardrobe")].

(** A reply with a dress on top and a separate bottom, the labels in
    capitals and no line after them. *)
Definition reply_dress : list line :=
  [Plain (py "A floral dress keeps the look light.");
   Labelled TopLabel (py "TOP:") (py "  ") (py "floral dress");
   Labelled BottomLabel (py "BOTTOM:") (py " ") (py "denim shorts")].

End Examples.

(** * The rest of the backend

    The functions of [backend/main.py] around the rule engine, and what they
    call in [backend/database.py] and [backend/image_classification.py]:
    the weather advice, the item lists of the prompt, the tables and the
    endpoints that delete from them, a styling request from the request to
    the response, the naming of an item from its picture and the adding of
    an item.  The services behind them are given by what they return: the
    weather that was fetched, the text of the generator, the outcome of a
    call to the classifier, the rows of a table. *)

(** ** Weather advice

    [get_weather_condition] and [get_weather_advice] of [backend/main.py].
    A weather code and a rounded temperature are Python integers. *)

From Stdlib Require Import ZArith.

Module Weather.

(** [sep.join(parts)] *)
Fixpoint join (sep : str) (parts : list str) : str :=
  match parts with
  | [] => []
  | [p] => p
  | p :: ps => p ++ sep ++ join sep ps
  end.

(** The table of [get_weather_condition], in the order it is written. *)
Definition conditions : list (Z * (str * str)) :=
  [(0%Z, (py "Clear", py "clear sky")); (1%Z, (py "Clear", py "mainly clear"));
   (2%Z, (py "Clouds", py "partly cloudy")); (3%Z, (py "Clouds", py "overcast"));
   (45%Z, (py "Fog", py "foggy")); (48%Z, (py "Fog", py "rime fog"));
   (51%Z, (py "Drizzle", py "light drizzle"));
   (53%Z, (py "Drizzle", py "moderate drizzle"));
   (55%Z, (py "Drizzle", py "dense drizzle"));
   (61%Z, (py "Rain", py "slight rain")); (63%Z, (py "Rain", py "moderate rain"));
   (65%Z, (py "Rain", py "heavy rain")); (80%Z, (py "Rain", py "rain showers"));
   (95%Z, (py "Thunderstorm", py "thunderstorm"))].

(** [d.get(code)] on a dictionary with integer keys *)
Fixpoint code_get {V : Type} (d : list (Z * V)) (code : Z) : option V :=
  match d with
  | [] => None
  | (k, v) :: d' => if Z.eqb k code then Some v else code_get d' code
  end.

(** The pair (condition, description) of a weather code. *)
Definition get_weather_condition (code : Z) : str * str :=
  match code_get conditions code with
  | Some c => c
  | None => (py "Unknown", py "unknown")
  end.

(** The dictionary [get_weather] returns, with the keys read after it:
    [temp] is the rounded temperature, [condition] and [description] come
    from [get_weather_condition]. *)
Record weather : Type := {
  city : str;
  temp : Z;
  condition : str;
  description : str
}.

Definition hot_note : str := py "It's hot! Suggest light, breathable fabrics.".
Definition cold_note : str := py "It's cold! Suggest warm layers.".
Definition rain_note : str := py "It's rainy! Suggest water-resistant items.".

(** [get_weather_advice]; its argument is [None] when the weather could not
    be fetched. *)
Definition get_weather_advice (weather : option weather) : str :=
  match weather with
  | None => []
  | Some weather =>
    let advice : list str := [] in
    let temp := temp weather in
    let condition := lower (condition weather) in
    let advice :=
      if (temp >=? 30)%Z then advice ++ [hot_note]
      else if (temp <=? 15)%Z then advice ++ [cold_note]
      else advice in
    let advice :=
      if contains (py "rain") condition then advice ++ [rain_note]
      else advice in
    join (py " ") advice
  end.

End Weather.

(** ** The item lists of the prompt *)

Module Prompt.

Import Random.

Definition no_items : str := py "(No items available for this occasion)".

(** [format_list] of [get_styling_advice]: the items are shuffled once more
    and written one to a line after a dash. *)
Definition format_list (items : list str) (g : rng) : str * rng :=
  match items with
  | [] => (no_items, g)
  | _ :: _ =>
    let (items, g) := shuffle items g in
    (join_lines (map (fun item => py "- " ++ item) items), g)
  end.

End Prompt.

(** ** The tables of [backend/database.py]

    A table is the list of its rows in the order a [SELECT] returns them.
    The [=] of a [WHERE] clause compares two strings by the collation of the
    column; it is the parameter [sql_eq] of the queries.  The statements of
    one function run on the same rows: no other client writes in between. *)

Module Database.

Record profile_row : Type := {
  p_id : str;
  p_name : str;
  p_is_owner : option Z
}.

Record item_row : Type := {
  i_id : Z;
  i_name : str;
  i_category : str;
  i_profile_id : str;
  i_image : option str
}.

Record favorite_row : Type := {
  f_id : str;
  f_profile_id : str;
  f_occasion : str;
  f_items : str;
  f_explanation : option str;
  f_saved_at : option str
}.

Record tables : Type := {
  profiles : list profile_row;
  items : list item_row;
  favorites : list favorite_row
}.

(** The dictionaries the read functions return. *)
Record profile : Type := {
  id : str;
  name : str;
  isOwner : bool
}.

(** [bool(row["is_owner"])] *)
Definition owner_flag (v : option Z) : bool :=
  match v with
  | Some n => negb (Z.eqb n 0)
  | None => false
  end.

(** The truth value of an optional string: [None] and the empty string are
    false. *)
Definition truthy (s : option str) : bool :=
  match s with
  | Some (_ :: _) => true
  | _ => false
  end.

Section Queries.

Variable sql_eq : str -> str -> bool.

Definition get_all_profiles (db : tables) : list profile :=
  map (fun row => {| id := p_id row; name := p_name row;
                     isOwner := owner_flag (p_is_owner row) |})
      (profiles db).

(** [WHERE profile_id = %s] on the items table *)
Definition of_profile (profile_id : str) (row : item_row) : bool :=
  sql_eq (i_profile_id row) profile_id.

(** The rows are returned whole: the dictionary of an item has the keys
    [id], [name], [category], [profileId] and [image] of its row. *)
Definition get_items_by_profile (db : tables) (profile_id : str) :
  list item_row :=
  filter (of_profile profile_id) (items db).

Definition get_all_items (db : tables) : list item_row := items db.

(** [db.delete_profile]: the images of the profile's items that are not
    [NULL], and the tables without the rows of the profile. *)
Definition db_delete_profile (db : tables) (profile_id : str) :
  list str * tables :=
  let images :=
    flat_map (fun row => match i_image row with
                         | Some image => [image]
                         | None => []
                         end)
             (filter (of_profile profile_id) (items db)) in
  (images,
   {| profiles := filter (fun row => negb (sql_eq (p_id row) profile_id))
                         (profiles db);
      items := filter (fun row => negb (of_profile profile_id row)) (items db);
      favorites := filter (fun row => negb (sql_eq (f_profile_id row) profile_id))
                          (favorites db) |}).

(** The [WHERE] clause of [db.delete_item]: the profile is compared only when
    a profile id is given and is not empty. *)
Definition item_matches (item_name : str) (profile_id : option str)
  (row : item_row) : bool :=
  match profile_id with
  | Some (c :: p) =>
    sql_eq (i_name row) item_name && sql_eq (i_profile_id row) (c :: p)
  | _ => sql_eq (i_name row) item_name
  end.

(** [db.delete_item]: [fetchone] reads the first matching row, the
    [DELETE] removes every matching row, and the image of the first row is
    returned when a row was deleted. *)
Definition db_delete_item (db : tables) (item_name : str)
  (profile_id : option str) : option str * tables :=
  let row := find (item_matches item_name profile_id) (items db) in
  let image := match row with
               | Some row => i_image row
               | None => None
               end in
  let rowcount :=
    length (filter (item_matches item_name profile_id) (items db)) in
  let deleted := 0 <? rowcount in
  (if deleted then image else None,
   {| profiles := profiles db;
      items := filter (fun row => negb (item_matches item_name profile_id row))
                      (items db);
      favorites := favorites db |}).

Definition delete_favorite (db : tables) (fav_id : str) : bool * tables :=
  let rowcount :=
    length (filter (fun row => sql_eq (f_id row) fav_id) (favorites db)) in
  (0 <? rowcount,
   {| profiles := profiles db;
      items := items db;
      favorites := filter (fun row => negb (sql_eq (f_id row) fav_id))
                          (favorites db) |}).

End Queries.

End Database.

(** ** The endpoints that delete

    An endpoint returns its message, the images whose files it removes from
    the uploads directory (when they exist there), and the tables. *)

Module Endpoints.

Import Database.

Section Routes.

Variable sql_eq : str -> str -> bool.

Inductive delete_reply : Type :=
| Deleted (item_name : str)
| NotFound (item_name : str).

(** [DELETE /delete-item/{item_name}] *)
Definition delete_item (db : tables) (item_name : str)
  (profile_id : option str) : delete_reply * list str * tables :=
  let (image, db) := db_delete_item sql_eq db item_name profile_id in
  match image with
  | Some (c :: i) => (Deleted item_name, [c :: i], db)
  | _ => (NotFound item_name, [], db)
  end.

(** [DELETE /profiles/{profile_id}]: the reply is always the same message,
    so the result is the removed images and the tables. *)
Definition delete_profile (db : tables) (profile_id : str) :
  list str * tables :=
  let (images_to_delete, db) := db_delete_profile sql_eq db profile_id in
  (filter (fun image => truthy (Some image)) images_to_delete, db).

End Routes.

End Endpoints.

(** ** A styling request

    [get_styling_advice] from the request to the response.  The weather
    that was fetched and the text the generator returned are given.  The
    lists are filtered and formatted for the prompt, which draws from the
    random generator; the prompt itself is not part of the response. *)

Module Request.

Import Occasion Random Wardrobe Repair Database Weather Prompt.

Inductive response : Type :=
| EmptyWardrobe (suggestion : str)
| Styled (suggestion : str) (weather : option weather)
         (items : list item_row) (matched_occasion : str).

(** [profile["name"] if profile else "User"] for the first profile with the
    id of the request *)
Definition profile_name_of (profiles : list profile) (profileId : str) : str :=
  match find (fun p => str_eqb (id p) profileId) profiles with
  | Some profile => Database.name profile
  | None => py "User"
  end.

Definition empty_message (profile_name : str) : str :=
  profile_name ++ py "'s wardrobe is empty! Add items first.".

(** The wardrobe items as the filter reads them. *)
Definition closet_of (rows : list item_row) : list item :=
  map (fun row => {| Wardrobe.name := i_name row;
                     category := i_category row |}) rows.

Definition get_styling_advice (sql_eq : str -> str -> bool)
  (OCCASION_RULES : config) (db : tables) (occasion profileId : str)
  (fetched : option weather) (generated : str) (g : rng) :
  result (response * rng) :=
  let closet := get_items_by_profile sql_eq db profileId in
  let profiles := get_all_profiles db in
  let profile_name := profile_name_of profiles profileId in
  match closet with
  | [] => Ok (EmptyWardrobe (empty_message profile_name), g)
  | _ :: _ =>
    let weather := fetched in
    matched <- match_occasion OCCASION_RULES occasion ;;
    let occasion_name := fst matched in
    let occasion_rules := snd matched in
    let (lists, g) := filter_wardrobe occasion_rules (closet_of closet) g in
    let (tops_str, g) := format_list (filtered_tops lists) g in
    let (bottoms_str, g) := format_list (filtered_bottoms lists) g in
    let (shoes_str, g) := format_list (filtered_shoes lists) g in
    let (accessories_str, g) := format_list (filtered_accessories lists) g in
    let (dresses_str, g) := format_list (all_dresses lists) g in
    let (sarees_str, g) := format_list (all_sarees lists) g in
    suggestion_text <- fix_complete_outfit_bottom generated ;;
    Ok (Styled suggestion_text weather closet occasion_name, g)
  end.

End Request.

(** ** Naming an item from its picture

    [backend/image_classification.py].  The classifier is the zero-shot
    pipeline of an external library; a call to it is given by its outcome:
    the best label with its score, or nothing when the call raises an
    exception or returns no result.  A score is read as the rational number
    it denotes. *)

From Stdlib Require QArith.

Module Vision.

Definition COLORS : list str :=
  [py "black"; py "white"; py "blue"; py "red"; py "green"; py "yellow";
   py "pink"; py "purple"; py "orange"; py "brown"; py "grey"; py "beige";
   py "navy"; py "maroon"; py "cream"; py "gold"; py "silver"; py "tan";
   py "olive"; py "taupe"; py "mauve"; py "nude"].

Definition PATTERNS : list str :=
  [py "floral"; py "striped"; py "checkered"; py "polka dot"; py "paisley";
   py "printed"; py "embroidered"; py "plain"; py "graphic"].

Definition MATERIALS : list str :=
  [py "denim"; py "silk"; py "cotton"; py "linen"; py "leather"; py "velvet";
   py "chiffon"; py "satin"; py "wool"; py "knit"].

Definition CLOTHING_TYPES : dict (list str) :=
  [(py "Top",
     [py "t-shirt"; py "shirt"; py "blouse"; py "kurti"; py "kurta";
      py "top"; py "tank top"; py "crop top"; py "sweater"; py "turtleneck";
      py "turtleneck sweater"; py "hoodie"; py "cardigan"; py "polo shirt";
      py "formal shirt"; py "printed top"; py "peplum top";
      py "casual shirt"; py "tunic"; py "ethnic top"; py "sports bra";
      py "sports top"; py "gym top"; py "athletic top"; py "workout top";
      py "wrap top"; py "floral top"; py "floral blouse"; py "wrap blouse"]);
   (py "Bottom",
     [py "jeans"; py "trousers"; py "pants"; py "shorts"; py "skirt";
      py "tights"; py "joggers"; py "palazzo pants"; py "culottes";
      py "cargo pants"; py "formal pants"; py "chinos"; py "denim shorts";
      py "pencil skirt"; py "track pants"; py "track trousers";
      py "sweatpants"; py "striped track pants"; py "tracksuit pants";
      py "side stripe track pants"]);
   (py "Dress",
     [py "dress"; py "lehenga"; py "anarkali"; py "gown"; py "salwar suit";
      py "churidar set"; py "maxi dress"; py "mini dress";
      py "bodycon dress"; py "wrap dress"; py "sundress"; py "printed dress";
      py "sharara set"; py "long dress"; py "evening gown"]);
   (py "Shoes",
     [py "sneakers"; py "high heels"; py "sandals"; py "boots";
      py "ankle boots"; py "kneigh high boots"; py "loafers";
      py "flat shoes"; py "formal shoes"; py "sports shoes";
      py "running shoes"; py "pumps"]);
   (py "Accessory",
     [py "bag"; py "handbag"; py "backpack"; py "watch"; py "earrings";
      py "necklace"; py "bracelet"; py "belt"; py "sunglasses"; py "scarf";
      py "clutch"; py "hair clip"; py "butterfly clip"; py "claw clip";
      py "hair accessory"; py "headband"; py "scrunchie"; py "hair band";
      py "clip"]);
   (py "Outerwear",
     [py "jacket"; py "coat"; py "blazer"; py "shrug"; py "winter jacket";
      py "puffer jacket"; py "overcoat"; py "denim jacket"; py "denim coat";
      py "denim overcoat"]);
   (py "Saree",
     [py "saree"; py "silk saree"; py "cotton saree"])].

(** [d[k] = v] *)
Fixpoint dict_set {V : Type} (k : str) (v : V) (d : dict V) : dict V :=
  match d with
  | [] => [(k, v)]
  | (k', v') :: d' =>
    if str_eqb k' k then (k', v) :: d' else (k', v') :: dict_set k v d'
  end.

(** The two loops that fill [ALL_CLOTHING_TYPES] and
    [CLOTHING_TO_CATEGORY]. *)
Definition flattened : list str * dict str :=
  fold_left (fun acc '(category, types) =>
    fold_left (fun '(all, to_category) clothing_type =>
                 (all ++ [clothing_type],
                  dict_set clothing_type category to_category))
              types acc)
    CLOTHING_TYPES ([], []).

Definition ALL_CLOTHING_TYPES : list str := fst flattened.
Definition CLOTHING_TO_CATEGORY : dict str := snd flattened.

(** The candidate labels handed to the classifier. *)
Definition color_labels : list str :=
  map (fun color => color ++ py " clothing") COLORS.
Definition pattern_labels : list str :=
  map (fun pattern => py "a " ++ pattern ++ py " pattern clothing") PATTERNS.
Definition material_labels : list str :=
  map (fun material => py "a " ++ material ++ py " fabric clothing") MATERIALS.

(** [results[0]] of one call: its label and its score. *)
Definition outcome : Type := option (str * QArith_base.Q).

(** [score > threshold] *)
Definition above (threshold score : QArith_base.Q) : bool :=
  negb (QArith_base.Qle_bool score threshold).

Definition classify_color (results : outcome) : str :=
  match results with
  | Some (best_label, _) =>
    match find (fun color => contains color best_label) COLORS with
    | Some color => color
    | None => py "multicolor"
    end
  | None => py "unknown"
  end.

Definition classify_pattern (results : outcome) : option str :=
  match results with
  | Some (best_label, score) =>
    if above (QArith_base.Qmake 3 10) score then
      find (fun pattern => contains pattern best_label
                           && negb (str_eqb pattern (py "plain"))) PATTERNS
    else None
  | None => None
  end.

Definition classify_material (results : outcome) : option str :=
  match results with
  | Some (best_label, score) =>
    if above (QArith_base.Qmake 1 4) score then
      find (fun material => contains material best_label) MATERIALS
    else None
  | None => None
  end.

Definition classify_clothing_type (results : outcome) : str * str :=
  match results with
  | Some (best_type, _) =>
    let detected_category :=
      match dict_get CLOTHING_TO_CATEGORY best_type with
      | Some category => category
      | None => py "Top"
      end in
    (best_type, detected_category)
  | None => (py "item", py "Top")
  end.

(** [s.replace(old, new)] for a non-empty [old]: the occurrences are
    replaced from left to right and do not overlap.  [skip] counts the
    characters of the current occurrence still to be passed over. *)
Fixpoint replace_from (old new : str) (skip : nat) (s : str) : str :=
  match s with
  | [] => []
  | c :: s' =>
    match skip with
    | S k => replace_from old new k s'
    | O =>
      if startswith old s then new ++ replace_from old new (length old - 1) s'
      else c :: replace_from old new 0 s'
    end
  end.

Definition str_replace (old new s : str) : str := replace_from old new 0 s.

(** [s.strip(chars)] *)
Definition in_chars (chars : str) (c : ascii) : bool :=
  existsb (Ascii.eqb c) chars.

Fixpoint lstrip_chars (chars s : str) : str :=
  match s with
  | c :: s' => if in_chars chars c then lstrip_chars chars s' else s
  | [] => []
  end.

Fixpoint rstrip_chars (chars s : str) : str :=
  match s with
  | [] => []
  | c :: s' =>
    match rstrip_chars chars s' with
    | [] => if in_chars chars c then [] else [c]
    | r => c :: r
    end
  end.

Definition strip_chars (chars s : str) : str :=
  rstrip_chars chars (lstrip_chars chars s).

(** What the classifier does with one picture: whether it could be loaded,
    and the outcome of the call made for each attribute. *)
Record view : Type := {
  loaded : bool;
  type_results : outcome;
  color_results : outcome;
  pattern_results : outcome;
  material_results : outcome
}.

Definition distinctive_materials : list str :=
  [py "denim"; py "leather"; py "silk"; py "velvet"].

(** [x in xs] for a list of strings *)
Definition mem (x : str) (xs : list str) : bool := existsb (str_eqb x) xs.

(** The name parts before the clothing type: the colour, then for clothing
    the pattern and the material. *)
Definition attributes (v : view) (category clothing_type_formatted : str) :
  list str :=
  let color := classify_color (color_results v) in
  let name_parts : list str := [] in
  let name_parts :=
    if negb (Repair.is_empty color) && negb (str_eqb color (py "unknown"))
       && negb (contains color clothing_type_formatted)
    then name_parts ++ [color] else name_parts in
  if negb (mem category [py "Accessory"; py "Shoes"]) then
    let pattern := classify_pattern (pattern_results v) in
    let material := classify_material (material_results v) in
    let name_parts :=
      match pattern with
      | Some (c :: p) =>
        if negb (str_eqb (c :: p) (py "plain"))
           && negb (contains (c :: p) clothing_type_formatted)
        then name_parts ++ [c :: p] else name_parts
      | _ => name_parts
      end in
    match material with
    | Some (c :: m) =>
      if mem (c :: m) distinctive_materials then
        if negb (contains (c :: m) clothing_type_formatted)
        then name_parts ++ [c :: m] else name_parts
      else name_parts
    | _ => name_parts
    end
  else name_parts.

(** [generate_item_name]: the name and the category, or two [None] when an
    exception escapes, which is when the classifier cannot be loaded. *)
Definition generate_item_name (v : view) : option str * option str :=
  if loaded v then
    let (clothing_type, category) := classify_clothing_type (type_results v) in
    let clothing_type_formatted :=
      lower (str_replace (py " ") (py "_") clothing_type) in
    let name_parts :=
      attributes v category clothing_type_formatted
      ++ [clothing_type_formatted] in
    let name := Weather.join (py "_") name_parts in
    let name := lower (strip_chars (py "_") (str_replace (py "__") (py "_") name)) in
    (Some name, Some category)
  else (None, None).

End Vision.

(** ** Adding an item *)

Module Upload.

Import Database Vision.

(** The name and the category that [add_item] of [backend/main.py] hands to
    the database.  [image] is the picture when one was uploaded with a file
    name, [hex6] the six characters drawn for a fallback name. *)
Definition add_item (AI_CLASSIFIER_AVAILABLE : bool)
  (name category : option str) (image : option view) (hex6 : str) :
  str * str * bool :=
  let auto_generated := false in
  let '(name, category, auto_generated) :=
    match image with
    | Some picture =>
      if AI_CLASSIFIER_AVAILABLE
         && (negb (truthy name) || negb (truthy category)) then
        let (generated_name, detected_category) := generate_item_name picture in
        let (name, auto_generated) :=
          if negb (truthy name) && truthy generated_name
          then (generated_name, true) else (name, auto_generated) in
        let category :=
          if negb (truthy category) && truthy detected_category
          then detected_category else category in
        (name, category, auto_generated)
      else (name, category, auto_generated)
    | None => (name, category, auto_generated)
    end in
  let name :=
    match name with
    | Some (c :: n) => c :: n
    | _ => py "item_" ++ hex6
    end in
  let category :=
    match category with
    | Some (c :: k) => c :: k
    | _ => py "Uncategorized"
    end in
  (name, category, auto_generated).

End Upload.

(** ** Vocabulary of the statements on the lists, the tables and the
    pictures *)

Module ListingProps.

(** [text.split(LF)]: the lines of a text. *)
Fixpoint split_lines (s : str) : list str :=
  match s with
  | [] => [[]]
  | c :: s' =>
    if Ascii.eqb c LF then [] :: split_lines s'
    else
      match split_lines s' with
      | l :: ls => (c :: l) :: ls
      | [] => [[c]]
      end
  end.

End ListingProps.

Module TableProps.

Import Database.

(** Every item and every favorite belongs to a profile of the table: the
    foreign keys of the schema. *)
Definition referential (sql_eq : str -> str -> bool) (db : tables) : Prop :=
  (forall row, In row (items db) ->
     exists p, In p (profiles db) /\ sql_eq (i_profile_id row) (p_id p) = true)
  /\ (forall row, In row (favorites db) ->
        exists p, In p (profiles db)
                  /\ sql_eq (f_profile_id row) (p_id p) = true).

End TableProps.

Module NameWords.

Import Vision.

(** The name parts before the clothing type, for a colour, a pattern and a
    material already classified. *)
Definition parts (color : str) (pattern material : option str)
  (category clothing_type_formatted : str) : list str :=
  let name_parts : list str := [] in
  let name_parts :=
    if negb (Repair.is_empty color) && negb (str_eqb color (py "unknown"))
       && negb (contains color clothing_type_formatted)
    then name_parts ++ [color] else name_parts in
  if negb (mem category [py "Accessory"; py "Shoes"]) then
    let name_parts :=
      match pattern with
      | Some (c :: p) =>
        if negb (str_eqb (c :: p) (py "plain"))
           && negb (contains (c :: p) clothing_type_formatted)
        then name_parts ++ [c :: p] else name_parts
      | _ => name_parts
      end in
    match material with
    | Some (c :: m) =>
      if mem (c :: m) distinctive_materials then
        if negb (contains (c :: m) clothing_type_formatted)
        then name_parts ++ [c :: m] else name_parts
      else name_parts
    | _ => name_parts
    end
  else name_parts.

(** Everything the three attribute classifiers can return. *)
Definition colors_returned : list str :=
  COLORS ++ [py "multicolor"; py "unknown"].
Definition patterns_returned : list (option str) := None :: map Some PATTERNS.
Definition materials_returned : list (option str) := None :: map Some MATERIALS.

(** The clothing type and category when the call fails, and for each label
    of the tables. *)
Definition types_returned : list (str * str) :=
  (py "item", py "Top")
  :: flat_map (fun '(category, types) =>
                 map (fun clothing_type => (clothing_type, category)) types)
              CLOTHING_TYPES.

(** [name.replace("__", "_").strip("_").lower()] *)
Definition cleanup (name : str) : str :=
  lower (strip_chars (py "_") (str_replace (py "__") (py "_") name)).

Definition formatted (clothing_type : str) : str :=
  lower (str_replace (py " ") (py "_") clothing_type).

Definition underscore : ascii := "_"%char.

(** No two underscores in a row. *)
Fixpoint no_double (s : str) : bool :=
  match s with
  | [] => true
  | a :: t =>
    match t with
    | b :: _ => negb (Ascii.eqb a underscore && Ascii.eqb b underscore)
    | [] => true
    end && no_double t
  end.

(** A word that the clean-up leaves alone: not empty, no underscore at
    either end, no two underscores in a row, nothing in upper case. *)
Definition tidy (s : str) : bool :=
  negb (Repair.is_empty s)
  && negb (Ascii.eqb (hd underscore s) underscore)
  && negb (Ascii.eqb (last s underscore) underscore)
  && no_double s
  && str_eqb (lower s) s.

End NameWords.

Module MoreExamples.

Import Occasion Database Vision Examples.



(** A rule whose forbidden list holds the empty string. *)
Definition rules_blank : rules :=
  {| keywords := [py "beach"];
     allowed_categories := [];
     forbidden_categories := Some [py "gym"; []];
     style_notes := [] |}.

(** A picture of striped blue denim shorts. *)
Definition picture_shorts : view :=
  {| loaded := true;
     type_results := Some (py "denim shorts", QArith_base.Qmake 9 10);
     color_results := Some (py "blue clothing", QArith_base.Qmake 4 5);
     pattern_results :=
       Some (py "a striped pattern clothing", QArith_base.Qmake 1 2);
     material_results :=
       Some (py "a denim fabric clothing", QArith_base.Qmake 3 5) |}.

Definition row_shirt : item_row :=
  {| i_id := 1; i_name := py "white shirt"; i_category := py "Top";
     i_profile_id := py "ab12cd34"; i_image := None |}.

Definition row_shirt_copy : item_row :=
  {| i_id := 2; i_name := py "white shirt"; i_category := py "Top";
     i_profile_id := py "ab12cd34";
     i_image := Some (py "ab12cd34_0f3a9c1e.jpg") |}.

Definition row_saree : item_row :=
  {| i_id := 3; i_name := py "red saree"; i_category := py "Saree";
     i_profile_id := py "ee90ff01";
     i_image := Some (py "ee90ff01_77aa01bc.png") |}.

Definition some_tables : tables :=
  {| profiles :=
       [{| p_id := py "ab12cd34"; p_name := py "Asha"; p_is_owner := Some 1%Z |};
        {| p_id := py "ee90ff01"; p_name := py "Ravi"; p_is_owner := Some 0%Z |}];
     items := [row_shirt; row_shirt_copy; row_saree];
     favorites :=
       [{| f_id := py "f0000001"; f_profile_id := py "ab12cd34";
           f_occasion := py "office"; f_items := py "[]";
           f_explanation := None; f_saved_at := None |}] |}.

End MoreExamples.

(** ** The occasion table as loaded

    [json.load] hands the table over as it is written in
    [occasion_rules.json]: a key that the program indexes may be missing,
    and indexing it raises [KeyError].  The functions below are
    [match_occasion] and [get_styling_advice] of [backend/main.py] on such
    a table, key by key in the order the program reads them; the values
    have the types of the data model.  On a table whose entries have all
    their keys they are the functions above. *)

Module Loaded.

Import Occasion Random Wardrobe Repair Database Weather Prompt Request.

(** One entry of ["occasions"]. *)
Record entry : Type := {
  entry_keywords : option (list str);
  entry_allowed_categories : option (dict (list str));
  entry_forbidden_categories : option (list str);
  entry_style_notes : option str
}.

(** The loaded [OCCASION_RULES]. *)
Record table : Type := {
  table_occasions : option (dict entry);
  table_default_occasion : option str
}.

(** [d[key]] *)
Definition index {V : Type} (key : String.string) (v : option V) : result V :=
  match v with
  | Some x => Ok x
  | None => Raise (KeyError (py key))
  end.

(** The two nested [for] loops of [match_occasion]; [rules["keywords"]] is
    indexed for each occasion the outer loop reaches. *)
Fixpoint loaded_first_keyword_match (user_lower : str) (occs : dict entry) :
  result (option (str * entry)) :=
  match occs with
  | [] => Ok None
  | (occasion_name, rules) :: rest =>
    match index "keywords" (entry_keywords rules) with
    | Raise e => Raise e
    | Ok keywords =>
      if existsb (fun keyword => contains keyword user_lower) keywords
      then Ok (Some (occasion_name, rules))
      else loaded_first_keyword_match user_lower rest
    end
  end.

(** [OCCASION_RULES.get("default_occasion", "casual")] *)
Definition loaded_default_name (OCCASION_RULES : table) : str :=
  match table_default_occasion OCCASION_RULES with
  | Some d => d
  | None => py "casual"
  end.

Definition loaded_match_occasion (OCCASION_RULES : table) (user_input : str) :
  result (str * entry) :=
  let user_lower := lower user_input in
  occasions <- index "occasions" (table_occasions OCCASION_RULES) ;;
  found <- loaded_first_keyword_match user_lower occasions ;;
  match found with
  | Some matched => Ok matched
  | None =>
    let default := loaded_default_name OCCASION_RULES in
    match dict_get occasions default with
    | Some rules => Ok (default, rules)
    | None => Raise (KeyError default)
    end
  end.

(** What the filter reads of an entry: [allowed_categories], which it
    indexes, and [forbidden_categories], which it reads with [.get]. *)
Definition rules_read (occasion_rules : entry)
  (allowed : dict (list str)) : rules :=
  {| keywords := match entry_keywords occasion_rules with
                 | Some k => k
                 | None => []
                 end;
     allowed_categories := allowed;
     forbidden_categories := entry_forbidden_categories occasion_rules;
     style_notes := match entry_style_notes occasion_rules with
                    | Some s => s
                    | None => []
                    end |}.

(** The filtering stage: the first call of [get_matching_items] indexes
    [occasion_rules["allowed_categories"]]. *)
Definition loaded_filter_wardrobe (occasion_rules : entry)
  (closet : list item) (g : rng) : result (FilteredSelection * rng) :=
  allowed <- index "allowed_categories"
                   (entry_allowed_categories occasion_rules) ;;
  Ok (filter_wardrobe (rules_read occasion_rules allowed) closet g).

(** Occasion matching followed by filtering, as [get_styling_advice] runs
    them for a request. *)
Definition loaded_select_for_request (OCCASION_RULES : table)
  (occasion : str) (closet : list item) (g : rng) : result selection :=
  match closet with
  | [] => Ok WardrobeEmpty
  | _ :: _ =>
    matched <- loaded_match_occasion OCCASION_RULES occasion ;;
    let occasion_name := fst matched in
    let occasion_rules := snd matched in
    filtered <- loaded_filter_wardrobe occasion_rules closet g ;;
    Ok (Selected occasion_name (fst filtered))
  end.

(** [get_styling_advice] from the request to the response; the prompt
    indexes [occasion_rules['style_notes']] after the lists are formatted
    and before the generator is called. *)
Definition loaded_get_styling_advice (sql_eq : str -> str -> bool)
  (OCCASION_RULES : table) (db : tables) (occasion profileId : str)
  (fetched : option weather) (generated : str) (g : rng) :
  result (response * rng) :=
  let closet := get_items_by_profile sql_eq db profileId in
  let profiles := get_all_profiles db in
  let profile_name := profile_name_of profiles profileId in
  match closet with
  | [] => Ok (EmptyWardrobe (empty_message profile_name), g)
  | _ :: _ =>
    let weather := fetched in
    matched <- loaded_match_occasion OCCASION_RULES occasion ;;
    let occasion_name := fst matched in
    let occasion_rules := snd matched in
    filtered <- loaded_filter_wardrobe occasion_rules (closet_of closet) g ;;
    let (lists, g) := filtered in
    let (tops_str, g) := format_list (filtered_tops lists) g in
    let (bottoms_str, g) := format_list (filtered_bottoms lists) g in
    let (shoes_str, g) := format_list (filtered_shoes lists) g in
    let (accessories_str, g) := format_list (filtered_accessories lists) g in
    let (dresses_str, g) := format_list (all_dresses lists) g in
    let (sarees_str, g) := format_list (all_sarees lists) g in
    style_notes <- index "style_notes" (entry_style_notes occasion_rules) ;;
    suggestion_text <- fix_complete_outfit_bottom generated ;;
    Ok (Styled suggestion_text weather closet occasion_name, g)
  end.

End Loaded.

(** ** Vocabulary of the statements on a loaded table *)

Module LoadedProps.

Import Occasion Loaded.

(** A key word of an occasion of the table occurs, as it is written, in
    the input put in lower case. *)
Definition keyword_occurs (user_input : str) (occs : dict entry) : Prop :=
  exists occasion_name rules keywords keyword,
    In (occasion_name, rules) occs
    /\ entry_keywords rules = Some keywords
    /\ In keyword keywords
    /\ contains keyword (lower user_input) = true.

(** A rule with all its keys, as an entry of a loaded table. *)
Definition loaded_rules (r : rules) : entry :=
  {| entry_keywords := Some (keywords r);
     entry_allowed_categories := Some (allowed_categories r);
     entry_forbidden_categories := forbidden_categories r;
     entry_style_notes := Some (style_notes r) |}.

Definition loaded_config (cfg : config) : table :=
  {| table_occasions :=
       Some (map (fun nr => (fst nr, loaded_rules (snd nr))) (occasions cfg));
     table_default_occasion := default_occasion cfg |}.

(** An entry without the key [allowed_categories], and a table that holds
    it. *)
Definition entry_no_allowed : entry :=
  {| entry_keywords := Some [py "beach"];
     entry_allowed_categories := None;
     entry_forbidden_categories := None;
     entry_style_notes := Some (py "Keep it light.") |}.

Definition table_no_allowed : table :=
  {| table_occasions := Some [(py "beach", entry_no_allowed)];
     table_default_occasion := Some (py "beach") |}.

(** An entry without the key [style_notes], and a table that holds it. *)
Definition entry_no_notes : entry :=
  {| entry_keywords := Some [py "beach"];
     entry_allowed_categories := Some [];
     entry_forbidden_categories := None;
     entry_style_notes := None |}.

Definition table_no_notes : table :=
  {| table_occasions := Some [(py "beach", entry_no_notes)];
     table_default_occasion := Some (py "beach") |}.

End LoadedProps.

(** * Proofs *)

Import Props.

(** ** Facts about the Python string operations *)

Module TextFacts.

Lemma str_eqb_eq (a b : str) : str_eqb a b = true <-> a = b.
Proof.
  revert b; induction a as [|x a IH]; intros [|y b]; simpl; split;
    try congruence; try reflexivity.
  - rewrite andb_true_iff, Ascii.eqb_eq, IH. intros [-> ->]; reflexivity.
  - intros E; injection E as -> ->.
    rewrite andb_true_iff, Ascii.eqb_eq, IH; split; reflexivity.
Qed.

Lemma str_eqb_refl (a : str) : str_eqb a a = true.
Proof. apply str_eqb_eq; reflexivity. Qed.

Lemma str_eqb_neq (a b : str) : str_eqb a b = false -> a <> b.
Proof. intros H E. apply str_eqb_eq in E. congruence. Qed.

(** *** [str.strip] and the [in] test *)

Lemma isspace_lower_char (c : ascii) : isspace (lower_char c) = isspace c.
Proof. destruct c as [[] [] [] [] [] [] [] []]; reflexivity. Qed.

Lemma lower_lstrip (s : str) : lower (lstrip s) = lstrip (lower s).
Proof.
  induction s as [|c s IH]; simpl; [reflexivity|].
  rewrite isspace_lower_char. destruct (isspace c); [exact IH|reflexivity].
Qed.

Lemma lower_rstrip (s : str) : lower (rstrip s) = rstrip (lower s).
Proof.
  induction s as [|c s IH]; simpl; [reflexivity|].
  rewrite <- IH, isspace_lower_char.
  destruct (rstrip s); simpl; [destruct (isspace c)|]; reflexivity.
Qed.

Lemma lower_strip (s : str) : lower (strip s) = strip (lower s).
Proof. unfold strip. now rewrite lower_rstrip, lower_lstrip. Qed.

Lemma startswith_space (k s : str) (c : ascii) :
  k <> [] -> ws_free k = true -> isspace c = true ->
  startswith k (c :: s) = false.
Proof.
  destruct k as [|a k]; [congruence|]; simpl; intros _ Hk Hc.
  apply andb_true_iff in Hk as [Ha _].
  destruct (Ascii.eqb a c) eqn:E; [|reflexivity].
  apply Ascii.eqb_eq in E; subst. rewrite Hc in Ha. discriminate.
Qed.

Lemma contains_lstrip (k s : str) :
  k <> [] -> ws_free k = true -> contains k (lstrip s) = contains k s.
Proof.
  intros Hne Hk. induction s as [|c s IH]; [reflexivity|].
  simpl lstrip. destruct (isspace c) eqn:Hc; [|reflexivity].
  rewrite IH. simpl contains at 2.
  change (contains k s = startswith k (c :: s) || contains k s).
  now rewrite startswith_space.
Qed.

Lemma startswith_rstrip (k : str) : forall s,
  ws_free k = true -> startswith k (rstrip s) = startswith k s.
Proof.
  induction k as [|a k IH]; intros s Hk; [reflexivity|].
  simpl in Hk. apply andb_true_iff in Hk as [Ha Hk].
  destruct s as [|c s]; [reflexivity|]. simpl rstrip.
  destruct (rstrip s) as [|x r] eqn:Er.
  - destruct (isspace c) eqn:Hc; simpl.
    + destruct (Ascii.eqb a c) eqn:E; [|reflexivity].
      apply Ascii.eqb_eq in E; subst. rewrite Hc in Ha. discriminate.
    + f_equal. specialize (IH s Hk). rewrite Er in IH. exact IH.
  - simpl. f_equal. rewrite <- Er. now apply IH.
Qed.

Lemma contains_rstrip (k s : str) :
  ws_free k = true -> contains k (rstrip s) = contains k s.
Proof.
  intros Hk. induction s as [|c s IH]; [reflexivity|].
  change (contains k (c :: s)) with (startswith k (c :: s) || contains k s).
  rewrite <- (startswith_rstrip _ (c :: s) Hk), <- IH.
  simpl rstrip. destruct (rstrip s) as [|x r] eqn:Er.
  - destruct (isspace c); simpl; destruct k; simpl; try reflexivity;
      now rewrite ?orb_false_r, ?orb_diag.
  - reflexivity.
Qed.

(** Trimming does not change whether a key word without white space occurs. *)
Lemma contains_strip (k s : str) :
  k <> [] -> ws_free k = true -> contains k (strip s) = contains k s.
Proof.
  intros Hne Hk. unfold strip.
  now rewrite contains_rstrip, contains_lstrip.
Qed.

(** *** The shape of a trimmed string *)

Lemma lstrip_head (s : str) :
  lstrip s = [] \/ exists c t, lstrip s = c :: t /\ isspace c = false.
Proof.
  induction s as [|c s IH]; [now left|]. simpl.
  destruct (isspace c) eqn:E; [exact IH|]. right. now exists c, s.
Qed.

Lemma rstrip_head (c : ascii) (t : str) :
  isspace c = false -> exists t', rstrip (c :: t) = c :: t'.
Proof.
  intros H. simpl. rewrite H. destruct (rstrip t); eauto.
Qed.

Lemma strip_head (s : str) :
  strip s = [] \/ exists c t, strip s = c :: t /\ isspace c = false.
Proof.
  unfold strip. destruct (lstrip_head s) as [->|(c & t & -> & Hc)].
  - now left.
  - right. destruct (rstrip_head c t Hc) as (t' & ->). now exists c, t'.
Qed.

Lemma rstrip_rstrip (s : str) : rstrip (rstrip s) = rstrip s.
Proof.
  induction s as [|c s IH]; [reflexivity|]. simpl.
  destruct (rstrip s) as [|y r] eqn:E.
  - destruct (isspace c) eqn:Hc; simpl; now rewrite ?Hc.
  - cbn [rstrip]. cbn [rstrip] in IH. now rewrite IH.
Qed.

Lemma strip_strip (s : str) : strip (strip s) = strip s.
Proof.
  destruct (strip_head s) as [E|(c & t & E & Hc)].
  - rewrite E. reflexivity.
  - unfold strip at 1. rewrite E. simpl lstrip. rewrite Hc, <- E.
    unfold strip. apply rstrip_rstrip.
Qed.

Lemma rstrip_prefix (s : str) : exists w, s = rstrip s ++ w.
Proof.
  induction s as [|c s (w & E)]; [now exists []|]. simpl.
  destruct (rstrip s) as [|y r].
  - destruct (isspace c).
    + now exists (c :: s).
    + exists w. simpl in *. now rewrite <- E.
  - exists w. simpl in *. now rewrite <- E.
Qed.

Lemma lstrip_suffix (s : str) : exists w, s = w ++ lstrip s.
Proof.
  induction s as [|c s (w & E)]; [now exists []|]. simpl.
  destruct (isspace c).
  - exists (c :: w). simpl. now rewrite <- E.
  - now exists [].
Qed.

Lemma strip_infix (s : str) : exists a b, s = a ++ strip s ++ b.
Proof.
  destruct (lstrip_suffix s) as (a & E).
  destruct (rstrip_prefix (lstrip s)) as (b & E').
  exists a, b. unfold strip. now rewrite <- E', <- E.
Qed.

Lemma In_strip (c : ascii) (s : str) : In c (strip s) -> In c s.
Proof.
  destruct (strip_infix s) as (a & b & E). intros H. rewrite E.
  apply in_or_app. right. apply in_or_app. now left.
Qed.

Lemma startswith_app (k a b : str) :
  startswith k a = true -> startswith k (a ++ b) = true.
Proof.
  revert a. induction k as [|x k IH]; intros [|c a] H; simpl in *;
    try reflexivity; try discriminate.
  apply andb_true_iff in H as [-> H]. simpl. now apply IH.
Qed.

Lemma contains_app_l (k a b : str) :
  contains k a = true -> contains k (a ++ b) = true.
Proof.
  induction a as [|c a IH]; intros H.
  - simpl in H. rewrite orb_false_r in H.
    destruct k; [|discriminate]. destruct b; reflexivity.
  - simpl in H. apply orb_true_iff in H as [H|H].
    + change (contains k ((c :: a) ++ b))
        with (startswith k ((c :: a) ++ b) || contains k (a ++ b)).
      now rewrite (startswith_app _ _ b H).
    + change (contains k ((c :: a) ++ b))
        with (startswith k ((c :: a) ++ b) || contains k (a ++ b)).
      rewrite (IH H). apply orb_true_r.
Qed.

Lemma contains_app_r (k a b : str) :
  contains k b = true -> contains k (a ++ b) = true.
Proof.
  intros H. induction a as [|c a IH]; [exact H|].
  change (contains k ((c :: a) ++ b))
    with (startswith k ((c :: a) ++ b) || contains k (a ++ b)).
  rewrite IH. apply orb_true_r.
Qed.

(** A key word that does not occur in a text does not occur in the trimmed
    text either. *)
Lemma contains_strip_false (k s : str) :
  contains k s = false -> contains k (strip s) = false.
Proof.
  intros H. destruct (contains k (strip s)) eqn:E; [|reflexivity].
  destruct (strip_infix s) as (a & b & Es). rewrite Es in H.
  rewrite contains_app_r in H; [discriminate|]. now apply contains_app_l.
Qed.

End TextFacts.

Import TextFacts.

(** ** [random.shuffle] rearranges *)

Section ShuffleFacts.

Import Random.

Variable A : Type.

Lemma set_nth_perm (t : list A) : forall j a b,
  nth_error t j = Some b -> Permutation (b :: set_nth j a t) (a :: t).
Proof.
  induction t as [|h t IH]; intros [|j] a b H; simpl in *; try discriminate.
  - injection H as ->. apply perm_swap.
  - apply IH with (a := a) in H.
    rewrite perm_swap, H. apply perm_swap.
Qed.

Lemma set_nth_twice_perm (x : list A) : forall i j a b,
  nth_error x i = Some a -> nth_error x j = Some b ->
  Permutation (set_nth i b (set_nth j a x)) x.
Proof.
  induction x as [|h x IH]; intros [|i] [|j] a b Hi Hj; simpl in *;
    try discriminate.
  - injection Hj as ->. reflexivity.
  - injection Hi as ->. now apply set_nth_perm.
  - injection Hj as ->. now apply set_nth_perm.
  - constructor. now apply IH.
Qed.

Lemma swap_perm (i j : nat) (x : list A) : Permutation (swap i j x) x.
Proof.
  unfold swap.
  destruct (nth_error x i) eqn:Hi; [|reflexivity].
  destruct (nth_error x j) eqn:Hj; [|reflexivity].
  now apply set_nth_twice_perm.
Qed.

Lemma shuffle_loop_perm (i : nat) : forall (x : list A) (g : rng),
  Permutation (fst (shuffle_loop i x g)) x.
Proof.
  induction i as [|i IH]; intros x g; simpl; [reflexivity|].
  destruct (randbelow (S (S i)) g) as [j g'].
  rewrite IH. apply swap_perm.
Qed.

(** [random.shuffle] rearranges its list and neither adds nor drops an
    element. *)
Lemma shuffle_perm (x : list A) (g : rng) : Permutation (fst (shuffle x g)) x.
Proof. apply shuffle_loop_perm. Qed.

End ShuffleFacts.


(** ** Facts about the Wardrobe Filter *)

Module WardrobeFacts.

Import Occasion Random Wardrobe.

Lemma entries_dict_append (cat nm : str) (d : dict (list str)) :
  Permutation (entries (dict_append cat nm d)) (entries d ++ [(cat, nm)]).
Proof.
  induction d as [|[k v] d IH]; simpl; [reflexivity|].
  destruct (str_eqb k cat) eqn:E.
  - apply str_eqb_eq in E; subst k. unfold entries; simpl.
    rewrite map_app; simpl. rewrite <- !app_assoc.
    apply Permutation_app_head. simpl.
    change ((cat, nm) :: ?x) with ([(cat, nm)] ++ x).
    apply Permutation_app_comm.
  - unfold entries in *; simpl. rewrite <- app_assoc.
    now apply Permutation_app_head.
Qed.

Lemma entries_fold (closet : list item) : forall d,
  Permutation
    (entries (fold_left (fun d it => dict_append (strip (category it)) (name it) d)
                        closet d))
    (entries d ++ map entry_of closet).
Proof.
  induction closet as [|it closet IH]; intros d; simpl.
  - now rewrite app_nil_r.
  - rewrite IH, entries_dict_append, <- app_assoc. reflexivity.
Qed.

(** Grouping by category keeps every item, once. *)
Lemma entries_items_by_category (closet : list item) :
  Permutation (entries (items_by_category closet)) (map entry_of closet).
Proof. unfold items_by_category. now rewrite entries_fold. Qed.

Lemma flat_map_entries (B : Type) (f : str -> str -> list B)
  (d : dict (list str)) :
  flat_map (fun '(cat, items) => flat_map (fun item => f cat item) items) d
  = flat_map (fun e => f (fst e) (snd e)) (entries d).
Proof.
  induction d as [|[k v] d IH]; simpl; [reflexivity|].
  unfold entries in *; simpl. rewrite flat_map_app, <- IH. f_equal.
  induction v as [|x v IHv]; simpl; [reflexivity|]. now rewrite IHv.
Qed.

Lemma flat_map_if (X B : Type) (p : X -> bool) (h : X -> B) (l : list X) :
  flat_map (fun x => if p x then [h x] else []) l = map h (filter p l).
Proof.
  induction l as [|x l IH]; simpl; [reflexivity|].
  destruct (p x); simpl; now rewrite IH.
Qed.

Lemma matching_items_entries (r : rules) (d : dict (list str)) (t : str) :
  matching_items r d t
  = map snd (filter (fun e => passes r t (snd e) (fst e)) (entries d)).
Proof.
  unfold matching_items.
  rewrite (flat_map_entries
    (fun cat item =>
       if is_item_forbidden r item cat then []
       else if existsb (fun a => contains (lower a) (lower item)
                                 || contains (lower a) (lower cat))
                       (allowed_for r t) then [item]
       else if length (allowed_for r t) =? 0 then [item] else [])).
  rewrite <- flat_map_if. apply flat_map_ext. intros [cat nm]; simpl.
  unfold passes.
  destruct (is_item_forbidden r nm cat); simpl; [reflexivity|].
  destruct (existsb _ _); simpl; [reflexivity|].
  destruct (length _ =? 0); reflexivity.
Qed.

Lemma Permutation_filter (X : Type) (p : X -> bool) (l l' : list X) :
  Permutation l l' -> Permutation (filter p l) (filter p l').
Proof.
  induction 1; simpl.
  - constructor.
  - destruct (p x); [constructor|]; assumption.
  - destruct (p x), (p y); try reflexivity. apply perm_swap.
  - etransitivity; eassumption.
Qed.

Lemma selected_via_entries (p : str -> str -> bool) (closet : list item) :
  Permutation
    (map snd (filter (fun e => p (snd e) (fst e))
                     (entries (items_by_category closet))))
    (map name (filter (fun it => p (name it) (strip (category it))) closet)).
Proof.
  rewrite (Permutation_filter _ (entries_items_by_category closet)).
  induction closet as [|it closet IH]; simpl; [reflexivity|].
  destruct (p (name it) (strip (category it))); simpl; [constructor|];
    exact IH.
Qed.

(** A slot bucket holds, in some order, the names of the wardrobe items that
    pass the slot's test, one entry per item. *)
Lemma bucket_perm (r : rules) (closet : list item) (t : str) (g : rng) :
  Permutation (fst (get_matching_items r (items_by_category closet) t g))
              (map name (filter (selected r t) closet)).
Proof.
  unfold get_matching_items. rewrite shuffle_perm, matching_items_entries.
  apply (selected_via_entries (passes r t)).
Qed.

End WardrobeFacts.

Module OutfitFacts.

Import Occasion Random Wardrobe WardrobeFacts.

Lemma complete_outfits_inner (r : rules) (cat : str) (items : list str) :
  forall a b,
  fold_left (fun '(all_dresses, all_sarees) item =>
      if is_item_forbidden r item cat
      then (all_dresses, all_sarees)
      else if existsb (fun d => contains d (lower cat)) dress_keywords
      then (all_dresses ++ [item], all_sarees)
      else if contains (py "saree") (lower cat) || contains (py "sari") (lower cat)
      then (all_dresses, all_sarees ++ [item])
      else (all_dresses, all_sarees)) items (a, b)
  = (a ++ filter (dress_entry r cat) items,
     b ++ filter (saree_entry r cat) items).
Proof.
  unfold dress_entry, saree_entry, has_keyword, saree_keywords.
  cbn [existsb]. rewrite orb_false_r.
  destruct (existsb _ dress_keywords);
    destruct (contains (py "saree") (lower cat) || contains (py "sari") (lower cat));
    induction items as [|x items IH]; intros a b; simpl;
    rewrite ?app_nil_r; try reflexivity;
    destruct (is_item_forbidden r x cat); simpl;
    rewrite IH, <- ?app_assoc; reflexivity.
Qed.

Lemma complete_outfits_entries (r : rules) (d : dict (list str)) :
  complete_outfits r d
  = (map snd (filter (fun e => dress_entry r (fst e) (snd e)) (entries d)),
     map snd (filter (fun e => saree_entry r (fst e) (snd e)) (entries d))).
Proof.
  unfold complete_outfits.
  enough (H : forall a b,
    fold_left (fun acc '(cat, items) =>
      fold_left (fun '(all_dresses, all_sarees) item =>
        if is_item_forbidden r item cat
        then (all_dresses, all_sarees)
        else if existsb (fun d => contains d (lower cat)) dress_keywords
        then (all_dresses ++ [item], all_sarees)
        else if contains (py "saree") (lower cat) || contains (py "sari") (lower cat)
        then (all_dresses, all_sarees ++ [item])
        else (all_dresses, all_sarees)) items acc) d (a, b)
    = (a ++ map snd (filter (fun e => dress_entry r (fst e) (snd e)) (entries d)),
       b ++ map snd (filter (fun e => saree_entry r (fst e) (snd e)) (entries d))))
    by apply (H [] []).
  induction d as [|[cat items] d IH]; intros a b; cbn [fold_left].
  - simpl. now rewrite !app_nil_r.
  - rewrite complete_outfits_inner, IH. unfold entries; cbn [flat_map].
    rewrite !filter_app, !map_app, <- !app_assoc.
    assert (E : forall p : str -> str -> bool,
      map snd (filter (fun e => p (fst e) (snd e)) (map (fun nm => (cat, nm)) items))
      = filter (p cat) items).
    { intros p. induction items as [|x items IHi]; simpl; [reflexivity|].
      destruct (p cat x); simpl; now rewrite IHi. }
    now rewrite !E.
Qed.

Lemma dress_keywords_plain :
  Forall (fun k => k <> [] /\ ws_free k = true) (dress_keywords ++ saree_keywords).
Proof. repeat constructor; discriminate. Qed.

Lemma has_keyword_strip (kws : list str) (s : str) :
  Forall (fun k => k <> [] /\ ws_free k = true) kws ->
  has_keyword kws (lower (strip s)) = has_keyword kws (lower s).
Proof.
  intros H. unfold has_keyword. rewrite lower_strip.
  induction H as [|k kws [Hne Hk] _ IH]; simpl; [reflexivity|].
  now rewrite IH, contains_strip.
Qed.

End OutfitFacts.

(** ** Facts about the regular-expression model *)

Module ReFacts.

Import Re.

Lemma lit_ci_exact (lit : str) : forall h x,
  lower h = lit -> lit_ci lit (h ++ x) = Some x.
Proof.
  induction lit as [|a lit IH]; intros [|c h] x E; simpl in *;
    try discriminate; [reflexivity|].
  injection E as E1 E2. rewrite E1, Ascii.eqb_refl. now apply IH.
Qed.

Lemma lit_ci_split (lit : str) : forall s r,
  lit_ci lit s = Some r -> exists h, s = h ++ r /\ lower h = lit.
Proof.
  induction lit as [|a lit IH]; intros s r H; simpl in H.
  - injection H as ->. now exists [].
  - destruct s as [|c s]; [discriminate|].
    destruct (Ascii.eqb (lower_char c) a) eqn:E; [|discriminate].
    apply Ascii.eqb_eq in E. destruct (IH _ _ H) as (h & -> & Hh).
    exists (c :: h); simpl. now rewrite E, Hh.
Qed.

Lemma line_of_app (v r : str) :
  ~ In LF v -> at_line_end r -> line_of (v ++ r) = v.
Proof.
  intros Hv Hr. induction v as [|c v IH]; simpl.
  - destruct r as [|c r]; [reflexivity|]. simpl in Hr; subst. reflexivity.
  - destruct (Ascii.eqb c LF) eqn:E.
    + apply Ascii.eqb_eq in E. subst. exfalso. apply Hv. now left.
    + f_equal. apply IH. intros H. apply Hv. now right.
Qed.

Lemma line_of_split (s : str) :
  exists r, s = line_of s ++ r /\ at_line_end r /\ ~ In LF (line_of s).
Proof.
  induction s as [|c s (r & E & Hr & Hn)]; simpl.
  - exists []. repeat split. intros [].
  - destruct (Ascii.eqb c LF) eqn:Ec.
    + apply Ascii.eqb_eq in Ec. subst. exists (LF :: s).
      repeat split. intros [].
    + exists r. simpl. split; [now rewrite <- E|]. split; [exact Hr|].
      intros [->|H]; [|now apply Hn].
      now rewrite Ascii.eqb_refl in Ec.
Qed.

(** What a successful [\s*(.+)] consumed. *)
Lemma ws_dot_plus_split (s : str) : forall n g,
  ws_dot_plus s = Some (n, g) ->
  exists w r, s = w ++ g ++ r /\ length w = n /\ g <> [] /\ ~ In LF g
              /\ at_line_end r.
Proof.
  assert (D : forall s n g, dot_plus s = Some (n, g) ->
     exists w r, s = w ++ g ++ r /\ length w = n /\ g <> [] /\ ~ In LF g
                 /\ at_line_end r).
  { intros s0 n g H. unfold dot_plus in H.
    destruct (line_of_split s0) as (r & E & Hr & Hn).
    destruct (line_of s0) as [|c l] eqn:El; [discriminate|].
    injection H as <- <-. exists [], r. repeat split; try assumption.
    discriminate. }
  induction s as [|c s IH]; intros n g H; simpl in H; [discriminate|].
  destruct (isspace c); [|now apply D].
  destruct (ws_dot_plus s) as [[k g']|] eqn:E; [|now apply D].
  injection H as <- <-. destruct (IH _ _ eq_refl) as (w & r & -> & Hw & Hg).
  exists (c :: w), r. simpl. now rewrite Hw.
Qed.

Lemma ws_dot_plus_value (sp v r : str) :
  forallb isspace sp = true -> v <> [] -> isspace (hd LF v) = false ->
  ~ In LF v -> at_line_end r ->
  ws_dot_plus (sp ++ v ++ r) = Some (length sp, v).
Proof.
  intros Hsp Hne Hhd Hv Hr.
  assert (D : ws_dot_plus (v ++ r) = Some (0, v)).
  { destruct v as [|a v]; [congruence|]. simpl in Hhd.
    change ((a :: v) ++ r) with (a :: (v ++ r)).
    cbn [ws_dot_plus]. rewrite Hhd. unfold dot_plus.
    change (a :: (v ++ r)) with ((a :: v) ++ r).
    now rewrite line_of_app. }
  induction sp as [|c sp IH]; [exact D|].
  simpl in Hsp. apply andb_true_iff in Hsp as [Hc Hsp].
  simpl. now rewrite Hc, IH.
Qed.

(** A line that consists of the label, white space and a value is matched
    whole, and its value is the group. *)
Lemma match_at_line (lit h sp v r : str) :
  lower h = lit -> forallb isspace sp = true -> v <> [] ->
  isspace (hd LF v) = false -> ~ In LF v -> at_line_end r ->
  match_at lit (h ++ sp ++ v ++ r)
  = Some (length (h ++ sp ++ v), v).
Proof.
  intros Hh Hsp Hne Hhd Hv Hr. unfold match_at.
  rewrite (lit_ci_exact h _ Hh), ws_dot_plus_value by assumption.
  rewrite !length_app, <- Hh. unfold lower. rewrite length_map.
  now rewrite Nat.add_assoc.
Qed.

Lemma match_at_split (lit s : str) (n : nat) (g : str) :
  match_at lit s = Some (n, g) ->
  exists m r, s = m ++ r /\ length m = n /\ at_line_end r /\ g <> []
              /\ n = length lit + (n - length lit)
              /\ lit_ci lit m <> None.
Proof.
  unfold match_at. destruct (lit_ci lit s) as [r0|] eqn:El; [|discriminate].
  destruct (ws_dot_plus r0) as [[k g']|] eqn:Ew; [|discriminate].
  intros H; injection H as <- <-.
  destruct (lit_ci_split _ _ El) as (h & -> & Hh).
  destruct (ws_dot_plus_split _ Ew) as (w & r & -> & Hw & Hg & _ & Hr).
  exists (h ++ w ++ g'), r. rewrite <- !app_assoc. split; [reflexivity|].
  rewrite !length_app, Hw, <- Hh. unfold lower at 1 2 3. rewrite length_map.
  repeat split; try assumption; try lia.
  rewrite lit_ci_exact by reflexivity. discriminate.
Qed.

Section Substitution.

Variable lit : str.
Variable repl : str -> str.

Lemma sub_from_skip (m : str) : forall r,
  sub_from lit repl (length m) (m ++ r) = sub_from lit repl 0 r.
Proof.
  induction m as [|c m IH]; intros r; simpl.
  - destruct r; reflexivity.
  - destruct (m ++ r) eqn:E.
    + destruct m; [|discriminate]. simpl in E. subst. reflexivity.
    + rewrite <- E. apply IH.
Qed.

Lemma sub_all_nomatch (c : ascii) (s : str) :
  match_at lit (c :: s) = None ->
  sub_all lit repl (c :: s) = c :: sub_all lit repl s.
Proof. unfold sub_all. cbn [sub_from]. now intros ->. Qed.

Lemma sub_all_match (m r : str) (g : str) :
  m <> [] -> match_at lit (m ++ r) = Some (length m, g) ->
  sub_all lit repl (m ++ r) = repl m ++ sub_all lit repl r.
Proof.
  intros Hm H. unfold sub_all. destruct m as [|c m]; [congruence|].
  change ((c :: m) ++ r) with (c :: (m ++ r)) in *.
  cbn [sub_from]. rewrite H.
  replace (length (c :: m) - 1) with (length m) by (simpl; lia).
  rewrite sub_from_skip. f_equal. f_equal.
  change (c :: (m ++ r)) with ((c :: m) ++ r).
  now rewrite firstn_app, firstn_all, Nat.sub_diag, app_nil_r.
Qed.

Lemma search_nomatch (c : ascii) (s : str) :
  match_at lit (c :: s) = None -> search lit (c :: s) = search lit s.
Proof. cbn [search]. now intros ->. Qed.

Lemma search_match (s : str) (n : nat) (g : str) :
  match_at lit s = Some (n, g) -> search lit s = Some g.
Proof. destruct s; cbn [search]; now intros ->. Qed.

End Substitution.

End ReFacts.

Module LineFacts.

Import Re ReFacts.

Lemma lit_ci_startswith (lit : str) : forall s r,
  lit_ci lit s = Some r -> startswith lit (lower s) = true.
Proof.
  induction lit as [|a lit IH]; intros s r H; [reflexivity|].
  destruct s as [|c s]; simpl in *; [discriminate|].
  destruct (Ascii.eqb (lower_char c) a) eqn:E; [|discriminate].
  rewrite Ascii.eqb_sym, E. simpl. eapply IH; eassumption.
Qed.

Lemma contains_suffix (k a b : str) :
  startswith k b = true -> contains k (a ++ b) = true.
Proof.
  intros H. induction a as [|c a IH]; simpl.
  - destruct b; simpl in *; rewrite H; reflexivity.
  - rewrite IH. apply orb_true_r.
Qed.

Lemma lit_ci_app_cases (lit : str) : forall a b r,
  lit_ci lit (a ++ b) = Some r ->
  (exists r', lit_ci lit a = Some r')
  \/ (exists l1 l2, lit = l1 ++ l2 /\ l2 <> [] /\ lit_ci l2 b = Some r).
Proof.
  induction lit as [|x lit IH]; intros a b r H.
  - left. now exists a.
  - destruct a as [|c a].
    + right. exists [], (x :: lit). repeat split; [discriminate|exact H].
    + simpl in *. destruct (Ascii.eqb (lower_char c) x); [|discriminate].
      destruct (IH _ _ _ H) as [L|(l1 & l2 & -> & Hne & Hl)]; [now left|].
      right. exists (x :: l1), l2. now repeat split.
Qed.

Lemma no_start_last (lit l : str) : free lit l -> no_start lit l [].
Proof.
  intros Hf x1 x2 -> _. rewrite app_nil_r.
  destruct (lit_ci lit x2) eqn:E; [|reflexivity].
  apply lit_ci_startswith in E. unfold free, lower in Hf.
  rewrite map_app, contains_suffix in Hf by exact E. discriminate.
Qed.

Lemma no_start_line (lit l y : str) :
  ~ In LF lit -> free lit l -> no_start lit (l ++ [LF]) y.
Proof.
  intros Hlf Hf x1 x2 E Hne.
  destruct (exists_last Hne) as (l2 & a & ->).
  rewrite app_assoc in E. apply app_inj_tail in E as [-> <-].
  rewrite <- app_assoc. simpl.
  destruct (lit_ci lit (l2 ++ LF :: y)) eqn:El; [|reflexivity].
  exfalso. apply lit_ci_app_cases in El as [(r' & L)|(l1 & k & -> & Hk & L)].
  - apply lit_ci_startswith in L. unfold free, lower in Hf.
    rewrite map_app, contains_suffix in Hf by exact L. discriminate.
  - destruct k as [|c k]; [congruence|]. cbn [lit_ci] in L.
    destruct (Ascii.eqb (lower_char LF) c) eqn:Ec; [|discriminate].
    apply Ascii.eqb_eq in Ec. apply Hlf, in_or_app. right. left.
    now rewrite <- Ec.
Qed.

Lemma match_at_no_lit (lit s : str) :
  lit_ci lit s = None -> match_at lit s = None.
Proof. unfold match_at. now intros ->. Qed.

Lemma sub_all_skip (lit : str) (repl : str -> str) (x y : str) :
  no_start lit x y ->
  sub_all lit repl (x ++ y) = x ++ sub_all lit repl y.
Proof.
  induction x as [|c x IH]; intros H; [reflexivity|].
  simpl. rewrite sub_all_nomatch.
  - f_equal. apply IH. intros x1 x2 -> Hne.
    now apply (H (c :: x1) x2).
  - apply match_at_no_lit. apply (H [] (c :: x)); [reflexivity|discriminate].
Qed.

Lemma search_skip (lit x y : str) :
  no_start lit x y -> search lit (x ++ y) = search lit y.
Proof.
  induction x as [|c x IH]; intros H; [reflexivity|].
  simpl app. rewrite search_nomatch.
  - apply IH. intros x1 x2 -> Hne. now apply (H (c :: x1) x2).
  - apply match_at_no_lit. apply (H [] (c :: x)); [reflexivity|discriminate].
Qed.

Lemma join_lines_cons (l : str) (ls : list str) :
  ls <> [] -> join_lines (l :: ls) = (l ++ [LF]) ++ join_lines ls.
Proof.
  destruct ls; [congruence|]. intros _. cbn [join_lines].
  now rewrite <- app_assoc.
Qed.

Section OneLabel.

Variable lit : str.
Hypothesis lit_nonempty : lit <> [].
Hypothesis lit_one_line : ~ In LF lit.

Lemma match_at_nil : match_at lit [] = None.
Proof. destruct lit; [congruence|reflexivity]. Qed.

Lemma match_at_LF (s : str) : match_at lit (LF :: s) = None.
Proof.
  apply match_at_no_lit. destruct lit as [|a k]; [congruence|]. cbn [lit_ci].
  destruct (Ascii.eqb (lower_char LF) a) eqn:E; [|reflexivity].
  apply Ascii.eqb_eq in E. exfalso. apply lit_one_line. left.
  now rewrite <- E.
Qed.

(** Lines without the label are copied, and hold no match. *)
Lemma sub_all_free_lines (repl : str -> str) (ls : list str) :
  Forall (free lit) ls ->
  sub_all lit repl (join_lines ls) = join_lines ls.
Proof.
  induction 1 as [|l ls Hl Hls IH]; [reflexivity|].
  destruct ls as [|l' ls'].
  - simpl. rewrite <- (app_nil_r l) at 1.
    rewrite sub_all_skip by now apply no_start_last.
    apply app_nil_r.
  - rewrite join_lines_cons by discriminate.
    rewrite sub_all_skip by now apply no_start_line.
    now rewrite IH.
Qed.

Lemma search_free_lines (ls : list str) :
  Forall (free lit) ls -> search lit (join_lines ls) = None.
Proof.
  induction 1 as [|l ls Hl Hls IH].
  - simpl. now rewrite match_at_nil.
  - destruct ls as [|l' ls'].
    + simpl. rewrite <- (app_nil_r l).
      rewrite search_skip by now apply no_start_last.
      simpl. now rewrite match_at_nil.
    + rewrite join_lines_cons by discriminate.
      rewrite search_skip by now apply no_start_line. exact IH.
Qed.

Lemma join_lines_rest (b : list str) :
  exists r, (forall L, join_lines (L :: b) = L ++ r) /\ at_line_end r
            /\ (Forall (free lit) b ->
                forall repl, sub_all lit repl r = r).
Proof.
  destruct b as [|l b].
  - exists []. repeat split. intros L. simpl. now rewrite app_nil_r.
  - exists (LF :: join_lines (l :: b)). split; [|split].
    + intros L. reflexivity.
    + reflexivity.
    + intros Hb repl. rewrite sub_all_nomatch by apply match_at_LF.
      now rewrite sub_all_free_lines.
Qed.

(** In a text where one line carries the label at its start and no other
    line mentions it, the value of that line is what [re.search] extracts
    and the line is what [re.sub] replaces. *)
Lemma labelled_line (R : str) (a b : list str) (h sp v : str) :
  Forall (free lit) a -> Forall (free lit) b -> label_line lit h sp v ->
  search lit (join_lines (a ++ (h ++ sp ++ v) :: b)) = Some v
  /\ sub_all lit (fun _ => R) (join_lines (a ++ (h ++ sp ++ v) :: b))
     = join_lines (a ++ R :: b).
Proof.
  intros Ha Hb (Hh & Hsp & Hne & Hhd & Hv).
  destruct (join_lines_rest b) as (r & Er & Hr & Hsub).
  assert (M : match_at lit ((h ++ sp ++ v) ++ r)
              = Some (length (h ++ sp ++ v), v)).
  { rewrite <- !app_assoc. now apply match_at_line. }
  assert (Hm : h ++ sp ++ v <> []).
  { destruct h; [|discriminate]. simpl in Hh. congruence. }
  induction Ha as [|l a Hl Ha IH]; simpl app.
  - rewrite !Er. split; [now apply (search_match _ _ M)|].
    rewrite (sub_all_match _ _ _ Hm M). now rewrite Hsub.
  - rewrite !join_lines_cons by (destruct a; discriminate).
    rewrite search_skip, sub_all_skip by now apply no_start_line.
    destruct IH as [-> ->]. split; reflexivity.
Qed.

End OneLabel.

End LineFacts.

Module TemplateFacts.

Import Re ReFacts LineFacts.

(** A template without a backslash stands for itself. *)
Lemma parse_template_plain (t : str) :
  ~ In backslash t -> parse_template t = Ok (map TLit t).
Proof.
  unfold parse_template. induction t as [|c t IH]; intros H; [reflexivity|].
  cbn [parse_in]. destruct (Ascii.eqb c backslash) eqn:E.
  - apply Ascii.eqb_eq in E. exfalso. apply H. now left.
  - cbn [negb]. rewrite IH; [reflexivity|]. intros Hin. apply H. now right.
Qed.

Lemma expand_plain (t m : str) : expand (map TLit t) m = t.
Proof.
  unfold expand. induction t as [|c t IH]; simpl; [reflexivity|].
  now rewrite IH.
Qed.

Lemma sub_from_ext (lit : str) (f g : str -> str) :
  (forall m, f m = g m) ->
  forall s k, sub_from lit f k s = sub_from lit g k s.
Proof.
  intros E. induction s as [|c s IH]; intros k; [reflexivity|].
  cbn [sub_from]. destruct k; [|apply IH].
  destruct (match_at lit (c :: s)) as [[n g0]|]; now rewrite ?E, IH.
Qed.

Lemma sub_plain (lit t s : str) :
  ~ In backslash t -> sub lit t s = Ok (sub_all lit (fun _ => t) s).
Proof.
  intros H. unfold sub. rewrite parse_template_plain by exact H.
  simpl. f_equal. apply sub_from_ext. intros m. apply expand_plain.
Qed.

End TemplateFacts.

Module SearchFacts.

Import Re ReFacts LineFacts.

Lemma ws_dot_plus_all_LF (r : str) : all_LF r = true -> ws_dot_plus r = None.
Proof.
  unfold all_LF. induction r as [|c r IH]; [reflexivity|].
  cbn [forallb]. intros H.
  apply andb_true_iff in H as [Hc Hr]. apply Ascii.eqb_eq in Hc. subst c.
  cbn [ws_dot_plus]. rewrite (IH Hr). reflexivity.
Qed.

Lemma ws_dot_plus_none (r : str) : ws_dot_plus r = None -> all_LF r = true.
Proof.
  assert (D : forall c s, dot_plus (c :: s) = None -> c = LF).
  { intros c s. unfold dot_plus. cbn [line_of].
    destruct (Ascii.eqb c LF) eqn:E; [|discriminate].
    intros _. now apply Ascii.eqb_eq. }
  unfold all_LF.
  induction r as [|c r IH]; [reflexivity|]. cbn [ws_dot_plus forallb].
  destruct (isspace c) eqn:Hc.
  - destruct (ws_dot_plus r) as [[n g]|]; [discriminate|].
    intros H. apply D in H. subst c. now rewrite IH.
  - intros H. apply D in H. subst c. discriminate.
Qed.

Lemma all_LF_skipn (n : nat) : forall r,
  all_LF r = true -> all_LF (skipn n r) = true.
Proof.
  unfold all_LF.
  induction n as [|n IH]; intros [|c r] H; cbn [skipn]; try assumption.
  cbn [forallb] in H. apply andb_true_iff in H as [_ H]. now apply IH.
Qed.

Lemma lit_ci_firstn (lit x : str) :
  (exists r, lit_ci lit x = Some r) <-> firstn (length lit) (lower x) = lit.
Proof.
  split.
  - intros (r & H). apply lit_ci_split in H as (h & -> & <-).
    unfold lower. rewrite map_app, length_map, <- (length_map lower_char h).
    now rewrite firstn_app, firstn_all, Nat.sub_diag, app_nil_r.
  - intros H. exists (skipn (length lit) x).
    rewrite <- (firstn_skipn (length lit) x) at 1.
    apply lit_ci_exact. unfold lower in *. now rewrite <- firstn_map.
Qed.

Section OneLabel.

Variable lit : str.
Hypothesis lit_nonempty : lit <> [].
Hypothesis lit_one_line : ~ In LF lit.

Lemma search_all_LF (r : str) : all_LF r = true -> search lit r = None.
Proof.
  induction r as [|c r IH]; intros H.
  - simpl. now rewrite match_at_nil.
  - unfold all_LF in *. cbn [forallb] in H.
    apply andb_true_iff in H as [Hc Hr].
    apply Ascii.eqb_eq in Hc. subst c.
    rewrite search_nomatch by now apply match_at_LF. now apply IH.
Qed.

(** A label that is followed by line breaks only starts no match, and no
    match starts after it. *)
Lemma search_none_tail (t : str) : forall r,
  length t < length lit -> all_LF r = true -> search lit (t ++ r) = None.
Proof.
  induction t as [|c t IH]; intros r Hlen Hr; [now apply search_all_LF|].
  simpl app. rewrite search_nomatch.
  - apply IH; [simpl in Hlen; lia|exact Hr].
  - unfold match_at.
    destruct (lit_ci lit (c :: t ++ r)) as [r0|] eqn:E; [|reflexivity].
    apply lit_ci_split in E as (h & E & Hh).
    assert (Hl : length h = length lit)
      by (rewrite <- Hh; unfold lower; now rewrite length_map).
    assert (E0 : r0 = skipn (length h - length (c :: t)) r).
    { change (c :: t ++ r) with ((c :: t) ++ r) in E.
      apply (f_equal (skipn (length h))) in E.
      rewrite skipn_app, skipn_all2 in E by lia.
      rewrite skipn_app, skipn_all, Nat.sub_diag in E. simpl in E.
      now symmetry. }
    rewrite E0, ws_dot_plus_all_LF; [reflexivity|]. now apply all_LF_skipn.
Qed.

Variables (h sp v : str).
Hypothesis replacement_line : label_line lit h sp v.

Let R : str := h ++ sp ++ v.

Lemma replacement_head : firstn (length lit) (lower R) = lit.
Proof.
  pose proof replacement_line as (Hh & _). apply lit_ci_firstn.
  exists (sp ++ v). now apply lit_ci_exact.
Qed.

(** Up to case, the substitution does not change the first characters of a
    text: a replacement starts with the label it replaces. *)
Lemma sub_all_head (s : str) :
  firstn (length lit) (lower (sub_all lit (fun _ => R) s))
  = firstn (length lit) (lower s).
Proof.
  induction s as [|c s IH]; [reflexivity|].
  destruct (match_at lit (c :: s)) as [[n g]|] eqn:M.
  - destruct (match_at_split _ _ M) as (m & r & E & Hn & _ & _ & Hlen & Hm).
    assert (Hne : m <> []).
    { destruct m; [|discriminate]. simpl in Hn.
      destruct lit; [congruence|]. simpl in Hlen. lia. }
    rewrite E. rewrite E, <- Hn in M.
    rewrite (sub_all_match _ _ _ Hne M).
    destruct (lit_ci lit m) as [r1|] eqn:E1; [|congruence].
    apply lit_ci_split in E1 as (h1 & -> & Hh1).
    transitivity lit.
    + unfold lower. rewrite map_app. fold (lower R).
      rewrite firstn_app, replacement_head.
      assert (L : length lit <= length (lower R)).
      { rewrite <- replacement_head at 1. rewrite length_firstn. lia. }
      replace (length lit - length (lower R)) with 0 by lia.
      apply app_nil_r.
    + symmetry. apply lit_ci_firstn. exists (r1 ++ r).
      rewrite <- app_assoc. now apply lit_ci_exact.
  - rewrite sub_all_nomatch by exact M.
    destruct lit as [|a k] eqn:El; [congruence|].
    cbn [lower map length firstn]. f_equal.
    apply (f_equal (firstn (length k))) in IH.
    rewrite !firstn_firstn in IH.
    replace (Init.Nat.min (length k) (length (a :: k))) with (length k) in IH
      by (simpl; lia).
    exact IH.
Qed.

Lemma sub_all_at_line_end (r : str) :
  at_line_end r -> at_line_end (sub_all lit (fun _ => R) r).
Proof.
  destruct r as [|c r]; [trivial|]. simpl. intros ->.
  now rewrite sub_all_nomatch by now apply match_at_LF.
Qed.

(** After every match has been replaced by the line [R], the first match of
    the text is such a line, and [re.search] extracts the value of [R]. *)
Lemma search_sub_all (s : str) :
  search lit s <> None ->
  search lit (sub_all lit (fun _ => R) s) = Some v.
Proof.
  pose proof replacement_line as (Hh & Hsp & Hne & Hhd & Hv).
  induction s as [|c s IH]; intros Hs.
  - simpl in Hs. now rewrite match_at_nil in Hs.
  - destruct (match_at lit (c :: s)) as [[n g]|] eqn:M.
    + destruct (match_at_split _ _ M) as (m & r & E & Hn & Hr & _ & Hlen & _).
      assert (Hm : m <> []).
      { destruct m; [|discriminate]. simpl in Hn.
        destruct lit; [congruence|]. simpl in Hlen. lia. }
      rewrite E. rewrite E, <- Hn in M. rewrite (sub_all_match _ _ _ Hm M).
      eapply search_match. unfold R. rewrite <- !app_assoc.
      apply match_at_line; try assumption. now apply sub_all_at_line_end.
    + rewrite search_nomatch in Hs by exact M.
      rewrite sub_all_nomatch by exact M.
      rewrite search_nomatch; [now apply IH|].
      apply match_at_no_lit.
      destruct (lit_ci lit (c :: sub_all lit (fun _ => R) s)) as [r1|] eqn:E1;
        [|reflexivity].
      exfalso. apply Hs.
      assert (F : firstn (length lit) (lower (c :: s)) = lit).
      { assert (F1 : firstn (length lit)
                       (lower (c :: sub_all lit (fun _ => R) s)) = lit)
          by (apply lit_ci_firstn; eauto).
        assert (IHh := sub_all_head s).
        destruct lit as [|a k] eqn:El; [congruence|].
        cbn [lower map length firstn] in F1 |- *. injection F1 as Fa Fk.
        f_equal; [exact Fa|]. rewrite <- Fk at 2.
        apply (f_equal (firstn (length k))) in IHh.
        rewrite !firstn_firstn in IHh.
        replace (Init.Nat.min (length k) (length (a :: k))) with (length k)
          in IHh by (simpl; lia).
        symmetry. exact IHh. }
      apply lit_ci_firstn in F as (r0 & F).
      assert (W : ws_dot_plus r0 = None).
      { unfold match_at in M. rewrite F in M.
        destruct (ws_dot_plus r0) as [[k g]|]; [discriminate|reflexivity]. }
      apply lit_ci_split in F as (h0 & F & Hh0).
      destruct h0 as [|c0 t].
      { simpl in Hh0. congruence. }
      injection F as -> ->. apply search_none_tail.
      * rewrite <- Hh0. unfold lower. rewrite length_map. simpl. lia.
      * now apply ws_dot_plus_none.
Qed.

End OneLabel.

End SearchFacts.


(** ** Outfit Repair on a reply read line by line *)

Module RepairFacts.

Import Re ReFacts LineFacts TemplateFacts SearchFacts Repair Layout.

Lemma existsb_eqb_false (c : ascii) (s : str) :
  existsb (Ascii.eqb c) s = false -> ~ In c s.
Proof.
  intros H Hin. assert (E : existsb (Ascii.eqb c) s = true).
  { apply existsb_exists. exists c. split; [exact Hin|apply Ascii.eqb_refl]. }
  congruence.
Qed.

Lemma lit_nonempty (k : label) : lit_of k <> [].
Proof. destruct k; discriminate. Qed.

Lemma lit_one_line (k : label) : ~ In LF (lit_of k).
Proof. destruct k; now apply existsb_eqb_false. Qed.

Lemma same_label_eq (k k' : label) : same_label k k' = true <-> k = k'.
Proof. destruct k, k'; simpl; split; congruence. Qed.

Lemma same_label_other (k k' : label) :
  same_label k k' = false -> k = other k'.
Proof. destruct k, k'; simpl; congruence. Qed.

Lemma value_ok_spec (v : str) :
  value_ok v = true -> v <> [] /\ isspace (hd LF v) = false /\ ~ In LF v.
Proof.
  unfold value_ok. rewrite !andb_true_iff, !negb_true_iff.
  intros [[H1 H2] H3]. repeat split; try assumption.
  - now destruct v.
  - now apply existsb_eqb_false.
Qed.

Lemma value_ok_strip_value (v : str) :
  value_ok v = true -> strip v <> [] -> value_ok (strip v) = true.
Proof.
  intros Hv Hne. apply value_ok_spec in Hv as (_ & _ & Hlf).
  unfold value_ok. rewrite !andb_true_iff, !negb_true_iff. repeat split.
  - now destruct (strip v).
  - destruct (strip_head v) as [E|(c & t & E & Hc)]; [congruence|].
    now rewrite E.
  - destruct (existsb (Ascii.eqb LF) (strip v)) eqn:E; [|reflexivity].
    apply existsb_exists in E as (c & Hin & Hc). apply Ascii.eqb_eq in Hc.
    subst c. exfalso. now apply Hlf, In_strip.
Qed.

Lemma is_none_not_complete (t : str) :
  is_none t = true -> is_complete_outfit t = false.
Proof.
  unfold is_none. intros H. apply orb_true_iff in H as [H|H];
    apply str_eqb_eq in H; subst; reflexivity.
Qed.

Lemma is_none_nonempty (t : str) : is_none t = true -> t <> [].
Proof. intros H ->. discriminate. Qed.

Lemma complete_nonempty (t : str) :
  is_complete_outfit (lower t) = true -> t <> [].
Proof. intros H ->. discriminate. Qed.

Lemma free_bottom_after_top (x : str) :
  free bottom_lit x -> free bottom_lit (py "Top:" ++ py " " ++ x).
Proof. unfold free. intros H. cbn. exact H. Qed.

Lemma top_template (v : str) : py "Top: " ++ v = py "Top:" ++ py " " ++ v.
Proof. reflexivity. Qed.

Lemma bottom_none_needed_parts :
  bottom_none_needed = py "Bottom:" ++ py " " ++ py "None needed".
Proof. vm_compute. reflexivity. Qed.

Lemma top_placeholder_parts :
  top_placeholder = py "Top:" ++ py " " ++ py "(Please select a top item)".
Proof. vm_compute. reflexivity. Qed.

Lemma none_needed_line_ok :
  line_ok (Labelled BottomLabel (py "Bottom:") (py " ") (py "None needed"))
  = true.
Proof. vm_compute. reflexivity. Qed.

Lemma placeholder_line_ok :
  line_ok (Labelled TopLabel (py "Top:") (py " ")
                    (py "(Please select a top item)")) = true.
Proof. vm_compute. reflexivity. Qed.

Lemma none_needed_not_complete :
  is_complete_outfit (lower (strip (py "None needed"))) = false.
Proof. vm_compute. reflexivity. Qed.

Lemma placeholder_not_complete :
  is_complete_outfit (lower (strip (py "(Please select a top item)"))) = false.
Proof. vm_compute. reflexivity. Qed.

Lemma placeholder_not_none :
  is_none (lower (strip (py "(Please select a top item)"))) = false.
Proof. vm_compute. reflexivity. Qed.

(** *** What [line_ok] says *)

Lemma line_ok_labelled (k : label) (h sp v : str) :
  line_ok (Labelled k h sp v) = true ->
  label_line (lit_of k) h sp v /\ free (lit_of (other k)) (h ++ sp ++ v).
Proof.
  cbn [line_ok]. rewrite !andb_true_iff, negb_true_iff.
  intros [[[[H1 H2] H3] H4] _]. apply str_eqb_eq in H1.
  apply value_ok_spec in H3 as (? & ? & ?). split; [|exact H4].
  now repeat split.
Qed.

Lemma line_ok_bottom (h sp v : str) :
  line_ok (Labelled BottomLabel h sp v) = true ->
  value_ok v = true /\ free bottom_lit v /\ ~ In backslash v.
Proof.
  cbn [line_ok]. rewrite !andb_true_iff, !negb_true_iff.
  intros [[[[H1 H2] H3] H4] [H5 H6]]. repeat split; try assumption.
  now apply existsb_eqb_false.
Qed.

Lemma line_ok_top (v : str) :
  value_ok v = true -> free bottom_lit v ->
  line_ok (Labelled TopLabel (py "Top:") (py " ") v) = true.
Proof.
  intros Hv Hf. cbn [line_ok lit_of other]. rewrite Hv.
  apply free_bottom_after_top in Hf. unfold free in Hf. unfold mentions.
  rewrite Hf. reflexivity.
Qed.

(** *** Lines with and without a label *)

Lemma free_unlabelled (k : label) (ls : list line) :
  forallb line_ok ls = true -> filter (is_label k) ls = [] ->
  Forall (free (lit_of k)) (map render ls).
Proof.
  induction ls as [|ln ls IH]; intros Hok Hf; [constructor|].
  cbn [forallb] in Hok. apply andb_true_iff in Hok as [Hln Hok].
  cbn [filter] in Hf. destruct (is_label k ln) eqn:E; [discriminate|].
  cbn [map]. constructor; [|now apply IH].
  destruct ln as [l|k' h sp v].
  - cbn [line_ok] in Hln. apply andb_true_iff in Hln as [H1 H2].
    apply negb_true_iff in H1, H2. destruct k; assumption.
  - cbn [is_label] in E. apply same_label_other in E. subst k.
    now apply line_ok_labelled in Hln as [_ Hln].
Qed.

Lemma label_split (k : label) (ls : list line) :
  length (filter (is_label k) ls) <= 1 ->
  filter (is_label k) ls = []
  \/ exists a h sp v b,
       ls = a ++ Labelled k h sp v :: b
       /\ filter (is_label k) a = [] /\ filter (is_label k) b = [].
Proof.
  induction ls as [|ln ls IH]; intros H; [now left|].
  cbn [filter] in *. destruct (is_label k ln) eqn:E.
  - right. destruct ln as [l|k' h sp v]; [discriminate|].
    cbn [is_label] in E. apply same_label_eq in E. subst k'.
    exists [], h, sp, v, ls. repeat split.
    simpl in H. destruct (filter (is_label k) ls); [reflexivity|].
    simpl in H. lia.
  - destruct (IH H) as [L|(a & h & sp & v & b & -> & Ha & Hb)]; [now left|].
    right. exists (ln :: a), h, sp, v, b. repeat split; [|exact Hb].
    cbn [filter]. now rewrite E.
Qed.

Lemma is_label_refl (k : label) (h sp v : str) :
  is_label k (Labelled k h sp v) = true.
Proof. destruct k; reflexivity. Qed.

Lemma value_of_unlabelled (k : label) (ls : list line) :
  filter (is_label k) ls = [] -> value_of k ls = None.
Proof.
  induction ls as [|ln ls IH]; [reflexivity|]. cbn [filter].
  destruct (is_label k ln) eqn:E; [discriminate|]. intros H.
  destruct ln as [l|k' h sp v]; cbn [value_of]; [now apply IH|].
  cbn [is_label] in E. rewrite E. now apply IH.
Qed.

Lemma value_of_split (k : label) (a b : list line) (h sp v : str) :
  filter (is_label k) a = [] ->
  value_of k (a ++ Labelled k h sp v :: b) = Some v.
Proof.
  induction a as [|ln a IH]; cbn [filter app value_of].
  - intros _. now rewrite (proj2 (same_label_eq k k) eq_refl).
  - destruct (is_label k ln) eqn:E; [discriminate|]. intros H.
    destruct ln as [l|k' h' sp' v']; [now apply IH|].
    cbn [is_label] in E. rewrite E. now apply IH.
Qed.

Lemma replace_unlabelled (k : label) (h sp v : str) (ls : list line) :
  filter (is_label k) ls = [] -> replace k h sp v ls = ls.
Proof.
  unfold replace. induction ls as [|ln ls IH]; [reflexivity|]. cbn [filter].
  destruct (is_label k ln) eqn:E; [discriminate|]. intros H.
  cbn [map]. rewrite E. f_equal. now apply IH.
Qed.

Lemma replace_split (k : label) (a b : list line) (h sp v h' sp' v' : str) :
  filter (is_label k) a = [] -> filter (is_label k) b = [] ->
  replace k h' sp' v' (a ++ Labelled k h sp v :: b)
  = a ++ Labelled k h' sp' v' :: b.
Proof.
  intros Ha Hb. unfold replace. rewrite map_app. cbn [map].
  rewrite is_label_refl.
  fold (replace k h' sp' v' a). fold (replace k h' sp' v' b).
  now rewrite !replace_unlabelled.
Qed.

Lemma well_formed_parts (ls : list line) :
  well_formed ls = true ->
  forallb line_ok ls = true
  /\ forall k, length (filter (is_label k) ls) <= 1.
Proof.
  unfold well_formed. rewrite !andb_true_iff, !Nat.leb_le.
  intros [[H1 H2] H3]. split; [exact H1|]. now intros [].
Qed.

(** [re.search] finds the value of the labelled line. *)
Lemma search_lines (k : label) (ls : list line) :
  well_formed ls = true ->
  search (lit_of k) (text_of ls) = value_of k ls.
Proof.
  intros W. apply well_formed_parts in W as [Hok Hc].
  destruct (label_split k ls (Hc k)) as [N|(a & h & sp & v & b & -> & Ha & Hb)].
  - rewrite value_of_unlabelled by exact N.
    apply (@search_free_lines (lit_of k) (lit_nonempty k) (lit_one_line k)).
    now apply free_unlabelled.
  - rewrite value_of_split by exact Ha.
    rewrite forallb_app in Hok. apply andb_true_iff in Hok as [Hoa Hob].
    cbn [forallb] in Hob. apply andb_true_iff in Hob as [Hl Hob].
    apply line_ok_labelled in Hl as [Hl _].
    unfold text_of. rewrite map_app. cbn [map render].
    exact (proj1 (@labelled_line (lit_of k) (lit_nonempty k) (lit_one_line k)
                    [] _ _ h sp v (free_unlabelled k a Hoa Ha)
                    (free_unlabelled k b Hob Hb) Hl)).
Qed.

(** [re.sub] rewrites the labelled line and nothing else. *)
Lemma sub_lines (k : label) (h sp v : str) (ls : list line) :
  well_formed ls = true -> ~ In backslash (h ++ sp ++ v) ->
  sub (lit_of k) (h ++ sp ++ v) (text_of ls)
  = Ok (text_of (replace k h sp v ls)).
Proof.
  intros W Hp. apply well_formed_parts in W as [Hok Hc].
  rewrite sub_plain by exact Hp. f_equal.
  destruct (label_split k ls (Hc k))
    as [N|(a & h0 & sp0 & v0 & b & -> & Ha & Hb)].
  - rewrite replace_unlabelled by exact N.
    apply (@sub_all_free_lines (lit_of k) (lit_one_line k)).
    now apply free_unlabelled.
  - rewrite replace_split by assumption.
    rewrite forallb_app in Hok. apply andb_true_iff in Hok as [Hoa Hob].
    cbn [forallb] in Hob. apply andb_true_iff in Hob as [Hl Hob].
    apply line_ok_labelled in Hl as [Hl _].
    unfold text_of. rewrite !map_app. cbn [map render].
    exact (proj2 (@labelled_line (lit_of k) (lit_nonempty k) (lit_one_line k)
                    (h ++ sp ++ v) _ _ h0 sp0 v0 (free_unlabelled k a Hoa Ha)
                    (free_unlabelled k b Hob Hb) Hl)).
Qed.

(** *** Replacing keeps a reply well formed *)

Lemma is_label_replace (k k' : label) (h sp v : str) (ln : line) :
  is_label k' (if is_label k ln then Labelled k h sp v else ln)
  = is_label k' ln.
Proof.
  destruct (is_label k ln) eqn:E; [|reflexivity].
  destruct ln as [l|k0 h0 sp0 v0]; [discriminate|].
  cbn [is_label] in *. apply same_label_eq in E. now subst k0.
Qed.

Lemma filter_length_map (X : Type) (p : X -> bool) (f : X -> X) (l : list X) :
  (forall x, p (f x) = p x) ->
  length (filter p (map f l)) = length (filter p l).
Proof.
  intros H. induction l as [|x l IH]; [reflexivity|]. cbn [map filter].
  rewrite H. destruct (p x); simpl; now rewrite IH.
Qed.

Lemma well_formed_replace (k : label) (h sp v : str) (ls : list line) :
  well_formed ls = true -> line_ok (Labelled k h sp v) = true ->
  well_formed (replace k h sp v ls) = true.
Proof.
  unfold well_formed. rewrite !andb_true_iff. intros [[H1 H2] H3] Hl.
  unfold replace.
  rewrite !filter_length_map by (intros x; apply is_label_replace).
  repeat split; try assumption.
  rewrite forallb_forall in *. intros x Hx.
  apply in_map_iff in Hx as (ln & <- & Hin).
  destruct (is_label k ln); [exact Hl|now apply H1].
Qed.

Lemma value_of_replace_same (k : label) (h sp v : str) (ls : list line) :
  value_of k (replace k h sp v ls)
  = match value_of k ls with Some _ => Some v | None => None end.
Proof.
  unfold replace. induction ls as [|ln ls IH]; [reflexivity|].
  cbn [map]. destruct ln as [l|k' h' sp' v']; cbn [is_label value_of];
    [exact IH|].
  destruct (same_label k k') eqn:E; cbn [value_of]; rewrite ?E; [|exact IH].
  now rewrite (proj2 (same_label_eq k k) eq_refl).
Qed.

Lemma value_of_replace_other (k k' : label) (h sp v : str) (ls : list line) :
  same_label k' k = false ->
  value_of k' (replace k h sp v ls) = value_of k' ls.
Proof.
  intros D. unfold replace. induction ls as [|ln ls IH]; [reflexivity|].
  cbn [map]. destruct ln as [l|k0 h0 sp0 v0]; cbn [is_label value_of];
    [exact IH|].
  destruct (same_label k k0) eqn:E; cbn [value_of].
  - apply same_label_eq in E. subst k0. now rewrite D, IH.
  - now rewrite IH.
Qed.


Lemma value_of_In (k : label) (ls : list line) (v : str) :
  value_of k ls = Some v -> exists h sp, In (Labelled k h sp v) ls.
Proof.
  induction ls as [|ln ls IH]; [discriminate|].
  destruct ln as [l|k' h sp v0]; cbn [value_of].
  - intros H. destruct (IH H) as (h & sp & Hin). exists h, sp. now right.
  - destruct (same_label k k') eqn:E.
    + apply same_label_eq in E. subst k'. intros H. injection H as ->.
      exists h, sp. now left.
    + intros H. destruct (IH H) as (h' & sp' & Hin). exists h', sp'.
      now right.
Qed.

(** The value of the Bottom line of a well-formed reply. *)
Lemma bottom_value_ok (ls : list line) (v : str) :
  well_formed ls = true -> value_of BottomLabel ls = Some v ->
  value_ok v = true /\ free bottom_lit v /\ ~ In backslash v.
Proof.
  intros W H. apply well_formed_parts in W as [Hok _].
  apply value_of_In in H as (h & sp & Hin).
  rewrite forallb_forall in Hok. apply Hok in Hin.
  now apply line_ok_bottom in Hin.
Qed.

Lemma top_value_ok (ls : list line) (v : str) :
  well_formed ls = true -> value_of TopLabel ls = Some v ->
  value_ok v = true.
Proof.
  intros W H. apply well_formed_parts in W as [Hok _].
  apply value_of_In in H as (h & sp & Hin).
  rewrite forallb_forall in Hok. apply Hok in Hin.
  cbn [line_ok] in Hin. rewrite !andb_true_iff in Hin. tauto.
Qed.

End RepairFacts.

Module LayoutFacts.

Import Re ReFacts LineFacts TemplateFacts SearchFacts Repair Layout RepairFacts.

Lemma fix_unfold (s : str) :
  fix_complete_outfit_bottom s
  = let top_item := top_item_of s in
    let bottom_item := bottom_item_of s in
    if is_complete_outfit (lower bottom_item)
       && (is_none (lower top_item) || is_empty top_item)
    then
      s1 <- sub top_lit (py "Top: " ++ bottom_item) s ;;
      s2 <- sub bottom_lit bottom_none_needed s1 ;;
      Ok s2
    else
      s1 <- (if is_complete_outfit (lower bottom_item)
             then sub bottom_lit bottom_none_needed s else Ok s) ;;
      s2 <- (if is_complete_outfit (lower top_item)
             then sub bottom_lit bottom_none_needed s1 else Ok s1) ;;
      s3 <- (if is_none (lower top_item)
             then sub top_lit top_placeholder s2 else Ok s2) ;;
      Ok s3.
Proof. reflexivity. Qed.

Lemma top_item_of_lines (ls : list line) :
  well_formed ls = true -> top_item_of (text_of ls) = item_of TopLabel ls.
Proof.
  intros W. unfold top_item_of, extract, item_of.
  now rewrite <- (search_lines TopLabel ls W).
Qed.

Lemma bottom_item_of_lines (ls : list line) :
  well_formed ls = true -> bottom_item_of (text_of ls) = item_of BottomLabel ls.
Proof.
  intros W. unfold bottom_item_of, extract, item_of.
  now rewrite <- (search_lines BottomLabel ls W).
Qed.

Lemma sub_bottom_lines (ls : list line) :
  well_formed ls = true ->
  sub bottom_lit bottom_none_needed (text_of ls)
  = Ok (text_of (set_bottom_none ls)).
Proof.
  intros W. rewrite bottom_none_needed_parts.
  apply (sub_lines BottomLabel _ _ _ ls W).
  rewrite <- bottom_none_needed_parts. now apply existsb_eqb_false.
Qed.

Lemma sub_top_lines (v : str) (ls : list line) :
  well_formed ls = true -> ~ In backslash v ->
  sub top_lit (py "Top: " ++ v) (text_of ls) = Ok (text_of (set_top v ls)).
Proof.
  intros W Hv. rewrite top_template.
  apply (sub_lines TopLabel _ _ _ ls W).
  intros H. apply in_app_or in H as [H|H];
    [revert H; now apply existsb_eqb_false|].
  apply in_app_or in H as [H|H]; [|now apply Hv].
  revert H. now apply existsb_eqb_false.
Qed.

Lemma well_formed_set_bottom_none (ls : list line) :
  well_formed ls = true -> well_formed (set_bottom_none ls) = true.
Proof.
  intros W. apply well_formed_replace; [exact W|apply none_needed_line_ok].
Qed.

Lemma bottom_item_plain (ls : list line) :
  well_formed ls = true -> ~ In backslash (item_of BottomLabel ls).
Proof.
  intros W. unfold item_of.
  destruct (value_of BottomLabel ls) as [v|] eqn:E; [|intros []].
  destruct (bottom_value_ok ls W E) as (_ & _ & Hp).
  intros H. now apply Hp, In_strip.
Qed.

(** When the Bottom item is a complete outfit it can stand on a Top line. *)
Lemma well_formed_set_top_bottom (ls : list line) :
  well_formed ls = true ->
  is_complete_outfit (lower (item_of BottomLabel ls)) = true ->
  well_formed (set_top (item_of BottomLabel ls) ls) = true.
Proof.
  intros W Cb. apply well_formed_replace; [exact W|].
  pose proof (@complete_nonempty _ Cb) as Hne. unfold item_of in *.
  destruct (value_of BottomLabel ls) as [v|] eqn:E; [|congruence].
  destruct (bottom_value_ok ls W E) as (Hv & Hf & _).
  apply line_ok_top.
  - now apply value_ok_strip_value.
  - unfold free in *. rewrite lower_strip. now apply contains_strip_false.
Qed.

(** On a well-formed reply Outfit Repair rewrites the labelled lines as its
    rules say and copies every other line. *)
Lemma fix_layout (ls : list line) :
  well_formed ls = true ->
  fix_complete_outfit_bottom (text_of ls) = Ok (text_of (repaired ls)).
Proof.
  intros W. rewrite fix_unfold. cbv zeta.
  rewrite top_item_of_lines, bottom_item_of_lines by exact W.
  unfold repaired. cbv zeta.
  destruct (is_complete_outfit (lower (item_of BottomLabel ls))) eqn:Cb.
  - destruct (is_none (lower (item_of TopLabel ls))
              || is_empty (item_of TopLabel ls)) eqn:C1; cbn [andb].
    + (* rule 1 *)
      rewrite sub_top_lines by (try exact W; now apply bottom_item_plain).
      cbn [bind].
      now rewrite sub_bottom_lines by now apply well_formed_set_top_bottom.
    + (* rule 2, then rules 3 and 4 *)
      rewrite sub_bottom_lines by exact W. cbn [bind].
      pose proof (well_formed_set_bottom_none ls W) as W1.
      destruct (is_complete_outfit (lower (item_of TopLabel ls))) eqn:Ct.
      * rewrite sub_bottom_lines by exact W1. cbn [bind].
        apply orb_false_iff in C1 as [Nt _]. now rewrite Nt.
      * cbn [bind]. apply orb_false_iff in C1 as [Nt _]. now rewrite Nt.
  - cbn [andb bind].
    destruct (is_complete_outfit (lower (item_of TopLabel ls))) eqn:Ct.
    + (* rule 3 *)
      rewrite sub_bottom_lines by exact W. cbn [bind].
      destruct (is_none (lower (item_of TopLabel ls))) eqn:Nt;
        [|reflexivity].
      rewrite (is_none_not_complete _ Nt) in Ct. discriminate.
    + cbn [bind].
      destruct (is_none (lower (item_of TopLabel ls))) eqn:Nt;
        [|reflexivity].
      (* rule 4 *)
      rewrite top_placeholder_parts, <- top_template.
      rewrite sub_top_lines; [reflexivity|exact W|].
      now apply existsb_eqb_false.
Qed.

(** The repaired reply is again well formed. *)
Lemma well_formed_repaired (ls : list line) :
  well_formed ls = true -> well_formed (repaired ls) = true.
Proof.
  intros W. unfold repaired. cbv zeta.
  pose proof (well_formed_set_bottom_none ls W) as W1.
  destruct (is_complete_outfit (lower (item_of BottomLabel ls))) eqn:Cb;
    cbn [andb].
  - destruct (is_none (lower (item_of TopLabel ls))
              || is_empty (item_of TopLabel ls)).
    + apply well_formed_set_bottom_none.
      now apply well_formed_set_top_bottom.
    + assert (W2 : well_formed
                     (if is_complete_outfit (lower (item_of TopLabel ls))
                      then set_bottom_none (set_bottom_none ls)
                      else set_bottom_none ls) = true).
      { destruct (is_complete_outfit (lower (item_of TopLabel ls)));
          [now apply well_formed_set_bottom_none|exact W1]. }
      destruct (is_none (lower (item_of TopLabel ls))); [|exact W2].
      apply well_formed_replace; [exact W2|apply placeholder_line_ok].
  - assert (W2 : well_formed
                   (if is_complete_outfit (lower (item_of TopLabel ls))
                    then set_bottom_none ls else ls) = true).
    { destruct (is_complete_outfit (lower (item_of TopLabel ls)));
        [exact W1|exact W]. }
    destruct (is_none (lower (item_of TopLabel ls))); [|exact W2].
    apply well_formed_replace; [exact W2|apply placeholder_line_ok].
Qed.

(** *** The items of a repaired reply *)

Lemma item_of_set_bottom_none_top (ls : list line) :
  item_of TopLabel (set_bottom_none ls) = item_of TopLabel ls.
Proof.
  unfold item_of, set_bottom_none.
  now rewrite value_of_replace_other by reflexivity.
Qed.

Lemma item_of_set_top_bottom (v : str) (ls : list line) :
  item_of BottomLabel (set_top v ls) = item_of BottomLabel ls.
Proof.
  unfold item_of, set_top.
  now rewrite value_of_replace_other by reflexivity.
Qed.

Lemma item_of_set_bottom_none (ls : list line) :
  is_complete_outfit (lower (item_of BottomLabel (set_bottom_none ls)))
  = false.
Proof.
  unfold item_of, set_bottom_none. rewrite value_of_replace_same.
  destruct (value_of BottomLabel ls); [|reflexivity].
  apply none_needed_not_complete.
Qed.


(** The Top item after [set_top]: the new value when there is a Top line,
    and still nothing when there is none. *)
Lemma item_of_set_top (v : str) (ls : list line) :
  item_of TopLabel (set_top v ls)
  = match value_of TopLabel ls with Some _ => strip v | None => [] end.
Proof.
  unfold item_of, set_top. rewrite value_of_replace_same.
  now destruct (value_of TopLabel ls).
Qed.


(** *** The frame: plain lines stay where they are *)

Lemma replace_plain (k : label) (h sp v : str) (ls : list line) (i : nat)
  (l : str) :
  nth_error ls i = Some (Plain l) ->
  nth_error (replace k h sp v ls) i = Some (Plain l).
Proof.
  intros H. unfold replace. now rewrite nth_error_map, H.
Qed.

Lemma replace_length (k : label) (h sp v : str) (ls : list line) :
  length (replace k h sp v ls) = length ls.
Proof. unfold replace. apply length_map. Qed.

Lemma repaired_plain (ls : list line) (i : nat) (l : str) :
  nth_error ls i = Some (Plain l) ->
  nth_error (repaired ls) i = Some (Plain l).
Proof.
  intros H. unfold repaired, set_top, set_bottom_none. cbv zeta.
  repeat match goal with
         | |- context [if ?b then _ else _] => destruct b
         end;
    repeat apply replace_plain; exact H.
Qed.

Lemma repaired_length (ls : list line) : length (repaired ls) = length ls.
Proof.
  unfold repaired, set_top, set_bottom_none. cbv zeta.
  repeat match goal with
         | |- context [if ?b then _ else _] => destruct b
         end;
    now rewrite ?replace_length.
Qed.

End LayoutFacts.

(** * The claims *)

Unset Implicit Arguments.

Import Occasion Random Wardrobe Repair Layout Examples.
Import WardrobeFacts OutfitFacts RepairFacts LayoutFacts.

(** ** Occasion Matcher *)

Lemma first_keyword_match_lower_case (user_input : str) (occs : dict rules) :
  lower_case_keywords occs ->
  first_keyword_match (lower user_input) occs
  = first_matching_occasion user_input occs.
Proof.
  induction occs as [|[n r] occs IH]; intros H; [reflexivity|].
  cbn [first_keyword_match first_matching_occasion].
  assert (E : existsb (fun keyword => contains keyword (lower user_input))
                      (keywords r)
              = existsb (fun keyword => keyword_matches keyword user_input)
                        (keywords r)).
  { assert (K : forall k, In k (keywords r) -> lower k = k)
      by (intros k Hk; apply (H n r k); [now left|exact Hk]).
    induction (keywords r) as [|k ks IHk]; [reflexivity|].
    cbn [existsb]. unfold keyword_matches at 1.
    rewrite (K k) by now left.
    rewrite IHk; [reflexivity|]. intros k' Hk'. apply K. now right. }
  rewrite E, IH; [reflexivity|].
  intros n' r' k Hin Hk. apply (H n' r' k); [now right|exact Hk].
Qed.

(** When every key word of the table is in lower case, [match_occasion]
    returns the first occasion with a key word that occurs in the input
    ignoring case, and otherwise the default occasion of the table. *)
Lemma match_occasion_lower_case (cfg : config) (user_input : str) :
  lower_case_keywords (occasions cfg) ->
  match_occasion cfg user_input
  = match first_matching_occasion user_input (occasions cfg) with
    | Some m => Ok m
    | None =>
      match dict_get (occasions cfg) (default_name cfg) with
      | Some r => Ok (default_name cfg, r)
      | None => Raise (KeyError (default_name cfg))
      end
    end.
Proof.
  intros H. unfold match_occasion.
  now rewrite first_keyword_match_lower_case.
Qed.

(** The example of the specification: the key word [wedding] selects the
    occasion [wedding] for the input [going to a wedding]. *)
Lemma wedding_example :
  match_occasion config_wedding (py "going to a wedding")
  = Ok (py "wedding", rules_wedding).
Proof. vm_compute. reflexivity. Qed.

(** C6: the matcher is meant to find the first occasion with a key word that
    occurs in the input ignoring case.  The key word [Wedding] occurs in
    [going to a wedding] ignoring case, yet [match_occasion] passes over the
    occasion and returns the default one: it lowers the input but compares
    the key word as written. *)
Theorem capitalised_keyword_is_missed :
  keyword_matches (py "Wedding") (py "going to a wedding") = true
  /\ first_matching_occasion (py "going to a wedding") (occasions config_capital)
     = Some (py "wedding", rules_capital)
  /\ match_occasion config_capital (py "going to a wedding")
     = Ok (py "casual", rules_open).
Proof. vm_compute. repeat split. Qed.

(** When no key word matches and the default occasion is not in the table,
    [match_occasion] raises [KeyError]. *)
Lemma match_occasion_raises (cfg : config) (user_input : str) :
  first_keyword_match (lower user_input) (occasions cfg) = None ->
  dict_get (occasions cfg) (default_name cfg) = None ->
  match_occasion cfg user_input = Raise (KeyError (default_name cfg)).
Proof. unfold match_occasion. now intros -> ->. Qed.

Section LoadedTable.

Import Loaded LoadedProps.

(** When every occasion has its key words, the loops of [match_occasion]
    come to an end: with an occasion of the table, or with nothing when no
    key word occurs in the input. *)
Lemma loaded_first_keyword_match_returns (user_lower : str)
  (occs : dict entry) :
  (forall n e, In (n, e) occs -> entry_keywords e <> None) ->
  exists found,
    loaded_first_keyword_match user_lower occs = Ok found
    /\ (forall m, found = Some m -> In m occs)
    /\ (found = None ->
        forall n e keywords keyword,
          In (n, e) occs -> entry_keywords e = Some keywords ->
          In keyword keywords -> contains keyword user_lower = false).
Proof.
  induction occs as [|[n e] occs IH]; intros K.
  - exists None. split; [reflexivity|]. split; [discriminate|].
    intros _ n e kws k [].
  - cbn [loaded_first_keyword_match].
    destruct (entry_keywords e) as [kws|] eqn:E;
      [|exfalso; now apply (K n e (or_introl eq_refl))].
    cbn [index].
    destruct (existsb (fun keyword => contains keyword user_lower) kws) eqn:X.
    + exists (Some (n, e)). split; [reflexivity|]. split; [|discriminate].
      intros m [= <-]. now left.
    + destruct IH as (found & F & I & N).
      { intros n' e' H. apply (K n' e'). now right. }
      exists found. split; [exact F|]. split.
      * intros m H. right. now apply I.
      * intros H n' e' kws' k [[= <- <-]|J] E' Hk.
        -- rewrite E in E'. injection E' as <-.
           destruct (contains k user_lower) eqn:C; [|reflexivity].
           assert (T : existsb (fun keyword => contains keyword user_lower) kws
                       = true)
             by (apply existsb_exists; now exists k).
           congruence.
        -- exact (N H n' e' kws' k J E' Hk).
Qed.

Lemma dict_get_member (V : Type) (d : dict V) (k : str) (v : V) :
  dict_get d k = Some v -> In (k, v) d.
Proof.
  induction d as [|[k' v'] d IH]; [discriminate|]. cbn [dict_get].
  destruct (str_eqb k' k) eqn:E.
  - apply str_eqb_eq in E. subst k'. intros [= <-]. now left.
  - intros H. right. now apply IH.
Qed.

(** Under the same conditions [match_occasion] returns an occasion of the
    table. *)
Lemma loaded_match_occasion_returns (T : table) (occs : dict entry)
  (occasion : str) :
  table_occasions T = Some occs ->
  (forall n e, In (n, e) occs -> entry_keywords e <> None) ->
  keyword_occurs occasion occs
  \/ dict_get occs (loaded_default_name T) <> None ->
  exists m, loaded_match_occasion T occasion = Ok m /\ In m occs.
Proof.
  intros O K H. unfold loaded_match_occasion. cbv zeta. rewrite O.
  cbn [index bind].
  destruct (loaded_first_keyword_match_returns (lower occasion) occs K)
    as (found & -> & I & N).
  cbn [bind]. destruct found as [m|].
  - exists m. split; [reflexivity|]. now apply I.
  - destruct (dict_get occs (loaded_default_name T)) as [e|] eqn:D.
    + exists (loaded_default_name T, e). split; [reflexivity|].
      now apply dict_get_member.
    + exfalso. destruct H as [(n & e & kws & k & J & E & Hk & C)|H];
        [|now apply H].
      rewrite (N eq_refl n e kws k J E Hk) in C. discriminate C.
Qed.

(** With no key [allowed_categories] in the matched occasion, the first call
    of [get_matching_items] raises [KeyError]. *)
Lemma missing_allowed_categories_raises :
  loaded_match_occasion table_no_allowed (py "a day at the beach")
  = Ok (py "beach", entry_no_allowed)
  /\ loaded_select_for_request table_no_allowed (py "a day at the beach")
       closet [3; 1; 2]
     = Raise (KeyError (py "allowed_categories")).
Proof. vm_compute. split; reflexivity. Qed.

(** *** A table with all its keys *)

Lemma dict_get_map (V W : Type) (f : V -> W) (d : dict V) (k : str) :
  dict_get (map (fun nr => (fst nr, f (snd nr))) d) k
  = option_map f (dict_get d k).
Proof.
  induction d as [|[k' v] d IH]; [reflexivity|]. cbn [map fst snd dict_get].
  destruct (str_eqb k' k); [reflexivity|exact IH].
Qed.

Lemma loaded_first_keyword_match_checked (user_lower : str)
  (occs : dict rules) :
  loaded_first_keyword_match user_lower
    (map (fun nr => (fst nr, loaded_rules (snd nr))) occs)
  = Ok (option_map (fun nr => (fst nr, loaded_rules (snd nr)))
                   (first_keyword_match user_lower occs)).
Proof.
  induction occs as [|[n r] occs IH]; [reflexivity|].
  cbn [map fst snd loaded_first_keyword_match first_keyword_match
       loaded_rules entry_keywords index].
  destruct (existsb _ (keywords r)); [reflexivity|exact IH].
Qed.

(** On a table whose entries have all their keys, [match_occasion] on the
    loaded table is [match_occasion] above. *)
Lemma loaded_match_occasion_checked (cfg : config) (user_input : str) :
  loaded_match_occasion (loaded_config cfg) user_input
  = match match_occasion cfg user_input with
    | Ok m => Ok (fst m, loaded_rules (snd m))
    | Raise e => Raise e
    end.
Proof.
  unfold loaded_match_occasion, match_occasion. cbv zeta.
  cbn [loaded_config table_occasions index bind].
  rewrite loaded_first_keyword_match_checked. cbn [bind].
  destruct (first_keyword_match (lower user_input) (occasions cfg)) as [m|];
    [reflexivity|].
  cbn [option_map]. rewrite dict_get_map.
  unfold loaded_default_name, default_name. cbn [table_default_occasion].
  destruct (dict_get (occasions cfg) _); reflexivity.
Qed.

Lemma rules_read_loaded (r : rules) :
  rules_read (loaded_rules r) (allowed_categories r) = r.
Proof. now destruct r. Qed.

(** And the selection for a request is the selection above. *)
Lemma loaded_select_for_request_checked (cfg : config) (occasion : str)
  (wardrobe : list item) (g : rng) :
  loaded_select_for_request (loaded_config cfg) occasion wardrobe g
  = select_for_request cfg occasion wardrobe g.
Proof.
  unfold loaded_select_for_request, select_for_request.
  destruct wardrobe as [|it wardrobe]; [reflexivity|].
  rewrite loaded_match_occasion_checked.
  destruct (match_occasion cfg occasion) as [[n r]|e]; [|reflexivity].
  cbn [bind fst snd]. unfold loaded_filter_wardrobe.
  cbn [loaded_rules entry_allowed_categories index bind].
  change (rules_read _ (allowed_categories r))
    with (rules_read (loaded_rules r) (allowed_categories r)).
  now rewrite rules_read_loaded.
Qed.

(** C9, as stated, fails: with no matching key word and a default occasion
    that is not in the table, matching raises [KeyError] and the request,
    whose closet is not empty, gets no selection. *)
Lemma missing_default_raises :
  match_occasion config_no_default (py "gym session")
  = Raise (KeyError (py "casual"))
  /\ select_for_request config_no_default (py "gym session") closet [3; 1; 2]
     = Raise (KeyError (py "casual"))
  /\ loaded_match_occasion (loaded_config config_no_default) (py "gym session")
     = Raise (KeyError (py "casual"))
  /\ loaded_select_for_request (loaded_config config_no_default)
       (py "gym session") closet [3; 1; 2]
     = Raise (KeyError (py "casual")).
Proof. vm_compute. repeat split. Qed.

(** C9, amended: when the table has its occasions, every occasion has the
    keys [keywords] and [allowed_categories], and a key word occurs as it is
    written in the input put in lower case or the default occasion is in the
    table, occasion matching returns an occasion, and matching followed by
    wardrobe filtering returns a result for every wardrobe snapshot and
    generator state. *)
Theorem selection_returns (T : table) (occs : dict entry) (occasion : str) :
  table_occasions T = Some occs ->
  (forall n e, In (n, e) occs ->
     entry_keywords e <> None /\ entry_allowed_categories e <> None) ->
  keyword_occurs occasion occs
  \/ dict_get occs (loaded_default_name T) <> None ->
  (exists m, loaded_match_occasion T occasion = Ok m)
  /\ forall (wardrobe : list item) (g : rng),
       exists sel, loaded_select_for_request T occasion wardrobe g = Ok sel.
Proof.
  intros O K H.
  destruct (loaded_match_occasion_returns T occs occasion O
              (fun n e I => proj1 (K n e I)) H) as ([n e] & M & I).
  split; [now exists (n, e)|].
  intros wardrobe g. unfold loaded_select_for_request.
  destruct wardrobe as [|it wardrobe]; [eexists; reflexivity|].
  rewrite M. cbn [bind fst snd]. unfold loaded_filter_wardrobe.
  destruct (entry_allowed_categories e) as [a|] eqn:A;
    [|exfalso; now apply (proj2 (K n e I))].
  cbn [index bind]. eexists. reflexivity.
Qed.

End LoadedTable.

Lemma selection_returns_witness :
  (exists m, Loaded.loaded_match_occasion
               (LoadedProps.loaded_config config_wedding) (py "gym session")
             = Ok m)
  /\ forall (wardrobe : list item) (g : rng),
       exists sel,
         Loaded.loaded_select_for_request
           (LoadedProps.loaded_config config_wedding) (py "gym session")
           wardrobe g
         = Ok sel.
Proof.
  apply (selection_returns (LoadedProps.loaded_config config_wedding)
           (map (fun nr => (fst nr, LoadedProps.loaded_rules (snd nr)))
                (occasions config_wedding))
           (py "gym session")).
  - reflexivity.
  - intros n e [[= <- <-]|[[= <- <-]|[]]]; split; discriminate.
  - right. vm_compute. discriminate.
Defined.

(** ** Wardrobe Filter *)

Lemma is_item_forbidden_spec (r : rules) (nm cat : str) :
  is_item_forbidden r nm cat = true <-> has_forbidden_descriptor r nm cat.
Proof.
  unfold is_item_forbidden, has_forbidden_descriptor.
  rewrite existsb_exists. split; intros (f & Hin & H); exists f;
    (split; [exact Hin|]).
  - now apply orb_true_iff in H.
  - now apply orb_true_iff.
Qed.



(** C3, as stated, fails: the category of the grey tee, as stored, contains
    the forbidden descriptor, but the filter tests the trimmed category and
    puts the tee in the tops bucket. *)
Lemma stored_category_is_trimmed :
  In grey_tee [grey_tee]
  /\ forbidden_as_stored rules_gym grey_tee = true
  /\ In (name grey_tee)
        (fst (get_matching_items rules_gym (items_by_category [grey_tee])
                                 (py "tops") [])).
Proof. vm_compute. repeat split; now left. Qed.

(** C3, amended: a wardrobe item whose name or trimmed category contains,
    ignoring case, a forbidden descriptor of the occasion contributes to no
    slot bucket: every bucket is, up to order, what it is for the wardrobe
    without that item. *)
Theorem forbidden_item_in_no_bucket (r : rules) (it : item)
  (c1 c2 : list item) (category_type : str) (g g' : rng) :
  has_forbidden_descriptor r (name it) (strip (category it)) ->
  Permutation
    (fst (get_matching_items r (items_by_category (c1 ++ it :: c2))
                             category_type g))
    (fst (get_matching_items r (items_by_category (c1 ++ c2))
                             category_type g')).
Proof.
  intros H. apply is_item_forbidden_spec in H.
  rewrite !bucket_perm, !filter_app. cbn [filter].
  unfold selected at 2, passes. now rewrite H.
Qed.

Lemma forbidden_item_in_no_bucket_witness :
  has_forbidden_descriptor rules_wedding (name gym_shorts)
                           (strip (category gym_shorts))
  /\ Permutation
       (fst (get_matching_items rules_wedding
               (items_by_category ([white_shirt] ++ gym_shorts :: [red_saree]))
               (py "bottoms") [1; 0]))
       (fst (get_matching_items rules_wedding
               (items_by_category ([white_shirt] ++ [red_saree]))
               (py "bottoms") [])).
Proof.
  assert (H : has_forbidden_descriptor rules_wedding (name gym_shorts)
                                       (strip (category gym_shorts))).
  { exists (py "gym"). split; [now left|]. left. vm_compute. reflexivity. }
  split; [exact H|].
  exact (forbidden_item_in_no_bucket rules_wedding gym_shorts [white_shirt]
           [red_saree] (py "bottoms") [1; 0] [] H).
Defined.

(** The forbidden test of the filter is the test written out on the rule. *)
Lemma forbidden_item_on_trimmed (r : rules) (it : item) :
  forbidden_item r it = forbidden_on_trimmed r it.
Proof.
  unfold forbidden_item, is_item_forbidden, forbidden_of, forbidden_on_trimmed.
  now destruct (forbidden_categories r).
Qed.

(** C7, as stated, fails: the slot has no allowed descriptors and the
    category of the grey tee, as stored, contains the forbidden descriptor,
    yet the tee is in the bucket: the filter tests the trimmed category. *)
Lemma forbidden_as_stored_in_open_bucket :
  dict_get (allowed_categories rules_gym) (py "tops") = None
  /\ forbidden_as_stored rules_gym grey_tee = true
  /\ fst (get_matching_items rules_gym (items_by_category [grey_tee])
                             (py "tops") [])
     = [name grey_tee].
Proof. vm_compute. repeat split. Qed.

(** C7, amended: when a slot has no allowed descriptors (its list is empty
    or the rule has none for it), its bucket holds exactly one entry for
    each wardrobe item that has no forbidden descriptor in its name or in
    its trimmed category, and nothing else. *)
Theorem empty_allowed_bucket (r : rules) (wardrobe : list item)
  (category_type : str) (g : rng) :
  dict_get (allowed_categories r) category_type = None
  \/ dict_get (allowed_categories r) category_type = Some [] ->
  Permutation
    (fst (get_matching_items r (items_by_category wardrobe) category_type g))
    (map name (filter (fun it => negb (forbidden_on_trimmed r it)) wardrobe)).
Proof.
  intros H.
  assert (A : allowed_for r category_type = [])
    by (unfold allowed_for; now destruct H as [-> | ->]).
  rewrite bucket_perm.
  erewrite filter_ext; [reflexivity|].
  intros it. unfold selected, passes. rewrite A.
  fold (forbidden_item r it). rewrite forbidden_item_on_trimmed.
  cbn [existsb length Nat.eqb orb]. apply andb_true_r.
Qed.

Lemma empty_allowed_bucket_witness :
  Permutation
    (fst (get_matching_items rules_wedding (items_by_category closet)
                             (py "accessories") [7; 4; 2; 9]))
    (map name (filter (fun it => negb (forbidden_on_trimmed rules_wedding it))
                      closet)).
Proof.
  apply (empty_allowed_bucket rules_wedding closet (py "accessories")
                              [7; 4; 2; 9]).
  right. reflexivity.
Defined.

(** In the closet of the examples the shorts are forbidden for a wedding
    and the other four items are not. *)
Lemma wedding_accessories :
  map name (filter (fun it => negb (forbidden_on_trimmed rules_wedding it))
                   closet)
  = [py "white shirt"; py "red saree"; py "gold sandals"; py "silk drape"].
Proof. vm_compute. reflexivity. Qed.

(** C8, as stated, fails: the category of the silk drape contains [saree],
    the item is not forbidden, and it is put with the dresses, not with the
    sarees. *)
Lemma saree_set_is_a_dress :
  category_has saree_keywords silk_set = true
  /\ forbidden_item rules_open silk_set = false
  /\ snd (complete_outfits rules_open (items_by_category [silk_set])) = []
  /\ fst (complete_outfits rules_open (items_by_category [silk_set]))
     = [name silk_set].
Proof. vm_compute. repeat split. Qed.

(** C8, amended: the dress list holds one entry for each item that is not
    forbidden and whose category contains, ignoring case, one of dress,
    gown, frock, set, suit; the saree list holds one entry for each item
    that is not forbidden, whose category contains saree or sari and none of
    the dress key words. *)
Theorem complete_outfit_lists (r : rules) (wardrobe : list item) :
  Permutation (fst (complete_outfits r (items_by_category wardrobe)))
    (map name (filter (fun it => negb (forbidden_item r it)
                                 && category_has dress_keywords it) wardrobe))
  /\ Permutation (snd (complete_outfits r (items_by_category wardrobe)))
    (map name (filter (fun it => negb (forbidden_item r it)
                                 && negb (category_has dress_keywords it)
                                 && category_has saree_keywords it) wardrobe)).
Proof.
  pose proof dress_keywords_plain as P. apply Forall_app in P as [Pd Ps].
  rewrite complete_outfits_entries; simpl; split.
  - rewrite (selected_via_entries (fun nm cat => dress_entry r cat nm)).
    erewrite filter_ext; [reflexivity|]. intros it; unfold dress_entry.
    unfold category_has, forbidden_item. now rewrite has_keyword_strip.
  - rewrite (selected_via_entries (fun nm cat => saree_entry r cat nm)).
    erewrite filter_ext; [reflexivity|]. intros it; unfold saree_entry.
    unfold category_has, forbidden_item. now rewrite !has_keyword_strip.
Qed.

(** ** Outfit Repair *)

(** The example of the specification: the saree moves from Bottom to Top. *)
Lemma swap_example :
  fix_complete_outfit_bottom (py "Top: None needed\nBottom: red saree\n")
  = Ok (py "Top: red saree\nBottom: None needed\n").
Proof. vm_compute. reflexivity. Qed.

(** The other two examples of the specification. *)
Lemma plain_example :
  fix_complete_outfit_bottom (py "Top: blue shirt\nBottom: black jeans\n")
  = Ok (py "Top: blue shirt\nBottom: black jeans\n").
Proof. vm_compute. reflexivity. Qed.

Lemma dress_example :
  fix_complete_outfit_bottom (py "Top: floral dress\nBottom: denim shorts\n")
  = Ok (py "Top: floral dress\nBottom: None needed\n").
Proof. vm_compute. reflexivity. Qed.

(** On a well-formed reply with a Top line that reads none and a Bottom
    item that is a complete outfit, the two are swapped: the Top value of
    the result is the old Bottom value and its Bottom value is None needed. *)
Lemma swap_on_reply (ls : list line) (tv : str) :
  well_formed ls = true ->
  value_of TopLabel ls = Some tv ->
  is_none (lower (strip tv)) = true ->
  is_complete_outfit (lower (item_of BottomLabel ls)) = true ->
  exists out,
    fix_complete_outfit_bottom (text_of ls) = Ok out
    /\ top_item_of out = item_of BottomLabel ls
    /\ bottom_item_of out = py "None needed".
Proof.
  intros W Et Nt Cb.
  assert (E : repaired ls
              = set_bottom_none (set_top (item_of BottomLabel ls) ls)).
  { unfold repaired. cbv zeta. unfold item_of at 2 3. rewrite Et, Cb, Nt.
    reflexivity. }
  pose proof (well_formed_repaired ls W) as W'.
  exists (text_of (repaired ls)). split; [exact (fix_layout ls W)|].
  rewrite top_item_of_lines, bottom_item_of_lines by exact W'.
  rewrite E. split.
  - rewrite item_of_set_bottom_none_top, item_of_set_top, Et.
    unfold item_of. destruct (value_of BottomLabel ls);
      [apply strip_strip|reflexivity].
  - unfold item_of, set_bottom_none. rewrite value_of_replace_same.
    unfold set_top. rewrite value_of_replace_other by reflexivity.
    unfold item_of in Cb.
    destruct (value_of BottomLabel ls); [|discriminate].
    vm_compute. reflexivity.
Qed.

(** C1: a text with a complete outfit in Bottom and no Top line at all has
    an empty Top value, so rule 1 applies; the program rewrites Bottom to
    None needed, finds no Top line to rewrite, and the garment is gone from
    the reply instead of becoming the Top. *)
Theorem missing_top_line_drops_the_outfit :
  top_item_of (py "Bottom: red saree\nShoes: gold sandals\n") = []
  /\ bottom_item_of (py "Bottom: red saree\nShoes: gold sandals\n")
     = py "red saree"
  /\ is_complete_outfit (lower (py "red saree")) = true
  /\ fix_complete_outfit_bottom (py "Bottom: red saree\nShoes: gold sandals\n")
     = Ok (py "Bottom: None needed\nShoes: gold sandals\n")
  /\ top_item_of (py "Bottom: None needed\nShoes: gold sandals\n") = [].
Proof. vm_compute. repeat split. Qed.

(** A Bottom value with a backslash is read by [re.sub] as a template: here
    the escape is a bad one and the request fails with [re.error]. *)
Lemma backslash_in_bottom_raises :
  fix_complete_outfit_bottom (py "Top: none\nBottom: red\\saree\n")
  = Raise (TemplateError "bad escape").
Proof. vm_compute. reflexivity. Qed.

(** C4, as stated, fails: every match of a label pattern is rewritten, not
    only the first, so the second Top line is replaced as well. *)
Lemma later_top_line_is_rewritten :
  fix_complete_outfit_bottom
    (py "Top: none\nTop: white shirt\nBottom: black jeans\nShoes: loafers\n")
  = Ok (py "Top: (Please select a top item)\nTop: (Please select a top item)\nBottom: black jeans\nShoes: loafers\n").
Proof. vm_compute. reflexivity. Qed.

(** A label that ends its line takes the next line as its value, and that
    line is rewritten with it: here the Shoes line is lost. *)
Lemma next_line_is_swallowed :
  fix_complete_outfit_bottom
    (py "Top: blue shirt\nBottom:\nShoes: sandals set\nAccessory: scarf\n")
  = Ok (py "Top: blue shirt\nBottom: None needed\nAccessory: scarf\n").
Proof. vm_compute. reflexivity. Qed.

(** A label inside the line of the other label is found first: here the
    Top value is read off the Bottom line, the Top line stays as it is, and
    a second pass rewrites it. *)
Lemma label_inside_other_line :
  top_item_of (py "Bottom: saree top: shirt\nTop: none\n") = py "shirt"
  /\ fix_complete_outfit_bottom (py "Bottom: saree top: shirt\nTop: none\n")
     = Ok (py "Bottom: None needed\nTop: none\n")
  /\ fix_complete_outfit_bottom (py "Bottom: None needed\nTop: none\n")
     = Ok (py "Bottom: None needed\nTop: (Please select a top item)\n").
Proof. vm_compute. repeat split. Qed.

(** C4, amended: on a well-formed reply Outfit Repair rewrites the labelled
    lines, as its rules say, and passes every other line through in its
    place, character for character.  A reply is well formed when every
    line either mentions neither label, or starts with one of the two
    labels, followed by white space and a value that is not empty, starts
    with a visible character and holds no line break, and mentions the
    other label nowhere; each label starts at most one line; and the value
    of the Bottom line does not mention the Bottom label again and holds no
    backslash.  A line mentions a label when the label with its colon
    occurs in it, ignoring case. *)
Theorem repair_changes_only_label_lines (ls : list line) :
  well_formed ls = true ->
  fix_complete_outfit_bottom (text_of ls) = Ok (text_of (repaired ls))
  /\ length (repaired ls) = length ls
  /\ forall i l, nth_error ls i = Some (Plain l) ->
                 nth_error (repaired ls) i = Some (Plain l).
Proof.
  intros W. split; [exact (fix_layout ls W)|].
  split; [apply repaired_length|]. intros i l. apply repaired_plain.
Qed.

Lemma repair_changes_only_label_lines_witness :
  well_formed reply_saree = true
  /\ fix_complete_outfit_bottom (text_of reply_saree)
     = Ok (text_of (repaired reply_saree))
  /\ length (repaired reply_saree) = length reply_saree
  /\ forall i l, nth_error reply_saree i = Some (Plain l) ->
                 nth_error (repaired reply_saree) i = Some (Plain l).
Proof.
  split; [vm_compute; reflexivity|].
  exact (repair_changes_only_label_lines reply_saree eq_refl).
Defined.

(** A text that mentions neither label is returned as it is. *)
Lemma text_without_labels_unchanged (s : str) :
  mentions top_lit s = false -> mentions bottom_lit s = false ->
  fix_complete_outfit_bottom s = Ok s.
Proof.
  intros Ht Hb.
  assert (Et : Re.search top_lit s = None).
  { apply (@LineFacts.search_free_lines top_lit (lit_nonempty TopLabel)
                                        (lit_one_line TopLabel) [s]).
    now repeat constructor. }
  assert (Eb : Re.search bottom_lit s = None).
  { apply (@LineFacts.search_free_lines bottom_lit
                                        (lit_nonempty BottomLabel)
                                        (lit_one_line BottomLabel) [s]).
    now repeat constructor. }
  rewrite fix_unfold. unfold top_item_of, bottom_item_of, extract.
  now rewrite Et, Eb.
Qed.

(** With an empty Top value and a Bottom that is no complete outfit, no
    rule applies. *)
Lemma empty_top_unchanged (s : str) :
  top_item_of s = [] ->
  is_complete_outfit (lower (bottom_item_of s)) = false ->
  fix_complete_outfit_bottom s = Ok s.
Proof. intros Et Cb. rewrite fix_unfold. cbv zeta. now rewrite Et, Cb. Qed.

(** C5, as stated, fails: with no Top line the Top value is empty, and the
    repaired text is the text as it was, without a placeholder. *)
Lemma empty_top_gets_no_placeholder :
  top_item_of (py "Bottom: black jeans\nShoes: sneakers\n") = []
  /\ fix_complete_outfit_bottom (py "Bottom: black jeans\nShoes: sneakers\n")
     = Ok (py "Bottom: black jeans\nShoes: sneakers\n")
  /\ contains (py "Please select") (py "Bottom: black jeans\nShoes: sneakers\n")
     = false.
Proof. vm_compute. repeat split. Qed.

(** C5, amended: when the Top value reads none or none needed, ignoring
    case, and rule 1 does not apply (the Bottom value is no complete
    outfit), Outfit Repair returns normally and the Top value of its result
    is the placeholder. *)
Theorem none_top_gets_placeholder (s : str) :
  is_none (lower (top_item_of s)) = true ->
  is_complete_outfit (lower (bottom_item_of s)) = false ->
  exists out,
    fix_complete_outfit_bottom s = Ok out
    /\ top_item_of out = py "(Please select a top item)".
Proof.
  intros Nt Cb. rewrite fix_unfold. cbv zeta.
  rewrite Cb, Nt, (is_none_not_complete _ Nt). cbn [andb bind].
  rewrite TemplateFacts.sub_plain by now apply existsb_eqb_false.
  eexists. split; [reflexivity|].
  unfold top_item_of, extract. rewrite top_placeholder_parts.
  rewrite (SearchFacts.search_sub_all (lit_nonempty TopLabel)
             (lit_one_line TopLabel)
             (proj1 (line_ok_labelled _ _ _ _ placeholder_line_ok))).
  - vm_compute. reflexivity.
  - apply is_none_nonempty in Nt. unfold top_item_of, extract in Nt.
    cbn [lit_of]. destruct (Re.search top_lit s); [discriminate|].
    now contradiction Nt.
Qed.

Lemma none_top_gets_placeholder_witness :
  is_none (lower (top_item_of (py "Top: None\nBottom: black jeans\n"))) = true
  /\ is_complete_outfit
       (lower (bottom_item_of (py "Top: None\nBottom: black jeans\n"))) = false
  /\ exists out,
       fix_complete_outfit_bottom (py "Top: None\nBottom: black jeans\n")
       = Ok out
       /\ top_item_of out = py "(Please select a top item)".
Proof.
  split; [vm_compute; reflexivity|]. split; [vm_compute; reflexivity|].
  apply (none_top_gets_placeholder (py "Top: None\nBottom: black jeans\n"));
    vm_compute; reflexivity.
Defined.




(** * More of the program

    Properties of the occasion matcher, the wardrobe filter and the repair
    beyond the ones above, and of the other functions of the backend: the
    item lists of the prompt, the styling request as a whole, the weather
    advice, the tables and the endpoints that delete from them, the naming
    of a picture and the adding of an item. *)

(** ** Occasion Matcher *)

Section MoreOccasion.

Import Occasion Examples MoreExamples TextFacts.

Lemma first_keyword_match_In (user_lower : str) (occs : dict rules)
  (m : str * rules) :
  first_keyword_match user_lower occs = Some m -> In m occs.
Proof.
  induction occs as [|[n r] occs IH]; [discriminate|].
  cbn [first_keyword_match]. destruct (existsb _ (keywords r)).
  - intros E. injection E as <-. now left.
  - intros E. right. now apply IH.
Qed.

Lemma dict_get_In (V : Type) (d : dict V) (k : str) (v : V) :
  dict_get d k = Some v -> In (k, v) d.
Proof.
  induction d as [|[k' v'] d IH]; [discriminate|]. cbn [dict_get].
  destruct (str_eqb k' k) eqn:E.
  - apply str_eqb_eq in E. subst k'. intros H. injection H as <-. now left.
  - intros H. right. now apply IH.
Qed.

(** X1: whatever [match_occasion] returns is an entry of the occasion
    table: the name is a key of the table and the rules are listed under
    it, for a key-word match and for the default alike. *)
Theorem matched_occasion_is_in_the_table (cfg : config) (user_input : str)
  (occasion_name : str) (r : rules) :
  match_occasion cfg user_input = Ok (occasion_name, r) ->
  In (occasion_name, r) (occasions cfg).
Proof.
  unfold match_occasion. cbv zeta.
  destruct (first_keyword_match (lower user_input) (occasions cfg)) as [m|] eqn:F.
  - intros E. injection E as ->. exact (@first_keyword_match_In _ _ _ F).
  - destruct (dict_get (occasions cfg) (default_name cfg)) as [r'|] eqn:D;
      [|discriminate].
    intros E. injection E as <- <-. exact (@dict_get_In _ _ _ _ D).
Qed.

Lemma matched_occasion_is_in_the_table_witness :
  In (py "wedding", rules_wedding) (occasions config_wedding).
Proof.
  apply (matched_occasion_is_in_the_table config_wedding
           (py "Going to a WEDDING") (py "wedding") rules_wedding).
  vm_compute. reflexivity.
Defined.



End MoreOccasion.

(** ** Wardrobe Filter *)

Section MoreWardrobe.

Import Occasion Random Wardrobe Props Prompt ListingProps Examples MoreExamples.
Import TextFacts WardrobeFacts OutfitFacts.

(** *** Grouping by category *)

Lemma dict_get_dict_append (cat nm k : str) (d : dict (list str)) :
  dict_get (dict_append cat nm d) k
  = if str_eqb cat k
    then Some (match dict_get d k with Some l => l ++ [nm] | None => [nm] end)
    else dict_get d k.
Proof.
  induction d as [|[k' v] d IH]; cbn [dict_append dict_get].
  - destruct (str_eqb cat k); reflexivity.
  - destruct (str_eqb k' cat) eqn:E; cbn [dict_get].
    + apply str_eqb_eq in E. subst k'.
      destruct (str_eqb cat k); reflexivity.
    + rewrite IH. destruct (str_eqb k' k) eqn:E'; [|reflexivity].
      apply str_eqb_eq in E'. subst k'.
      destruct (str_eqb cat k) eqn:E2; [|reflexivity].
      apply str_eqb_eq in E2. subst k. rewrite str_eqb_refl in E.
      discriminate E.
Qed.

Lemma keys_dict_append (cat nm : str) (d : dict (list str)) :
  map fst (dict_append cat nm d)
  = if existsb (fun k => str_eqb k cat) (map fst d)
    then map fst d else map fst d ++ [cat].
Proof.
  induction d as [|[k v] d IH]; [reflexivity|].
  cbn [dict_append map fst existsb].
  destruct (str_eqb k cat); cbn [orb map fst]; [reflexivity|].
  rewrite IH. now destruct (existsb _ (map fst d)).
Qed.

Lemma grouped_fold (closet : list item) (k : str) : forall d,
  dict_get (fold_left (fun d it => dict_append (strip (category it)) (name it) d)
                      closet d) k
  = match dict_get d k,
          map name (filter (fun it => str_eqb (strip (category it)) k) closet)
    with
    | Some l, names => Some (l ++ names)
    | None, [] => None
    | None, names => Some names
    end.
Proof.
  induction closet as [|it closet IH]; intros d; cbn [fold_left filter map].
  - destruct (dict_get d k); [now rewrite app_nil_r|reflexivity].
  - rewrite IH, dict_get_dict_append.
    destruct (str_eqb (strip (category it)) k); cbn [map].
    + destruct (dict_get d k); [now rewrite <- app_assoc|reflexivity].
    + reflexivity.
Qed.

Lemma keys_fold (closet : list item) : forall d,
  NoDup (map fst d) ->
  NoDup (map fst (fold_left (fun d it => dict_append (strip (category it))
                                           (name it) d) closet d)).
Proof.
  induction closet as [|it closet IH]; intros d N; [exact N|].
  cbn [fold_left]. apply IH. rewrite keys_dict_append.
  destruct (existsb _ (map fst d)) eqn:E; [exact N|].
  apply NoDup_app; [exact N|repeat constructor; intros []|].
  intros x I [<-|[]].
  assert (T : existsb (fun k => str_eqb k (strip (category it))) (map fst d) = true)
    by (apply existsb_exists; exists (strip (category it));
        split; [exact I|apply str_eqb_refl]).
  congruence.
Qed.

(** X3: looking a category up in the grouped closet gives the names of
    the items whose trimmed category is that category, in the order of the
    closet, and nothing when the closet has no such item; no category is
    listed twice. *)
Theorem grouped_lookup (closet : list item) (cat : str) :
  dict_get (items_by_category closet) cat
  = match map name (filter (fun it => str_eqb (strip (category it)) cat) closet)
    with
    | [] => None
    | names => Some names
    end
  /\ NoDup (map fst (items_by_category closet)).
Proof.
  unfold items_by_category. split.
  - rewrite grouped_fold. reflexivity.
  - apply keys_fold. constructor.
Qed.

(** *** An empty descriptor *)

Lemma contains_empty (s : str) : contains [] s = true.
Proof. destruct s; reflexivity. Qed.

Lemma empty_descriptor_forbids (r : rules) (nm cat : str) :
  In [] (forbidden_of r) -> is_item_forbidden r nm cat = true.
Proof.
  intros I. unfold is_item_forbidden. cbv zeta. apply existsb_exists.
  exists []. split; [exact I|]. cbn [lower map]. now rewrite contains_empty.
Qed.

Lemma filter_false (X : Type) (q : X -> bool) (l : list X) :
  (forall x, q x = false) -> filter q l = [].
Proof.
  intros H. induction l as [|x l IH]; [reflexivity|].
  cbn [filter]. now rewrite H.
Qed.

(** X4: the empty string is contained in every name, so a forbidden list
    that holds the empty string forbids every item: the four slot lists and
    the two complete-outfit lists are empty for every closet, and the random
    generator is left as it was. *)
Theorem empty_descriptor_empties_the_lists (r : rules) (closet : list item)
  (g : rng) :
  In [] (forbidden_of r) ->
  filter_wardrobe r closet g
  = ({| filtered_tops := []; filtered_bottoms := []; filtered_shoes := [];
        filtered_accessories := []; all_dresses := []; all_sarees := [] |}, g).
Proof.
  intros I. unfold filter_wardrobe. cbv zeta.
  assert (M : forall t g0,
             get_matching_items r (items_by_category closet) t g0 = ([], g0)).
  { intros t g0. unfold get_matching_items. rewrite matching_items_entries.
    rewrite filter_false; [reflexivity|].
    intros e. unfold passes. now rewrite (empty_descriptor_forbids r _ _ I). }
  rewrite !M, complete_outfits_entries.
  rewrite !filter_false; [reflexivity| |].
  - intros e. unfold saree_entry. now rewrite (empty_descriptor_forbids r _ _ I).
  - intros e. unfold dress_entry. now rewrite (empty_descriptor_forbids r _ _ I).
Qed.

Lemma empty_descriptor_empties_the_lists_witness :
  filter_wardrobe rules_blank closet [2; 0; 1]
  = ({| filtered_tops := []; filtered_bottoms := []; filtered_shoes := [];
        filtered_accessories := []; all_dresses := []; all_sarees := [] |},
     [2; 0; 1]).
Proof.
  apply (empty_descriptor_empties_the_lists rules_blank closet [2; 0; 1]).
  right. left. reflexivity.
Defined.

(** ** The item lists of the prompt *)

Lemma format_list_cons (i : str) (items : list str) (g : rng) :
  fst (format_list (i :: items) g)
  = join_lines (map (fun item => py "- " ++ item) (fst (shuffle (i :: items) g))).
Proof.
  unfold format_list. destruct (shuffle (i :: items) g). reflexivity.
Qed.

Lemma shuffle_nonempty (i : str) (items : list str) (g : rng) :
  fst (shuffle (i :: items) g) <> [].
Proof.
  intros E. pose proof (@shuffle_perm str (i :: items) g) as P.
  rewrite E in P. apply Permutation_nil in P. discriminate P.
Qed.

(** The lines of joined lines are the lines, when no line holds a line
    break. *)
Lemma split_join_lines (l : str) (ls : list str) :
  (forall x, In x (l :: ls) -> ~ In LF x) ->
  split_lines (join_lines (l :: ls)) = l :: ls.
Proof.
  revert l. induction ls as [|l' ls IH]; intros l H.
  - cbn [join_lines]. assert (Hl : ~ In LF l) by (apply H; now left).
    clear H. induction l as [|c l IHl]; [reflexivity|].
    cbn [split_lines]. destruct (Ascii.eqb_spec c LF) as [->|N].
    + exfalso. apply Hl. now left.
    + rewrite IHl; [reflexivity|]. intros I. apply Hl. now right.
  - assert (Hl : ~ In LF l) by (apply H; now left).
    assert (E : join_lines (l :: l' :: ls) = l ++ LF :: join_lines (l' :: ls))
      by reflexivity.
    rewrite E. clear E.
    specialize (IH l' (fun x I => H x (or_intror I))).
    induction l as [|c l IHl].
    + cbn [app split_lines]. rewrite Ascii.eqb_refl, IH. reflexivity.
    + cbn [app split_lines]. destruct (Ascii.eqb_spec c LF) as [->|N].
      * exfalso. apply Hl. now left.
      * rewrite IHl; [reflexivity| |].
        -- intros x [<-|I]; [intros J; apply Hl; now right|].
           apply H. now right.
        -- intros I. apply Hl. now right.
Qed.

(** X5: [format_list] writes the placeholder for no items exactly when
    the list is empty; a list with an item never reads as the placeholder,
    whatever the names in it. *)
Theorem format_list_placeholder (items : list str) (g : rng) :
  fst (format_list items g) = no_items <-> items = [].
Proof.
  split; [|intros ->; reflexivity].
  destruct items as [|i items]; [reflexivity|].
  rewrite format_list_cons. intros E. exfalso.
  pose proof (shuffle_nonempty i items g) as N.
  destruct (fst (shuffle (i :: items) g)) as [|x xs]; [now apply N|].
  cbn [map] in E. destruct (map (fun item => py "- " ++ item) xs);
    cbn [join_lines] in E; vm_compute in E; discriminate E.
Qed.

(** X6: for a list that is not empty and whose names hold no line break,
    the lines [format_list] writes are the names of a permutation of the
    list, one to a line, each after a dash and a blank. *)
Theorem format_list_lines (items : list str) (g : rng) :
  items <> [] ->
  (forall item, In item items -> ~ In LF item) ->
  exists shuffled,
    Permutation shuffled items
    /\ split_lines (fst (format_list items g))
       = map (fun item => py "- " ++ item) shuffled.
Proof.
  intros N H. destruct items as [|i items]; [contradiction|].
  exists (fst (shuffle (i :: items) g)).
  pose proof (@shuffle_perm str (i :: items) g) as P.
  split; [exact P|]. rewrite format_list_cons.
  pose proof (shuffle_nonempty i items g) as Ne.
  destruct (fst (shuffle (i :: items) g)) as [|x xs]; [contradiction|].
  cbn [map]. apply split_join_lines.
  intros y [<-|I].
  - intros J. cbn [py app In] in J. 
    assert (Hx : In x (i :: items)) by (apply (Permutation_in _ P); now left).
    destruct J as [J|[J|J]]; try discriminate J. exact (H x Hx J).
  - apply in_map_iff in I. destruct I as (z & <- & Iz).
    assert (Hz : In z (i :: items)) by (apply (Permutation_in _ P); now right).
    intros J.
    destruct J as [J|[J|J]]; try discriminate J. exact (H z Hz J).
Qed.

Lemma format_list_lines_witness :
  exists shuffled,
    Permutation shuffled [py "white shirt"; py "grey tee"]
    /\ split_lines (fst (format_list [py "white shirt"; py "grey tee"] [1; 0]))
       = map (fun item => py "- " ++ item) shuffled.
Proof.
  apply (format_list_lines [py "white shirt"; py "grey tee"] [1; 0]).
  - discriminate.
  - intros item [<-|[<-|[]]]; vm_compute; intuition discriminate.
Defined.

(** X7: the list the prompt shows for a slot reads as the placeholder
    exactly when no item of the closet passes the test of the slot, for
    every rule, closet and state of the random generator. *)
Theorem slot_listing_placeholder (r : rules) (closet : list item)
  (t : str) (g g' : rng) :
  fst (format_list (fst (get_matching_items r (items_by_category closet) t g)) g')
  = no_items
  <-> forall it, In it closet -> selected r t it = false.
Proof.
  pose proof (bucket_perm r closet t g) as P.
  set (bucket := fst (get_matching_items r (items_by_category closet) t g)) in *.
  split.
  - intros E it I. destruct (selected r t it) eqn:S; [exfalso|reflexivity].
    assert (J : In (name it) bucket).
    { apply (Permutation_in _ (Permutation_sym P)), in_map.
      apply filter_In. now split. }
    destruct bucket as [|x xs]; [contradiction|].
    unfold format_list in E. destruct (shuffle (x :: xs) g') as [l g2] eqn:Sh.
    pose proof (@shuffle_perm str (x :: xs) g') as Q. rewrite Sh in Q.
    cbn [fst] in E, Q. destruct l as [|y l];
      [apply Permutation_nil in Q; discriminate Q|].
    cbn [map] in E. destruct (map (fun item => py "- " ++ item) l);
      cbn [join_lines] in E; vm_compute in E; discriminate E.
  - intros H. replace bucket with (@nil str); [reflexivity|].
    symmetry. apply Permutation_nil. rewrite P.
    replace (filter (selected r t) closet) with (@nil item); [reflexivity|].
    symmetry. clear P bucket. induction closet as [|it closet IH]; [reflexivity|].
    cbn [filter]. rewrite (H it) by now left.
    apply IH. intros it' I. apply H. now right.
Qed.

End MoreWardrobe.

(** ** Outfit Repair *)

Section MoreRepair.

Import Repair Layout Examples TextFacts TemplateFacts RepairFacts LayoutFacts.

Lemma top_template_plain (b : str) :
  ~ In backslash b -> ~ In backslash (py "Top: " ++ b).
Proof.
  intros H I. apply in_app_or in I. destruct I as [I|I]; [|exact (H I)].
  vm_compute in I. intuition discriminate.
Qed.

Lemma bottom_none_needed_plain : ~ In backslash bottom_none_needed.
Proof. vm_compute. intuition discriminate. Qed.

Lemma top_placeholder_plain : ~ In backslash top_placeholder.
Proof. vm_compute. intuition discriminate. Qed.

(** The rules after the first use fixed replacement texts. *)
Lemma later_rules_return (s : str) (b t n : bool) :
  exists out,
    (s1 <- (if b then Re.sub bottom_lit bottom_none_needed s else Ok s) ;;
     s2 <- (if t then Re.sub bottom_lit bottom_none_needed s1 else Ok s1) ;;
     s3 <- (if n then Re.sub top_lit top_placeholder s2 else Ok s2) ;;
     Ok s3) = Ok out.
Proof.
  destruct b, t, n;
    rewrite ?(@sub_plain _ _ _ bottom_none_needed_plain); cbn [bind];
    rewrite ?(@sub_plain _ _ _ bottom_none_needed_plain); cbn [bind];
    rewrite ?(@sub_plain _ _ _ top_placeholder_plain); cbn [bind];
    eexists; reflexivity.
Qed.

Lemma plain_bottom_returns (s : str) :
  ~ In backslash (bottom_item_of s) ->
  exists out, fix_complete_outfit_bottom s = Ok out.
Proof.
  intros H. rewrite fix_unfold. cbv zeta.
  destruct (is_complete_outfit (lower (bottom_item_of s))
            && (is_none (lower (top_item_of s)) || is_empty (top_item_of s))).
  - rewrite (@sub_plain _ _ _ (top_template_plain _ H)). cbn [bind].
    rewrite (@sub_plain _ _ _ bottom_none_needed_plain). cbn [bind].
    eexists. reflexivity.
  - apply later_rules_return.
Qed.

(** X8: the repair of a text returns whenever the Bottom value holds no
    backslash, or is no complete outfit, or the Top value is a real item
    (not empty and not none): the only replacement text taken from the reply
    is the Bottom value of the first rule. *)
Theorem repair_returns (s : str) :
  ~ In backslash (bottom_item_of s)
  \/ is_complete_outfit (lower (bottom_item_of s)) = false
  \/ (is_none (lower (top_item_of s)) = false /\ top_item_of s <> []) ->
  exists out, fix_complete_outfit_bottom s = Ok out.
Proof.
  intros [H|H]; [now apply plain_bottom_returns|].
  rewrite fix_unfold. cbv zeta.
  assert (G : is_complete_outfit (lower (bottom_item_of s))
              && (is_none (lower (top_item_of s)) || is_empty (top_item_of s))
              = false).
  { destruct H as [->|(-> & N)]; [reflexivity|].
    destruct (top_item_of s); [contradiction|]. apply andb_false_r. }
  rewrite G. apply later_rules_return.
Qed.

Lemma repair_returns_witness :
  exists out,
    fix_complete_outfit_bottom (py "Top: blue shirt\nBottom: red\\saree\n")
    = Ok out.
Proof.
  apply (repair_returns (py "Top: blue shirt\nBottom: red\\saree\n")).
  right. right. vm_compute. split; [reflexivity|discriminate].
Defined.

(** *** The slots of a repaired reply *)

Lemma bottom_of_repaired (ls : list line) :
  is_complete_outfit (lower (item_of BottomLabel (repaired ls))) = false.
Proof.
  unfold repaired. cbv zeta.
  destruct (is_complete_outfit (lower (item_of BottomLabel ls))) eqn:Cb;
    cbn [andb].
  - destruct (is_none (lower (item_of TopLabel ls))
              || is_empty (item_of TopLabel ls));
      [apply item_of_set_bottom_none|].
    destruct (is_complete_outfit (lower (item_of TopLabel ls)));
      destruct (is_none (lower (item_of TopLabel ls)));
      rewrite ?item_of_set_top_bottom; apply item_of_set_bottom_none.
  - destruct (is_complete_outfit (lower (item_of TopLabel ls)));
      destruct (is_none (lower (item_of TopLabel ls)));
      rewrite ?item_of_set_top_bottom;
      first [apply item_of_set_bottom_none | exact Cb].
Qed.

Lemma is_none_empty : is_none (lower []) = false.
Proof. reflexivity. Qed.

Lemma top_of_repaired (ls : list line) :
  is_none (lower (item_of TopLabel (repaired ls))) = false.
Proof.
  unfold repaired. cbv zeta.
  destruct (is_complete_outfit (lower (item_of BottomLabel ls))
            && (is_none (lower (item_of TopLabel ls))
                || is_empty (item_of TopLabel ls))) eqn:G.
  - rewrite item_of_set_bottom_none_top, item_of_set_top.
    destruct (value_of TopLabel ls); [|reflexivity].
    apply andb_true_iff in G. destruct G as (Cb & _).
    unfold item_of in *. destruct (value_of BottomLabel ls) as [v|];
      [|discriminate Cb].
    rewrite strip_strip.
    destruct (is_none (lower (strip v))) eqn:N; [|reflexivity].
    rewrite (is_none_not_complete _ N) in Cb. discriminate Cb.
  - assert (T : forall l, item_of TopLabel
                   (if is_complete_outfit (lower (item_of TopLabel ls))
                    then set_bottom_none
                           (if is_complete_outfit (lower (item_of BottomLabel ls))
                            then set_bottom_none l else l)
                    else if is_complete_outfit (lower (item_of BottomLabel ls))
                         then set_bottom_none l else l)
                 = item_of TopLabel l).
    { intros l.
      destruct (is_complete_outfit (lower (item_of TopLabel ls)));
        destruct (is_complete_outfit (lower (item_of BottomLabel ls)));
        now rewrite ?item_of_set_bottom_none_top. }
    destruct (is_none (lower (item_of TopLabel ls))) eqn:N.
    + rewrite item_of_set_top.
      match goal with
      | |- context [value_of TopLabel ?l] => destruct (value_of TopLabel l)
      end; [apply placeholder_not_none|reflexivity].
    + rewrite T. exact N.
Qed.

Lemma bottom_under_complete_top (ls : list line) :
  is_complete_outfit (lower (item_of TopLabel (repaired ls))) = true ->
  value_of BottomLabel (repaired ls)
  = match value_of BottomLabel ls with
    | Some _ => Some (py "None needed")
    | None => None
    end.
Proof.
  unfold repaired. cbv zeta.
  destruct (is_complete_outfit (lower (item_of BottomLabel ls))
            && (is_none (lower (item_of TopLabel ls))
                || is_empty (item_of TopLabel ls))) eqn:G.
  - intros _. unfold set_bottom_none, set_top.
    rewrite value_of_replace_same, value_of_replace_other by reflexivity.
    reflexivity.
  - destruct (is_none (lower (item_of TopLabel ls))) eqn:N.
    + rewrite item_of_set_top.
      match goal with
      | |- context [value_of TopLabel ?l] => destruct (value_of TopLabel l)
      end; [rewrite placeholder_not_complete|]; discriminate.
    + destruct (is_complete_outfit (lower (item_of TopLabel ls))) eqn:Ct.
      * intros _. unfold set_bottom_none. rewrite value_of_replace_same.
        destruct (is_complete_outfit (lower (item_of BottomLabel ls)));
          [rewrite value_of_replace_same|];
          now destruct (value_of BottomLabel ls).
      * destruct (is_complete_outfit (lower (item_of BottomLabel ls)));
          rewrite ?item_of_set_bottom_none_top, Ct; discriminate.
Qed.

(** X9: after the repair of a well-formed reply the Bottom value is never
    a complete-outfit garment. *)
Theorem repaired_bottom_is_no_outfit (ls : list line) :
  well_formed ls = true ->
  exists out,
    fix_complete_outfit_bottom (text_of ls) = Ok out
    /\ is_complete_outfit (lower (bottom_item_of out)) = false.
Proof.
  intros W. exists (text_of (repaired ls)). split; [exact (fix_layout ls W)|].
  rewrite bottom_item_of_lines by exact (well_formed_repaired ls W).
  apply bottom_of_repaired.
Qed.

Lemma repaired_bottom_is_no_outfit_witness :
  exists out,
    fix_complete_outfit_bottom (text_of reply_saree) = Ok out
    /\ is_complete_outfit (lower (bottom_item_of out)) = false.
Proof.
  apply (repaired_bottom_is_no_outfit reply_saree). vm_compute. reflexivity.
Defined.

(** X10: after the repair of a well-formed reply the Top value never
    reads none or none needed. *)
Theorem repaired_top_is_not_none (ls : list line) :
  well_formed ls = true ->
  exists out,
    fix_complete_outfit_bottom (text_of ls) = Ok out
    /\ is_none (lower (top_item_of out)) = false.
Proof.
  intros W. exists (text_of (repaired ls)). split; [exact (fix_layout ls W)|].
  rewrite top_item_of_lines by exact (well_formed_repaired ls W).
  apply top_of_repaired.
Qed.

Lemma repaired_top_is_not_none_witness :
  exists out,
    fix_complete_outfit_bottom (text_of reply_saree) = Ok out
    /\ is_none (lower (top_item_of out)) = false.
Proof.
  apply (repaired_top_is_not_none reply_saree). vm_compute. reflexivity.
Defined.

(** X11: after the repair of a well-formed reply that has a Bottom line,
    a Top value that is a complete outfit goes with the Bottom value None
    needed. *)
Theorem complete_top_clears_bottom (ls : list line) (v : str) :
  well_formed ls = true ->
  value_of BottomLabel ls = Some v ->
  exists out,
    fix_complete_outfit_bottom (text_of ls) = Ok out
    /\ (is_complete_outfit (lower (top_item_of out)) = true ->
        bottom_item_of out = py "None needed").
Proof.
  intros W B. exists (text_of (repaired ls)). split; [exact (fix_layout ls W)|].
  pose proof (well_formed_repaired ls W) as W'.
  rewrite top_item_of_lines, bottom_item_of_lines by exact W'.
  intros C. unfold item_of at 1. rewrite (bottom_under_complete_top ls C), B.
  vm_compute. reflexivity.
Qed.

Lemma complete_top_clears_bottom_witness :
  exists out,
    fix_complete_outfit_bottom (text_of reply_dress) = Ok out
    /\ (is_complete_outfit (lower (top_item_of out)) = true ->
        bottom_item_of out = py "None needed").
Proof.
  apply (complete_top_clears_bottom reply_dress (py "denim shorts"));
    vm_compute; reflexivity.
Defined.

End MoreRepair.

(** ** A styling request *)

Section MoreRequest.

Import Occasion Random Wardrobe Repair Database Weather Prompt Request.
Import Loaded LoadedProps MoreExamples Examples.

Variable sql_eq : str -> str -> bool.

(** On a table whose entries have all their keys, the request on the loaded
    table is the request above. *)
Lemma loaded_get_styling_advice_checked (cfg : config) (db : tables)
  (occasion profileId generated : str) (fetched : option weather) (g : rng) :
  loaded_get_styling_advice sql_eq (loaded_config cfg) db occasion profileId
    fetched generated g
  = get_styling_advice sql_eq cfg db occasion profileId fetched generated g.
Proof.
  unfold loaded_get_styling_advice, get_styling_advice. cbv zeta.
  destruct (get_items_by_profile sql_eq db profileId) as [|row rows];
    [reflexivity|].
  rewrite loaded_match_occasion_checked.
  destruct (match_occasion cfg occasion) as [[n r]|e]; [|reflexivity].
  cbn [bind fst snd]. unfold loaded_filter_wardrobe.
  cbn [loaded_rules entry_allowed_categories entry_style_notes index bind].
  change (rules_read _ (allowed_categories r))
    with (rules_read (loaded_rules r) (allowed_categories r)).
  rewrite rules_read_loaded.
  destruct (filter_wardrobe r (closet_of (row :: rows)) g) as [lists g0].
  destruct (format_list (filtered_tops lists) g0) as [s1 g1].
  destruct (format_list (filtered_bottoms lists) g1) as [s2 g2].
  destruct (format_list (filtered_shoes lists) g2) as [s3 g3].
  destruct (format_list (filtered_accessories lists) g3) as [s4 g4].
  destruct (format_list (all_dresses lists) g4) as [s5 g5].
  destruct (format_list (all_sarees lists) g5) as [s6 g6].
  reflexivity.
Qed.

(** With no key [style_notes] in the matched occasion, building the prompt
    raises [KeyError]. *)
Lemma missing_style_notes_raises :
  loaded_get_styling_advice str_eqb table_no_notes some_tables
    (py "a day at the beach") (py "ee90ff01") None
    (text_of reply_saree) [5; 3; 1]
  = Raise (KeyError (py "style_notes")).
Proof. vm_compute. reflexivity. Qed.


End MoreRequest.


(** ** Weather advice *)

Section MoreWeather.

Import Weather.

Lemma advice_cases (w : weather) :
  get_weather_advice (Some w)
  = join (py " ")
      ((if (temp w >=? 30)%Z then [hot_note]
        else if (temp w <=? 15)%Z then [cold_note] else [])
       ++ (if contains (py "rain") (lower (condition w)) then [rain_note] else [])).
Proof.
  unfold get_weather_advice. cbv zeta.
  destruct (temp w >=? 30)%Z; [|destruct (temp w <=? 15)%Z];
    destruct (contains (py "rain") (lower (condition w))); reflexivity.
Qed.

Ltac eval_contains :=
  repeat match goal with
  | |- context [contains ?a ?b] =>
    let v := eval vm_compute in (contains a b) in
    let E := fresh in
    assert (E : contains a b = v) by (vm_compute; reflexivity);
    rewrite E; clear E
  end.

(** X13: the advice holds the note for hot weather exactly when the
    temperature is 30 or more, the note for cold weather exactly when it is
    15 or less, and the note for rain exactly when the condition contains
    rain, ignoring case; so the hot and the cold note never come together. *)
Theorem weather_advice_notes (w : weather) :
  (contains hot_note (get_weather_advice (Some w)) = true <-> (30 <= temp w)%Z)
  /\ (contains cold_note (get_weather_advice (Some w)) = true
      <-> (temp w <= 15)%Z)
  /\ (contains rain_note (get_weather_advice (Some w)) = true
      <-> contains (py "rain") (lower (condition w)) = true).
Proof.
  rewrite advice_cases, Z.geb_leb.
  destruct (30 <=? temp w)%Z eqn:Hot; [|destruct (temp w <=? 15)%Z eqn:Cold];
    destruct (contains (py "rain") (lower (condition w))) eqn:Rain;
    try (apply Z.leb_le in Hot); try (apply Z.leb_le in Cold);
    try (apply Z.leb_gt in Hot); try (apply Z.leb_gt in Cold);
    eval_contains.
  all: repeat split; intros; try reflexivity; try discriminate; try lia.
Qed.

(** X14: the advice is the empty string exactly when there is no weather,
    or the temperature is above 15 and below 30 and the condition does not
    contain rain. *)
Theorem no_weather_advice (w : option weather) :
  get_weather_advice w = []
  <-> w = None
      \/ exists x, w = Some x /\ (15 < temp x < 30)%Z
                   /\ contains (py "rain") (lower (condition x)) = false.
Proof.
  destruct w as [x|]; [|split; [now left | reflexivity]].
  rewrite advice_cases, Z.geb_leb. split.
  - intros E. right. exists x. split; [reflexivity|].
    destruct (30 <=? temp x)%Z eqn:Hot; [|destruct (temp x <=? 15)%Z eqn:Cold];
      destruct (contains (py "rain") (lower (condition x)));
      try (vm_compute in E; discriminate E).
    apply Z.leb_gt in Hot, Cold. split; [lia | reflexivity].
  - intros [E|(y & E & T & R)]; [discriminate E|]. injection E as <-.
    rewrite R.
    destruct (Z.leb_spec 30 (temp x)); [lia|].
    destruct (Z.leb_spec (temp x) 15); [lia|]. reflexivity.
Qed.

(** The condition of a weather code reads rain for the four rain codes
    only. *)
Lemma rain_codes (code : Z) :
  contains (py "rain") (lower (fst (get_weather_condition code))) = true
  <-> In code [61; 63; 65; 80]%Z.
Proof.
  unfold get_weather_condition, conditions, code_get.
  repeat match goal with
  | |- context [Z.eqb ?k code] =>
    destruct (Z.eqb_spec k code) as [<-|]
  end.
  all: cbn [fst In]; eval_contains; split; intros H; try discriminate H;
    try reflexivity; try tauto.
  all: repeat (destruct H as [H|H]; [congruence|]); try contradiction.
Qed.

(** X15: for a weather whose condition is the one [get_weather_condition]
    gives for its code, the advice holds the note for rain exactly for the
    codes 61, 63, 65 and 80; the codes for drizzle and thunderstorm, and
    every code that is not in the table, give no such note. *)
Theorem rain_note_codes (code t : Z) (c : str) :
  contains rain_note
    (get_weather_advice
       (Some {| city := c; temp := t;
                condition := fst (get_weather_condition code);
                description := snd (get_weather_condition code) |})) = true
  <-> In code [61; 63; 65; 80]%Z.
Proof.
  rewrite <- rain_codes, advice_cases, Z.geb_leb. cbn [temp condition].
  destruct (30 <=? t)%Z; [|destruct (t <=? 15)%Z];
    destruct (contains (py "rain") (lower (fst (get_weather_condition code))));
    eval_contains; split; intros H; try discriminate H; reflexivity.
Qed.

End MoreWeather.

(** ** The tables and the endpoints that delete *)

Section MoreTables.

Import Database.

Variable sql_eq : str -> str -> bool.

Lemma find_filter_length (X : Type) (p : X -> bool) (l : list X) :
  (0 <? length (filter p l)) = match find p l with Some _ => true | None => false end.
Proof.
  induction l as [|x l IH]; [reflexivity|]. cbn [filter find].
  destruct (p x); [reflexivity|exact IH].
Qed.

(** What [db.delete_item] returns: the image of the first
    matching row. *)
Lemma delete_item_image (db : tables) (item_name : str)
  (profile_id : option str) :
  fst (db_delete_item sql_eq db item_name profile_id)
  = match find (item_matches sql_eq item_name profile_id) (items db) with
    | Some row => i_image row
    | None => None
    end.
Proof.
  unfold db_delete_item. cbn [fst]. rewrite find_filter_length.
  destruct (find (item_matches sql_eq item_name profile_id) (items db));
    reflexivity.
Qed.

Lemma delete_item_endpoint (db : tables) (item_name : str)
  (profile_id : option str) :
  Endpoints.delete_item sql_eq db item_name profile_id
  = (match fst (db_delete_item sql_eq db item_name profile_id) with
     | Some (c :: i) => (Endpoints.Deleted item_name, [c :: i])
     | _ => (Endpoints.NotFound item_name, [])
     end,
     snd (db_delete_item sql_eq db item_name profile_id)).
Proof.
  unfold Endpoints.delete_item.
  destruct (db_delete_item sql_eq db item_name profile_id)
    as [[[|c i]|] db']; reflexivity.
Qed.

(** X16: deleting an item removes every row that matches the name (and
    the profile, when one is given and not empty) and no other row.  The
    reply and the file that is removed depend on the first matching row
    only: the reply is Deleted exactly when that row has an image that is
    not empty, and only that image is removed. *)
Theorem delete_item_effect (db : tables) (item_name : str)
  (profile_id : option str) :
  let matches := item_matches sql_eq item_name profile_id in
  let r := Endpoints.delete_item sql_eq db item_name profile_id in
  items (snd r) = filter (fun row => negb (matches row)) (items db)
  /\ (fst (fst r) = Endpoints.Deleted item_name
      <-> exists row, find matches (items db) = Some row
                      /\ truthy (i_image row) = true)
  /\ forall image,
       In image (snd (fst r))
       <-> image <> []
           /\ exists row, find matches (items db) = Some row
                          /\ i_image row = Some image.
Proof.
  intros matches r. subst r. rewrite delete_item_endpoint, delete_item_image.
  fold matches. cbn [fst snd]. split; [reflexivity|].
  destruct (find matches (items db)) as [row|].
  - destruct (i_image row) as [[|c i]|] eqn:E; cbn [fst snd In]; split.
    + split; [discriminate|].
      intros (row' & F & T). injection F as <-. rewrite E in T. discriminate T.
    + intros image. split; [contradiction|].
      intros (N & row' & F & T). injection F as <-. congruence.
    + split; [|reflexivity]. intros _. exists row. rewrite E. now split.
    + intros image. split.
      * intros [<-|[]]. split; [discriminate|]. now exists row.
      * intros (N & row' & F & T). injection F as <-. left. congruence.
    + split; [discriminate|].
      intros (row' & F & T). injection F as <-. rewrite E in T. discriminate T.
    + intros image. split; [contradiction|].
      intros (N & row' & F & T). injection F as <-. congruence.
  - cbn [fst snd In]. split.
    + split; [discriminate|]. intros (row & F & _). discriminate F.
    + intros image. split; [contradiction|].
      intros (_ & row & F & _). discriminate F.
Qed.

(** X17: when the first matching row has no image, the matching rows are
    deleted all the same, but the reply says that the item was not found
    and no file is removed. *)
Theorem deleted_item_reported_missing (db : tables) (item_name : str)
  (profile_id : option str) (row : item_row) :
  find (item_matches sql_eq item_name profile_id) (items db) = Some row ->
  truthy (i_image row) = false ->
  let r := Endpoints.delete_item sql_eq db item_name profile_id in
  fst r = (Endpoints.NotFound item_name, [])
  /\ ~ In row (items (snd r))
  /\ length (items (snd r)) < length (items db).
Proof.
  intros F T r. subst r. rewrite delete_item_endpoint, delete_item_image, F.
  cbn [fst snd]. split; [|split].
  - destruct (i_image row) as [[|c i]|]; [reflexivity|discriminate T|reflexivity].
  - unfold db_delete_item. cbn [snd items]. rewrite filter_In.
    intros (_ & N). apply find_some in F. rewrite (proj2 F) in N. discriminate N.
  - unfold db_delete_item. cbn [snd items].
    apply find_some in F. destruct F as (I & M).
    clear T. induction (items db) as [|x l IH]; [contradiction|].
    cbn [filter length]. destruct I as [->|I].
    + rewrite M. cbn [negb].
      pose proof (filter_length_le (fun row => negb (item_matches sql_eq item_name profile_id row)) l).
      lia.
    + specialize (IH I).
      destruct (negb (item_matches sql_eq item_name profile_id x));
        cbn [length]; lia.
Qed.

(** X18: deleting a profile removes the files of exactly the images,
    other than the empty string, of the items of the profile, and removes
    from the three tables exactly the rows of the profile. *)
Theorem delete_profile_effect (db : tables) (profile_id : str) :
  let r := Endpoints.delete_profile sql_eq db profile_id in
  (forall image,
     In image (fst r)
     <-> image <> []
         /\ exists row, In row (items db)
                        /\ sql_eq (i_profile_id row) profile_id = true
                        /\ i_image row = Some image)
  /\ (forall row, In row (items (snd r))
                  <-> In row (items db)
                      /\ sql_eq (i_profile_id row) profile_id = false)
  /\ (forall row, In row (favorites (snd r))
                  <-> In row (favorites db)
                      /\ sql_eq (f_profile_id row) profile_id = false)
  /\ (forall row, In row (profiles (snd r))
                  <-> In row (profiles db)
                      /\ sql_eq (p_id row) profile_id = false).
Proof.
  intros r. subst r. unfold Endpoints.delete_profile, db_delete_profile.
  cbn [fst snd items favorites profiles]. split; [|split; [|split]].
  - intros image. rewrite filter_In, in_flat_map. split.
    + intros ((row & I & J) & T). apply filter_In in I.
      destruct (i_image row) as [x|] eqn:E; [|contradiction].
      destruct J as [<-|[]]. split.
      * destruct x; [discriminate T|discriminate].
      * exists row. unfold of_profile in I. tauto.
    + intros (N & row & I & P & E). split.
      * exists row. rewrite filter_In, E. unfold of_profile.
        split; [tauto|now left].
      * destruct image; [contradiction|reflexivity].
  - intros row. rewrite filter_In. unfold of_profile.
    rewrite negb_true_iff. tauto.
  - intros row. rewrite filter_In, negb_true_iff. tauto.
  - intros row. rewrite filter_In, negb_true_iff. tauto.
Qed.

(** X19: when the comparison of the column is transitive, deleting a
    profile keeps the foreign keys: every item and favorite left belongs to
    a profile that is left. *)
Theorem delete_profile_keeps_references (db : tables) (profile_id : str) :
  (forall a b c, sql_eq a b = true -> sql_eq b c = true -> sql_eq a c = true) ->
  TableProps.referential sql_eq db ->
  TableProps.referential sql_eq (snd (db_delete_profile sql_eq db profile_id)).
Proof.
  intros T (Hi & Hf). unfold db_delete_profile. cbn [snd]. split.
  - cbn [items profiles]. intros row I. apply filter_In in I.
    destruct I as (I & N). destruct (Hi row I) as (p & Ip & E).
    exists p. split; [|exact E]. apply filter_In. split; [exact Ip|].
    unfold of_profile in N. apply negb_true_iff in N. apply negb_true_iff.
    destruct (sql_eq (p_id p) profile_id) eqn:D; [|reflexivity].
    rewrite (T _ _ _ E D) in N. discriminate N.
  - cbn [favorites profiles]. intros row I. apply filter_In in I.
    destruct I as (I & N). destruct (Hf row I) as (p & Ip & E).
    exists p. split; [|exact E]. apply filter_In. split; [exact Ip|].
    apply negb_true_iff in N. apply negb_true_iff.
    destruct (sql_eq (p_id p) profile_id) eqn:D; [|reflexivity].
    rewrite (T _ _ _ E D) in N. discriminate N.
Qed.

Lemma filter_none (X : Type) (q : X -> bool) (l : list X) :
  filter q (filter (fun x => negb (q x)) l) = [].
Proof.
  induction l as [|x l IH]; [reflexivity|]. cbn [filter].
  destruct (q x) eqn:E; cbn [negb filter]; [exact IH|]. now rewrite E.
Qed.

(** X20: after a profile is deleted, a styling request for its id is
    answered with the empty-wardrobe message for the name User, whatever
    the occasion table, the occasion text and the generated text. *)
Theorem deleted_profile_has_empty_wardrobe (cfg : Occasion.config)
  (db : tables) (profile_id occasion generated : str)
  (fetched : option Weather.weather) (g : Random.rng) :
  sql_eq profile_id profile_id = true ->
  Request.get_styling_advice sql_eq cfg
    (snd (Endpoints.delete_profile sql_eq db profile_id))
    occasion profile_id fetched generated g
  = Ok (Request.EmptyWardrobe (py "User's wardrobe is empty! Add items first."),
        g).
Proof.
  intros R. unfold Request.get_styling_advice, Endpoints.delete_profile.
  cbn [db_delete_profile snd].
  unfold get_items_by_profile. cbn [items]. rewrite filter_none.
  replace (Request.profile_name_of _ profile_id) with (py "User");
    [vm_compute; reflexivity|].
  unfold Request.profile_name_of, get_all_profiles. cbn [profiles].
  induction (profiles db) as [|row l IH]; [reflexivity|].
  cbn [filter]. destruct (sql_eq (p_id row) profile_id) eqn:E; cbn [negb];
    [exact IH|].
  cbn [map find id].
  destruct (str_eqb (p_id row) profile_id) eqn:S; [|exact IH].
  apply TextFacts.str_eqb_eq in S. congruence.
Qed.

End MoreTables.

Section TableWitnesses.

Import Database MoreExamples.

Lemma str_eqb_trans (a b c : str) :
  str_eqb a b = true -> str_eqb b c = true -> str_eqb a c = true.
Proof.
  rewrite !TextFacts.str_eqb_eq. congruence.
Qed.

Lemma some_tables_referential : TableProps.referential str_eqb some_tables.
Proof.
  split; intros row I; cbn in I.
  - destruct I as [<-|[<-|[<-|[]]]];
      [eexists; split; [left; reflexivity|vm_compute; reflexivity]
      |eexists; split; [left; reflexivity|vm_compute; reflexivity]
      |eexists; split; [right; left; reflexivity|vm_compute; reflexivity]].
  - destruct I as [<-|[]].
    eexists; split; [left; reflexivity|vm_compute; reflexivity].
Qed.

Lemma deleted_item_reported_missing_witness :
  let r := Endpoints.delete_item str_eqb some_tables (py "white shirt") None in
  fst r = (Endpoints.NotFound (py "white shirt"), [])
  /\ ~ In row_shirt (items (snd r))
  /\ length (items (snd r)) < length (items some_tables).
Proof.
  apply (deleted_item_reported_missing str_eqb some_tables (py "white shirt")
           None row_shirt).
  - vm_compute. reflexivity.
  - reflexivity.
Defined.

Lemma delete_profile_keeps_references_witness :
  TableProps.referential str_eqb
    (snd (db_delete_profile str_eqb some_tables (py "ab12cd34"))).
Proof.
  apply (delete_profile_keeps_references str_eqb some_tables (py "ab12cd34")).
  - exact str_eqb_trans.
  - exact some_tables_referential.
Defined.

Lemma deleted_profile_has_empty_wardrobe_witness :
  Request.get_styling_advice str_eqb Examples.config_no_default
    (snd (Endpoints.delete_profile str_eqb some_tables (py "ab12cd34")))
    (py "a party") (py "ab12cd34") None (py "Top: none") [3; 1]
  = Ok (Request.EmptyWardrobe (py "User's wardrobe is empty! Add items first."),
        [3; 1]).
Proof.
  apply (deleted_profile_has_empty_wardrobe str_eqb Examples.config_no_default
           some_tables (py "ab12cd34") (py "a party") (py "Top: none") None
           [3; 1]).
  vm_compute. reflexivity.
Defined.

End TableWitnesses.

(** ** Naming an item from its picture *)

Section MoreVision.

Import Vision NameWords MoreExamples TextFacts.

Ltac each_member H :=
  repeat (destruct H as [<-|H]; [vm_compute; reflexivity|]); contradiction H.

(** X21: for every candidate label of the colour call, [classify_color]
    returns the colour the label was made from: no colour of the table
    occurs in the label of another. *)
Theorem color_of_candidate_label (color : str) (score : QArith_base.Q) :
  In color COLORS ->
  classify_color (Some (color ++ py " clothing", score)) = color.
Proof. intros H. unfold COLORS in H. cbn [In] in H. each_member H. Qed.

Lemma color_of_candidate_label_witness :
  classify_color (Some (py "navy" ++ py " clothing", QArith_base.Qmake 1 3))
  = py "navy".
Proof.
  apply (color_of_candidate_label (py "navy") (QArith_base.Qmake 1 3)).
  vm_compute. tauto.
Defined.

(** X22: for every candidate label of the pattern call,
    [classify_pattern] returns the pattern of the label when the score is
    above three tenths and the pattern is not plain, and nothing
    otherwise. *)
Theorem pattern_of_candidate_label (pattern : str) (score : QArith_base.Q) :
  In pattern PATTERNS ->
  classify_pattern (Some (py "a " ++ pattern ++ py " pattern clothing", score))
  = if above (QArith_base.Qmake 3 10) score
       && negb (str_eqb pattern (py "plain"))
    then Some pattern else None.
Proof.
  intros H. unfold classify_pattern.
  destruct (above (QArith_base.Qmake 3 10) score); cbn [andb];
    [|reflexivity].
  unfold PATTERNS in H. cbn [In] in H. each_member H.
Qed.

Lemma pattern_of_candidate_label_witness :
  classify_pattern
    (Some (py "a " ++ py "polka dot" ++ py " pattern clothing",
           QArith_base.Qmake 1 2))
  = if above (QArith_base.Qmake 3 10) (QArith_base.Qmake 1 2)
       && negb (str_eqb (py "polka dot") (py "plain"))
    then Some (py "polka dot") else None.
Proof.
  apply (pattern_of_candidate_label (py "polka dot") (QArith_base.Qmake 1 2)).
  vm_compute. tauto.
Defined.

(** X23: for every candidate label of the material call,
    [classify_material] returns the material of the label when the score is
    above one quarter, and nothing otherwise. *)
Theorem material_of_candidate_label (material : str) (score : QArith_base.Q) :
  In material MATERIALS ->
  classify_material (Some (py "a " ++ material ++ py " fabric clothing", score))
  = if above (QArith_base.Qmake 1 4) score then Some material else None.
Proof.
  intros H. unfold classify_material.
  destruct (above (QArith_base.Qmake 1 4) score); [|reflexivity].
  unfold MATERIALS in H. cbn [In] in H. each_member H.
Qed.

Lemma material_of_candidate_label_witness :
  classify_material
    (Some (py "a " ++ py "silk" ++ py " fabric clothing", QArith_base.Qmake 1 4))
  = if above (QArith_base.Qmake 1 4) (QArith_base.Qmake 1 4)
    then Some (py "silk") else None.
Proof.
  apply (material_of_candidate_label (py "silk") (QArith_base.Qmake 1 4)).
  vm_compute. tauto.
Defined.

(** X24: for every clothing type listed under a category,
    [classify_clothing_type] returns that category: no type is listed under
    two categories, so no entry of the flattened table is overwritten. *)
Theorem category_of_candidate_label (category : str) (types : list str)
  (clothing_type : str) (score : QArith_base.Q) :
  In (category, types) CLOTHING_TYPES -> In clothing_type types ->
  classify_clothing_type (Some (clothing_type, score))
  = (clothing_type, category).
Proof.
  intros C T. unfold CLOTHING_TYPES in C. cbn [In] in C.
  repeat (destruct C as [C|C];
          [injection C as <- <-; cbn [In] in T; each_member T|]).
  contradiction C.
Qed.

Lemma category_of_candidate_label_witness :
  classify_clothing_type (Some (py "silk saree", QArith_base.Qmake 7 10))
  = (py "silk saree", py "Saree").
Proof.
  apply (category_of_candidate_label (py "Saree")
           [py "saree"; py "silk saree"; py "cotton saree"]
           (py "silk saree") (QArith_base.Qmake 7 10)).
  - vm_compute. tauto.
  - right. left. reflexivity.
Defined.

(** *** The words of a name *)

Lemma replace_absent (old new : str) (s : str) :
  contains old s = false -> str_replace old new s = s.
Proof.
  unfold str_replace. induction s as [|c s IH]; [reflexivity|].
  cbn [contains replace_from]. intros H. apply orb_false_iff in H.
  destruct H as (-> & H). now rewrite IH.
Qed.

Lemma double_underscore : py "__" = [underscore; underscore].
Proof. reflexivity. Qed.

Lemma no_double_contains (s : str) :
  no_double s = true -> contains (py "__") s = false.
Proof.
  rewrite double_underscore.
  induction s as [|a t IH]; [reflexivity|].
  cbn [no_double]. intros H. apply andb_true_iff in H. destruct H as (H & N).
  cbn [contains]. rewrite (IH N), orb_false_r.
  destruct t as [|b t]; cbn [startswith]; [apply andb_false_r|].
  rewrite andb_true_r. apply negb_true_iff in H.
  rewrite (Ascii.eqb_sym underscore a), (Ascii.eqb_sym underscore b).
  exact H.
Qed.

Lemma in_chars_underscore (c : ascii) :
  in_chars (py "_") c = Ascii.eqb c underscore.
Proof. unfold in_chars. cbn [py existsb]. apply orb_false_r. Qed.

Lemma lstrip_chars_head (s : str) :
  Ascii.eqb (hd underscore s) underscore = false ->
  lstrip_chars (py "_") s = s.
Proof.
  destruct s as [|c s]; [reflexivity|]. cbn [hd lstrip_chars].
  rewrite in_chars_underscore. now intros ->.
Qed.

Lemma rstrip_chars_last (s : str) :
  s <> [] -> Ascii.eqb (last s underscore) underscore = false ->
  rstrip_chars (py "_") s = s.
Proof.
  induction s as [|c s IH]; [contradiction|]. intros _ L.
  cbn [rstrip_chars]. destruct s as [|d s].
  - cbn [rstrip_chars last] in *. rewrite in_chars_underscore, L. reflexivity.
  - rewrite IH; [reflexivity|discriminate|exact L].
Qed.

Lemma tidy_spec (s : str) :
  tidy s = true
  <-> s <> [] /\ Ascii.eqb (hd underscore s) underscore = false
      /\ Ascii.eqb (last s underscore) underscore = false
      /\ no_double s = true /\ lower s = s.
Proof.
  unfold tidy. rewrite !andb_true_iff, !negb_true_iff, str_eqb_eq.
  destruct s; cbn [Repair.is_empty]; intuition congruence.
Qed.

Lemma cleanup_tidy (s : str) : tidy s = true -> cleanup s = s.
Proof.
  intros T. apply tidy_spec in T. destruct T as (N & H & L & D & W).
  unfold cleanup, strip_chars.
  rewrite (replace_absent _ _ _ (no_double_contains _ D)).
  rewrite (lstrip_chars_head _ H), (rstrip_chars_last _ N L). exact W.
Qed.

Lemma no_double_app (a b : str) :
  a <> [] -> b <> [] ->
  Ascii.eqb (last a underscore) underscore = false ->
  Ascii.eqb (hd underscore b) underscore = false ->
  no_double a = true -> no_double b = true ->
  no_double (a ++ underscore :: b) = true.
Proof.
  intros Na Nb La Hb Da Db. induction a as [|c a IH]; [contradiction|].
  destruct a as [|d a].
  - cbn [app no_double last] in *. rewrite La. cbn [andb negb].
    destruct b as [|e b]; [contradiction|]. cbn [hd] in Hb. rewrite Hb.
    rewrite andb_false_r. exact Db.
  - cbn [app no_double] in *. apply andb_true_iff in Da. destruct Da as (X & Da).
    rewrite X. apply IH; [discriminate|exact La|exact Da].
Qed.

Lemma last_app_cons (a b : str) (c : ascii) :
  last (a ++ c :: b) underscore = last (c :: b) underscore.
Proof.
  induction a as [|x a IH]; [reflexivity|].
  cbn [app]. destruct (a ++ c :: b) as [|y l] eqn:E; [now destruct a|].
  change (last (x :: y :: l) underscore) with (last (y :: l) underscore).
  exact IH.
Qed.

Lemma tidy_join (p : str) (ps : list str) :
  Forall (fun s => tidy s = true) (p :: ps) ->
  tidy (Weather.join (py "_") (p :: ps)) = true.
Proof.
  revert p. induction ps as [|q ps IH]; intros p F.
  - now inversion F.
  - assert (E : Weather.join (py "_") (p :: q :: ps)
                = p ++ underscore :: Weather.join (py "_") (q :: ps))
      by reflexivity.
    rewrite E. clear E. inversion F as [|? ? Tp F']. subst.
    specialize (IH q F').
    apply tidy_spec in Tp. destruct Tp as (Np & Hp & Lp & Dp & Wp).
    apply tidy_spec in IH. destruct IH as (Nj & Hj & Lj & Dj & Wj).
    apply tidy_spec. repeat split.
    + now destruct p.
    + destruct p; [contradiction|exact Hp].
    + rewrite last_app_cons.
      destruct (Weather.join (py "_") (q :: ps)); [contradiction|exact Lj].
    + now apply no_double_app.
    + unfold lower in *. rewrite map_app. cbn [map]. now rewrite Wp, Wj.
Qed.

(** *** What the classifiers can return *)

Lemma classify_color_returned (results : outcome) :
  In (classify_color results) colors_returned.
Proof.
  unfold classify_color, colors_returned. apply in_or_app.
  destruct results as [[best_label score]|]; [|right; right; now left].
  destruct (find (fun color => contains color best_label) COLORS) as [c|] eqn:F;
    [|right; now left].
  left. exact (proj1 (find_some _ _ F)).
Qed.

Lemma classify_pattern_returned (results : outcome) :
  In (classify_pattern results) patterns_returned.
Proof.
  unfold classify_pattern, patterns_returned.
  destruct results as [[best_label score]|]; [|now left].
  destruct (above _ score); [|now left].
  match goal with
  | |- In (find ?q PATTERNS) _ => destruct (find q PATTERNS) as [x|] eqn:F
  end; [|now left].
  right. apply in_map. exact (proj1 (find_some _ _ F)).
Qed.

Lemma classify_material_returned (results : outcome) :
  In (classify_material results) materials_returned.
Proof.
  unfold classify_material, materials_returned.
  destruct results as [[best_label score]|]; [|now left].
  destruct (above _ score); [|now left].
  match goal with
  | |- In (find ?q MATERIALS) _ => destruct (find q MATERIALS) as [x|] eqn:F
  end; [|now left].
  right. apply in_map. exact (proj1 (find_some _ _ F)).
Qed.

Lemma returned_words_tidy :
  forallb tidy colors_returned = true
  /\ forallb tidy PATTERNS = true
  /\ forallb tidy MATERIALS = true
  /\ forallb (fun tc => tidy (formatted (fst tc))) types_returned = true.
Proof. vm_compute. repeat split. Qed.

Lemma returned_types :
  map fst (tl types_returned) = ALL_CLOTHING_TYPES
  /\ forallb (fun tc =>
                match dict_get CLOTHING_TO_CATEGORY (fst tc) with
                | Some category => str_eqb category (snd tc)
                | None => false
                end) (tl types_returned) = true.
Proof. vm_compute. split; reflexivity. Qed.

Lemma classify_clothing_type_returned (results : outcome) :
  results = None
  \/ (exists clothing_type score,
        results = Some (clothing_type, score)
        /\ In clothing_type ALL_CLOTHING_TYPES) ->
  In (classify_clothing_type results) types_returned.
Proof.
  intros [->|(t & s & -> & I)]; [now left|].
  right. destruct returned_types as (E & C). rewrite <- E in I.
  apply in_map_iff in I. destruct I as ([t' c] & <- & I).
  rewrite forallb_forall in C. specialize (C _ I). cbn [fst snd] in *.
  unfold classify_clothing_type.
  destruct (dict_get CLOTHING_TO_CATEGORY t') as [c'|]; [|discriminate C].
  apply str_eqb_eq in C. subst c'. exact I.
Qed.

Lemma attributes_parts (v : view) (category tf : str) :
  attributes v category tf
  = parts (classify_color (color_results v))
          (classify_pattern (pattern_results v))
          (classify_material (material_results v)) category tf.
Proof. reflexivity. Qed.

Lemma parts_tidy (color : str) (pattern material : option str)
  (category tf : str) :
  In color colors_returned -> In pattern patterns_returned ->
  In material materials_returned ->
  Forall (fun s => tidy s = true) (parts color pattern material category tf).
Proof.
  intros Ic Ip Im.
  destruct returned_words_tidy as (Tc & Tp & Tm & _).
  rewrite forallb_forall in Tc, Tp, Tm.
  assert (Hc : tidy color = true) by now apply Tc.
  assert (Hp : forall p, pattern = Some p -> tidy p = true).
  { intros p ->. destruct Ip as [Ip|Ip]; [discriminate Ip|].
    apply in_map_iff in Ip. destruct Ip as (x & [= ->] & Ip). now apply Tp. }
  assert (Hm : forall m, material = Some m -> tidy m = true).
  { intros m ->. destruct Im as [Im|Im]; [discriminate Im|].
    apply in_map_iff in Im. destruct Im as (x & [= ->] & Im). now apply Tm. }
  unfold parts. cbv zeta. cbn [app].
  repeat match goal with
  | |- context [if ?b then _ else _] => destruct b
  | |- context [match ?o with Some _ => _ | None => _ end] =>
    destruct o as [[|? ?]|]
  end; repeat constructor; try exact Hc;
    try (apply Hp; reflexivity); try (apply Hm; reflexivity).
Qed.

Lemma name_is_tidy (v : view) :
  type_results v = None
  \/ (exists clothing_type score,
        type_results v = Some (clothing_type, score)
        /\ In clothing_type ALL_CLOTHING_TYPES) ->
  tidy (Weather.join (py "_")
          (attributes v (snd (classify_clothing_type (type_results v)))
                      (formatted (fst (classify_clothing_type (type_results v))))
           ++ [formatted (fst (classify_clothing_type (type_results v)))]))
  = true.
Proof.
  intros T.
  set (category := snd (classify_clothing_type (type_results v))).
  set (tf := formatted (fst (classify_clothing_type (type_results v)))).
  assert (F : Forall (fun s => tidy s = true) (attributes v category tf ++ [tf])).
  { apply Forall_app. split.
    - rewrite attributes_parts.
      apply parts_tidy; [apply classify_color_returned
                        |apply classify_pattern_returned
                        |apply classify_material_returned].
    - repeat constructor.
      destruct returned_words_tidy as (_ & _ & _ & Tt).
      rewrite forallb_forall in Tt.
      exact (Tt _ (classify_clothing_type_returned _ T)). }
  destruct (attributes v category tf ++ [tf]) as [|p ps] eqn:E.
  - destruct (attributes v category tf); discriminate E.
  - now apply tidy_join.
Qed.

Lemma generate_item_name_tidy (v : view) :
  loaded v = true ->
  tidy (Weather.join (py "_")
          (attributes v (snd (classify_clothing_type (type_results v)))
                      (formatted (fst (classify_clothing_type (type_results v))))
           ++ [formatted (fst (classify_clothing_type (type_results v)))]))
  = true ->
  generate_item_name v
  = (Some (Weather.join (py "_")
             (attributes v (snd (classify_clothing_type (type_results v)))
                         (formatted (fst (classify_clothing_type (type_results v))))
              ++ [formatted (fst (classify_clothing_type (type_results v)))])),
     Some (snd (classify_clothing_type (type_results v)))).
Proof.
  intros L G. unfold generate_item_name. rewrite L.
  destruct (classify_clothing_type (type_results v)) as [t c].
  cbn [fst snd] in *. f_equal. f_equal. exact (cleanup_tidy _ G).
Qed.

(** X25: when the classifier is loaded and the type call fails or
    returns a label of the tables, [generate_item_name] returns the
    category of the type and, as the name, the attribute words and the
    formatted type joined by underscores: the final clean-up changes
    nothing.  The name is not empty, has no underscore at either end, no
    two underscores in a row and no capital letter. *)
Theorem generated_name (v : view) :
  loaded v = true ->
  type_results v = None
  \/ (exists clothing_type score,
        type_results v = Some (clothing_type, score)
        /\ In clothing_type ALL_CLOTHING_TYPES) ->
  let clothing_type := fst (classify_clothing_type (type_results v)) in
  let category := snd (classify_clothing_type (type_results v)) in
  let name :=
    Weather.join (py "_")
      (attributes v category (formatted clothing_type)
       ++ [formatted clothing_type]) in
  generate_item_name v = (Some name, Some category) /\ tidy name = true.
Proof.
  intros L T clothing_type category name.
  pose proof (name_is_tidy v T) as G. fold clothing_type category name in G.
  split; [|exact G].
  subst name category clothing_type.
  exact (generate_item_name_tidy v L G).
Qed.

Lemma generated_name_witness :
  generate_item_name picture_shorts
  = (Some (Weather.join (py "_")
             (attributes picture_shorts
                (snd (classify_clothing_type (type_results picture_shorts)))
                (formatted
                   (fst (classify_clothing_type (type_results picture_shorts))))
              ++ [formatted
                    (fst (classify_clothing_type (type_results picture_shorts)))])),
     Some (snd (classify_clothing_type (type_results picture_shorts))))
  /\ tidy (Weather.join (py "_")
             (attributes picture_shorts
                (snd (classify_clothing_type (type_results picture_shorts)))
                (formatted
                   (fst (classify_clothing_type (type_results picture_shorts))))
              ++ [formatted
                    (fst (classify_clothing_type (type_results picture_shorts)))]))
     = true.
Proof.
  apply (generated_name picture_shorts).
  - reflexivity.
  - right. exists (py "denim shorts"), (QArith_base.Qmake 9 10).
    split; [reflexivity|]. vm_compute. tauto.
Defined.

(** The name of the picture of the examples. *)
Lemma picture_shorts_name :
  generate_item_name picture_shorts
  = (Some (py "blue_striped_denim_shorts"), Some (py "Bottom")).
Proof. vm_compute. reflexivity. Qed.

End MoreVision.

(** ** Adding an item *)

Section MoreUpload.

Import Database Vision NameWords Upload MoreExamples.

(** Every combination of what the request gives and what the classifier
    returns. *)
Ltac add_item_cases ai name category image G :=
  unfold add_item;
  destruct image as [picture|];
  [destruct ai;
   [destruct name as [[|? ?]|]; destruct category as [[|? ?]|];
    cbn [truthy negb andb orb];
    try (destruct (generate_item_name picture) as [[[|? ?]|] [[|? ?]|]] eqn:G)
   |]
  |];
  cbn [truthy negb andb orb fst snd].

Lemma fallback_name_not_empty (hex6 : str) : py "item_" ++ hex6 <> [].
Proof. vm_compute. discriminate. Qed.

Lemma uncategorized_not_empty : py "Uncategorized" <> [].
Proof. vm_compute. discriminate. Qed.

(** X26: the name and the category that [add_item] hands to the
    database are never empty, whatever the request gives and whatever the
    classifier returns. *)
Theorem stored_fields_not_empty (ai : bool) (name category : option str)
  (image : option view) (hex6 : str) :
  fst (fst (add_item ai name category image hex6)) <> []
  /\ snd (fst (add_item ai name category image hex6)) <> [].
Proof.
  add_item_cases ai name category image G.
  all: repeat match goal with
       | x : option str |- _ => destruct x as [[|? ?]|]
       end.
  all: cbn [fst snd]; split;
    first [apply fallback_name_not_empty | apply uncategorized_not_empty
          | discriminate].
Qed.

(** X27: a name given with the request is stored as it is, and the item
    is not marked as auto-generated, also when the classifier is consulted
    for the category. *)
Theorem given_name_is_kept (ai : bool) (name category : option str)
  (image : option view) (hex6 n : str) :
  name = Some n -> n <> [] ->
  fst (fst (add_item ai name category image hex6)) = n
  /\ snd (add_item ai name category image hex6) = false.
Proof.
  intros -> N. destruct n as [|c n]; [contradiction|].
  unfold add_item.
  destruct image as [picture|];
    [destruct ai; [destruct category as [[|? ?]|]; cbn [truthy negb andb orb];
     try (destruct (generate_item_name picture) as [gn [[|? ?]|]])|]|].
  all: cbn [truthy negb andb orb fst snd]; split; reflexivity.
Qed.

Lemma given_name_is_kept_witness :
  fst (fst (add_item true (Some (py "my shorts")) None (Some picture_shorts)
              (py "a1b2c3")))
  = py "my shorts"
  /\ snd (add_item true (Some (py "my shorts")) None (Some picture_shorts)
            (py "a1b2c3"))
     = false.
Proof.
  apply (given_name_is_kept true (Some (py "my shorts")) None
           (Some picture_shorts) (py "a1b2c3") (py "my shorts")).
  - reflexivity.
  - discriminate.
Defined.

(** X28: a category given with the request is stored as it is, whatever
    the classifier detects. *)
Theorem given_category_is_kept (ai : bool) (name category : option str)
  (image : option view) (hex6 k : str) :
  category = Some k -> k <> [] ->
  snd (fst (add_item ai name category image hex6)) = k.
Proof.
  intros -> N. destruct k as [|c k]; [contradiction|].
  unfold add_item.
  destruct image as [picture|];
    [destruct ai; [destruct name as [[|? ?]|]; cbn [truthy negb andb orb];
     try (destruct (generate_item_name picture) as [[[|? ?]|] dc])|]|].
  all: cbn [truthy negb andb orb fst snd]; reflexivity.
Qed.

Lemma given_category_is_kept_witness :
  snd (fst (add_item true None (Some (py "Beachwear")) (Some picture_shorts)
              (py "a1b2c3")))
  = py "Beachwear".
Proof.
  apply (given_category_is_kept true None (Some (py "Beachwear"))
           (Some picture_shorts) (py "a1b2c3") (py "Beachwear")).
  - reflexivity.
  - discriminate.
Defined.

(** X29: an item is marked as auto-generated exactly when the classifier
    is available, the request gives no name, a picture was uploaded and the
    name generated from it is not empty; and under these four conditions
    the item is stored under the generated name. *)
Theorem auto_generated_exactly (ai : bool) (name category : option str)
  (image : option view) (hex6 : str) :
  (snd (add_item ai name category image hex6) = true
   <-> ai = true /\ truthy name = false
       /\ exists picture generated,
            image = Some picture
            /\ fst (generate_item_name picture) = Some generated
            /\ generated <> [])
  /\ forall picture generated,
       ai = true -> truthy name = false -> image = Some picture ->
       fst (generate_item_name picture) = Some generated ->
       generated <> [] ->
       add_item ai name category image hex6
       = (generated, snd (fst (add_item ai name category image hex6)), true).
Proof.
  split.
  - destruct image as [picture|];
      [|split; [discriminate|intros (_ & _ & p & g & E & _); discriminate E]].
    destruct ai;
      [|split; [discriminate|intros (F & _); discriminate F]].
    destruct name as [[|c n]|].
    2:{ split; [|intros (_ & F & _); discriminate F].
        unfold add_item. destruct category as [[|? ?]|];
          cbn [truthy negb andb orb];
          try (destruct (generate_item_name picture) as [gn [[|? ?]|]]);
          cbn [truthy negb andb orb fst snd]; discriminate. }
    all: unfold add_item; cbn [truthy negb andb orb];
      destruct (generate_item_name picture) as [[[|c g]|] dc] eqn:G;
      destruct category as [[|? ?]|]; destruct dc as [[|? ?]|];
      cbn [truthy negb andb orb fst snd].
    all: split;
      [ try discriminate; intros _; repeat split;
        exists picture; eexists; rewrite G; repeat split; discriminate
      | try reflexivity;
        intros (_ & _ & p & g' & E & E' & N); injection E as <-;
        rewrite G in E'; cbn [fst] in E'; congruence ].
  - intros picture generated -> N -> G Ne.
    destruct generated as [|c g]; [contradiction|].
    unfold add_item. cbn [andb]. rewrite N. cbn [negb orb andb].
    destruct (generate_item_name picture) as [gn dc]. cbn [fst] in G.
    subst gn. cbn [truthy].
    destruct name as [[|? ?]|]; try discriminate N;
      destruct (negb (truthy category) && truthy dc); reflexivity.
Qed.

Lemma categories_not_empty :
  forallb (fun tc => negb (Repair.is_empty (snd tc))) types_returned = true.
Proof. vm_compute. reflexivity. Qed.

(** X30: with the classifier available and loaded, a picture whose type
    call fails or returns a label of the tables, uploaded with no name, is
    stored under the name generated from it and marked as auto-generated;
    its category is the one given with the request, or the detected one
    when none is given. *)
Theorem picture_names_the_item (name category : option str) (v : view)
  (hex6 : str) :
  truthy name = false ->
  loaded v = true ->
  type_results v = None
  \/ (exists clothing_type score,
        type_results v = Some (clothing_type, score)
        /\ In clothing_type ALL_CLOTHING_TYPES) ->
  let clothing_type := fst (classify_clothing_type (type_results v)) in
  let detected := snd (classify_clothing_type (type_results v)) in
  add_item true name category (Some v) hex6
  = (Weather.join (py "_")
       (attributes v detected (formatted clothing_type)
        ++ [formatted clothing_type]),
     match category with
     | Some (c :: k) => c :: k
     | _ => detected
     end,
     true).
Proof.
  intros N L T clothing_type detected.
  pose proof (name_is_tidy v T) as G.
  pose proof (generate_item_name_tidy v L G) as E.
  fold clothing_type detected in G, E.
  assert (D : detected <> []).
  { pose proof categories_not_empty as C. rewrite forallb_forall in C.
    specialize (C _ (classify_clothing_type_returned _ T)).
    fold detected in C. now destruct detected. }
  apply tidy_spec in G. destruct G as (Nn & _).
  unfold add_item. cbn [andb]. rewrite N. cbn [negb orb andb]. rewrite E.
  destruct (Weather.join (py "_")
              (attributes v detected (formatted clothing_type)
               ++ [formatted clothing_type])) as [|a nm]; [contradiction|].
  destruct detected as [|d dt]; [contradiction|].
  cbn [truthy]. destruct name as [[|? ?]|]; try discriminate N;
    destruct category as [[|? ?]|]; reflexivity.
Qed.

Lemma picture_names_the_item_witness :
  add_item true None None (Some picture_shorts) (py "a1b2c3")
  = (Weather.join (py "_")
       (attributes picture_shorts
          (snd (classify_clothing_type (type_results picture_shorts)))
          (formatted (fst (classify_clothing_type (type_results picture_shorts))))
        ++ [formatted
              (fst (classify_clothing_type (type_results picture_shorts)))]),
     snd (classify_clothing_type (type_results picture_shorts)),
     true).
Proof.
  apply (picture_names_the_item None None picture_shorts (py "a1b2c3")).
  - reflexivity.
  - reflexivity.
  - right. exists (py "denim shorts"), (QArith_base.Qmake 9 10).
    split; [reflexivity|]. vm_compute. tauto.
Defined.

End MoreUpload.
